(** * realmeta-: content-based image retrieval

    A shallow embedding of the retrieval core of the repository
    ([pipeline.py], [embedding_service.py], [app.py], [images_embed.py]):
    subject localisation and cropping, colour normalisation, embedding
    generation and the two HTTP endpoints that index and search images.

    The pretrained detector, the pretrained vision model, the pixel-level
    routines of Pillow and OpenCV, the float32 kernels of numpy/torch and the
    random source of [uuid] are collaborators: they enter as type classes.
    The file system, the service behind the database client and the
    interpreter's start-up steps enter the same way, each with the
    failures it can answer with.  Everything the repository's own code
    decides (control flow, flags, integer and float arithmetic on box
    coordinates, exception propagation, identifiers, calls to the vector
    database) is modelled concretely; module [Float32] gives the float32
    kernels in IEEE-754 binary32 for the statements about the norm of an
    embedding. *)

From Stdlib Require Import ZArith QArith Qabs List String Ascii Bool Lia Lqa Qpower SpecFloat.
From stdpp Require Import base gmap strings list.
Import ListNotations.

Local Open Scope string_scope.
Local Open Scope Z_scope.

Set Warnings "-register-all".

(** ** Exceptions and results

    A Python call either returns a value or raises.  [Exception kind msg]
    carries the class name and [str(e)]. *)

Inductive exn : Type :=
| Exception (kind : string) (msg : string).

Definition exn_str (e : exn) : string :=
  match e with Exception _ msg => msg end.

Inductive result (A : Type) : Type :=
| Ok (a : A)
| Raise (e : exn).

Arguments Ok {A} a.
Arguments Raise {A} e.

#[global] Instance result_ret : MRet result := fun A a => Ok a.

#[global] Instance result_bind : MBind result :=
  fun A B f m => match m with Ok a => f a | Raise e => Raise e end.

#[global] Instance result_fmap : FMap result :=
  fun A B f m => match m with Ok a => Ok (f a) | Raise e => Raise e end.

Definition is_ok {A} (r : result A) : bool :=
  match r with Ok _ => true | Raise _ => false end.

(** ** Python floats

    A Python [float] is an IEEE-754 binary64 number; the Standard Library's
    [spec_float] at precision 53 and maximal exponent 1024 gives its
    arithmetic, comparisons included (every comparison with NaN is false). *)

Module PyFloat.

Definition float : Set := spec_float.

Definition prec : Z := 53.
Definition emax : Z := 1024.

Definition sub : float -> float -> float := SFsub prec emax.
Definition mul : float -> float -> float := SFmul prec emax.
Definition div : float -> float -> float := SFdiv prec emax.

(** [gt a b] is Python's [a > b]. *)
Definition gt (a b : float) : bool := SFltb b a.

Definition eqb (a b : float) : bool := SFeqb a b.

(** [float(n)] for an integer [n], rounded to nearest-even. *)
Definition of_int (n : Z) : float := binary_normalize prec emax n 0 false.

(** A decimal literal [p/q] of the source text ([0.05] is [literal 1 20]):
    the nearest binary64 number. *)
Definition literal (p q : Z) : float := div (of_int p) (of_int q).

Definition zero : float := S754_zero false.

Definition is_inf (x : float) : bool :=
  match x with S754_infinity _ => true | _ => false end.

(** [n * f] for an [int] n and a [float] f: [n] is converted first, and the
    conversion raises when [n] is out of the binary64 range. *)
Definition int_times (n : Z) (f : float) : result float :=
  let x := of_int n in
  if is_inf x
  then Raise (Exception "OverflowError" "int too large to convert to float")
  else Ok (mul x f).

(** [int(x)]: truncation toward zero; NaN and the infinities raise. *)
Definition to_int (x : float) : result Z :=
  match x with
  | S754_zero _ => Ok 0
  | S754_finite s m e => Ok (cond_Zopp s (Z.shiftl (Zpos m) e))
  | S754_infinity _ =>
      Raise (Exception "OverflowError" "cannot convert float infinity to integer")
  | S754_nan =>
      Raise (Exception "ValueError" "cannot convert float NaN to integer")
  end.

End PyFloat.

Abbreviation float := PyFloat.float.

(** ** Pillow images

    Spec section 3: an image is an in-memory raster of 8-bit RGB triples,
    [width x height x 3].  [mode] is Pillow's mode string, [size] is
    [(width, height)], [getpixel x y] the pixel in column [x], row [y]. *)

Definition pixel : Type := Z * Z * Z.

Definition bytes : Type := list Byte.byte.

Module PIL.

Record Image : Type := mkImage {
  mode : string;
  size : Z * Z;
  getpixel : Z -> Z -> pixel
}.

(** Pillow's pixel-level routines and codecs. *)
Class Imaging : Type := {
  (** band conversion of [Image.convert] from a source mode to a target
      mode, applied to a raster; [ValueError] when Pillow does not support
      the conversion *)
  convert_bands : string -> string -> result ((Z -> Z -> pixel) -> Z -> Z -> pixel);
  (** bicubic resampling of [Image.resize]: source, target size, raster *)
  resample_bicubic : Image -> Z * Z -> Z -> Z -> pixel;
  (** [Image.save(buf, format=fmt)]: the encoded bytes, or an exception *)
  save : Image -> string -> result bytes;
  (** [Image.open] on the content of a file *)
  decode : bytes -> result Image
}.

Definition width (im : Image) : Z := fst (size im).
Definition height (im : Image) : Z := snd (size im).

Definition black : pixel := (0, 0, 0).

(** [Image.crop(box)] with [box = (x0, y0, x1, y1)], that is (left, upper,
    right, lower): the region has size [(x1 - x0, y1 - y0)]; what lies outside
    the source is filled with zeros; an inverted box raises [ValueError]. *)
Definition crop (im : Image) (box : Z * Z * Z * Z) : result Image :=
  let '(x0, y0, x1, y1) := box in
  if x1 <? x0 then
    Raise (Exception "ValueError" "Coordinate 'right' is less than 'left'")
  else if y1 <? y0 then
    Raise (Exception "ValueError" "Coordinate 'lower' is less than 'upper'")
  else
    Ok {| mode := mode im;
          size := (x1 - x0, y1 - y0);
          getpixel := fun x y =>
            let sx := x + x0 in
            let sy := y + y0 in
            if (0 <=? sx) && (sx <? width im) && (0 <=? sy) && (sy <? height im)
            then getpixel im sx sy
            else black |}.

(** [numpy.array(im)] of an RGB image: [height] rows of [width] pixels. *)
Definition asarray (im : Image) : list (list pixel) :=
  map (fun y => map (fun x => getpixel im x y) (seqZ 0 (width im)))
      (seqZ 0 (height im)).

(** [Image.fromarray(a)] of a [h x w x 3] array of 8-bit values. *)
Definition fromarray (a : list (list pixel)) : Image :=
  {| mode := "RGB";
     size := (Z.of_nat (length (hd [] a)), Z.of_nat (length a));
     getpixel := fun x y =>
       nth (Z.to_nat x) (nth (Z.to_nat y) a []) black |}.

(** [Image.convert(m)]: a copy when the image already has mode [m]; an
    unsupported conversion raises. *)
Definition convert `{Imaging} (im : Image) (m : string) : result Image :=
  if decide (mode im = m) then Ok im
  else
    bands ← convert_bands (mode im) m;
    Ok {| mode := m;
          size := size im;
          getpixel := bands (getpixel im) |}.

(** [Image.resize(sz, Image.BICUBIC)]: a copy when the size is unchanged. *)
Definition resize `{Imaging} (im : Image) (sz : Z * Z) : Image :=
  if decide (size im = sz) then im
  else {| mode := mode im;
          size := sz;
          getpixel := resample_bicubic im sz |}.

End PIL.

(** One detection of the YOLO model: corner coordinates, confidence, class. *)
Record Box : Type := mkBox {
  xyxy : float * float * float * float;
  conf : float;
  cls : Z
}.

(** The detector: [predict buf conf max_det imgsz] is [results[0].boxes] of
    [YOLO.predict], the boxes that pass the confidence threshold. *)
Class Detector : Type := {
  predict : bytes -> float -> Z -> Z -> result (list Box)
}.

(** OpenCV's 8-bit colour conversions and the look-up table that
    [equalizeHist] builds from the histogram of a whole plane. *)
Class OpenCV : Type := {
  bgr2lab : pixel -> pixel;
  lab2bgr : pixel -> pixel;
  equalize_lut : list (list Z) -> Z -> Z
}.

(** The float32 kernels of numpy and torch.  Their rounding is the
    libraries' business; the code only composes them. *)
Class Numeric : Type := {
  f32 : Type;
  (** [astype(np.float32)] of an 8-bit channel value *)
  f32_of_uint8 : Z -> f32;
  (** a Python float stored in a float32 tensor *)
  f32_of_float : float -> f32;
  f32_sub : f32 -> f32 -> f32;
  f32_div : f32 -> f32 -> f32;
  (** [Tensor.mean] of one block of entries *)
  f32_mean : list f32 -> f32;
  (** [numpy.linalg.norm] of the flattened array *)
  linalg_norm : list f32 -> f32;
  (** the test [norm > 0] *)
  f32_gt0 : f32 -> bool;
  (** the sample [torch.randn] draws for the entry at a flat index *)
  randn : nat -> f32
}.

(** A tensor (or numpy array): its shape and its entries in row-major
    order. *)
Record Tensor `{Numeric} : Type := mkTensor {
  shape : list nat;
  item : nat -> f32
}.

Section TensorOps.
Context `{Numeric}.

Definition numel (s : list nat) : nat := fold_right Nat.mul 1%nat s.

Definition ndim (t : Tensor) : nat := length (shape t).

Definition ravel (t : Tensor) : list f32 :=
  map (item t) (seq 0 (numel (shape t))).

(** [t.mean(dim=(-2, -1))]: the last two axes are averaged away. *)
Definition mean_last2 (t : Tensor) : Tensor :=
  let lead := take (ndim t - 2) (shape t) in
  let block := numel (drop (ndim t - 2) (shape t)) in
  {| shape := lead;
     item := fun i => f32_mean (map (item t) (seq (i * block) block)) |}.

(** [a.squeeze()]: axes of length one are dropped. *)
Definition squeeze (t : Tensor) : Tensor :=
  {| shape := filter (fun d => d <> 1%nat) (shape t);
     item := item t |}.

(** What [tolist()] returns: a float for a 0-d array, nested lists
    otherwise. *)
Inductive pyval : Type :=
| PyFloat (x : f32)
| PyList (xs : list pyval).

Fixpoint tolist_from (s : list nat) (it : nat -> f32) (offset : nat) : pyval :=
  match s with
  | [] => PyFloat (it offset)
  | n :: rest =>
      PyList (map (fun i => tolist_from rest it (offset + i * numel rest)%nat)
                  (seq 0 n))
  end.

Definition tolist (t : Tensor) : pyval := tolist_from (shape t) (item t) 0.

(** [len(v)] of a Python value, when it is a list. *)
Definition py_len (v : pyval) : option nat :=
  match v with
  | PyFloat _ => None
  | PyList xs => Some (length xs)
  end.

End TensorOps.

(** The pretrained vision model ([timm.create_model(..., num_classes=0)] in
    evaluation mode) and the input side its data configuration announces. *)
Class VisionModel `{Numeric} : Type := {
  forward : Tensor -> result Tensor;
  input_size : Z
}.

(** ** The float32 kernels in IEEE-754 binary32

    numpy and torch compute in binary32: [spec_float] at precision 24 and
    maximal exponent 128, every operation rounded to nearest-even.  The
    reductions (sum, mean, norm) are taken from left to right;
    [numpy.linalg.norm] of a real vector is [sqrt(dot(x, x))], without
    rescaling. *)

Module Float32.

Definition prec : Z := 24.
Definition emax : Z := 128.

Definition zero : spec_float := S754_zero false.

Definition of_int (n : Z) : spec_float := binary_normalize prec emax n 0 false.

(** A binary64 number rounded to binary32. *)
Definition of_float (x : float) : spec_float :=
  match x with
  | S754_finite s m e => binary_normalize prec emax (cond_Zopp s (Zpos m)) e s
  | _ => x
  end.

Definition add : spec_float -> spec_float -> spec_float := SFadd prec emax.
Definition sub : spec_float -> spec_float -> spec_float := SFsub prec emax.
Definition mul : spec_float -> spec_float -> spec_float := SFmul prec emax.
Definition div : spec_float -> spec_float -> spec_float := SFdiv prec emax.
Definition sqrt : spec_float -> spec_float := SFsqrt prec emax.

Definition sum (xs : list spec_float) : spec_float := fold_left add xs zero.

Definition mean (xs : list spec_float) : spec_float :=
  div (sum xs) (of_int (Z.of_nat (length xs))).

Definition norm (xs : list spec_float) : spec_float :=
  sqrt (sum (map (fun x => mul x x) xs)).

(** [x > 0]: false of NaN, as every comparison with NaN is. *)
Definition gt0 (x : spec_float) : bool := SFltb zero x.



(** [noise] is what [torch.randn] draws. *)
Definition numeric (noise : nat -> spec_float) : Numeric :=
  {| f32 := spec_float;
     f32_of_uint8 := of_int;
     f32_of_float := of_float;
     f32_sub := sub;
     f32_div := div;
     f32_mean := mean;
     linalg_norm := norm;
     f32_gt0 := gt0;
     randn := noise |}.

End Float32.

(** ** embedding_service.py *)

Module embedding_service.

Section EmbeddingService.
Context `{PIL.Imaging} `{Numeric} `{!VisionModel}.

(** ImageNet statistics, [self.mean] and [self.std]. *)
Definition mean : list float :=
  [PyFloat.literal 485 1000; PyFloat.literal 456 1000; PyFloat.literal 406 1000].

Definition std : list float :=
  [PyFloat.literal 229 1000; PyFloat.literal 224 1000; PyFloat.literal 225 1000].

Definition channel (c : nat) (p : pixel) : Z :=
  let '(r, g, b) := p in
  match c with
  | O => r
  | S O => g
  | _ => b
  end.

(** [preprocess_image]: resize when the size differs from the model's,
    scale to [0,1], lay out as [1 x 3 x H x W], standardise per channel. *)
Definition preprocess_image (pil_img : PIL.Image) : Tensor :=
  let pil_img :=
    if bool_decide (PIL.size pil_img <> (input_size, input_size))
    then PIL.resize pil_img (input_size, input_size)
    else pil_img in
  let h := Z.to_nat (PIL.height pil_img) in
  let w := Z.to_nat (PIL.width pil_img) in
  {| shape := [1%nat; 3%nat; h; w];
     item := fun i =>
       let c := (i / (h * w))%nat in
       let y := ((i mod (h * w)) / w)%nat in
       let x := (i mod w)%nat in
       let v := channel c (PIL.getpixel pil_img (Z.of_nat x) (Z.of_nat y)) in
       let scaled := f32_div (f32_of_uint8 v) (f32_of_float (PyFloat.literal 255 1)) in
       f32_div (f32_sub scaled (f32_of_float (nth c mean PyFloat.zero)))
               (f32_of_float (nth c std PyFloat.zero)) |}.

(** [extract_features]: forward pass, global average pooling when the
    output still has spatial axes, then [squeeze()]. *)
Definition extract_features (tensor : Tensor) : result Tensor :=
  features ← forward tensor;
  let features :=
    if (2 <? ndim features)%nat then mean_last2 features else features in
  Ok (squeeze features).

(** [normalize_vector]: divide by the norm when [norm > 0]. *)
Definition normalize_vector (vec : Tensor) : Tensor :=
  let norm := linalg_norm (ravel vec) in
  if f32_gt0 norm
  then {| shape := shape vec; item := fun i => f32_div (item vec i) norm |}
  else vec.

Definition generate_embedding (pil_img : PIL.Image) : result pyval :=
  let tensor := preprocess_image pil_img in
  features ← extract_features tensor;
  let normalized := normalize_vector features in
  Ok (tolist normalized).

(** [get_embedding_dim]: one forward pass on a random input of the model's
    input shape; [output.shape[-1]]. *)
Definition dummy_input : Tensor :=
  {| shape := [1%nat; 3%nat; Z.to_nat input_size; Z.to_nat input_size];
     item := randn |}.

Definition get_embedding_dim : result nat :=
  output ← forward dummy_input;
  let output :=
    if (2 <? ndim output)%nat then mean_last2 output else output in
  match last (shape output) with
  | Some d => Ok d
  | None => Raise (Exception "IndexError" "tuple index out of range")
  end.

End EmbeddingService.

End embedding_service.

(** ** OpenCV calls used by the colour normaliser *)

Module cv2.

Inductive ColorCode : Type :=
| COLOR_RGB2BGR
| COLOR_BGR2LAB
| COLOR_LAB2BGR
| COLOR_BGR2RGB.

Definition swap_rb (p : pixel) : pixel :=
  let '(c0, c1, c2) := p in (c2, c1, c0).

Definition is_empty {A} (m : list (list A)) : bool :=
  match m with
  | [] => true
  | [] :: _ => true
  | _ => false
  end.

Section Calls.
Context `{OpenCV}.

Definition cvt_pixel (code : ColorCode) (p : pixel) : pixel :=
  match code with
  | COLOR_RGB2BGR | COLOR_BGR2RGB => swap_rb p
  | COLOR_BGR2LAB => bgr2lab p
  | COLOR_LAB2BGR => lab2bgr p
  end.

(** [cv2.cvtColor(src, code)]: pixel by pixel; an empty source fails the
    assertion [!_src.empty()]. *)
Definition cvtColor (src : list (list pixel)) (code : ColorCode)
  : result (list (list pixel)) :=
  if is_empty src
  then Raise (Exception "cv2.error" "(-215:Assertion failed) !_src.empty() in function 'cvtColor'")
  else Ok (map (map (cvt_pixel code)) src).

(** [cv2.split(m)]: the three channel planes. *)
Definition split (m : list (list pixel))
  : list (list Z) * list (list Z) * list (list Z) :=
  (map (map (fun p : pixel => p.1.1)) m,
   map (map (fun p : pixel => p.1.2)) m,
   map (map (fun p : pixel => p.2)) m).

(** [cv2.equalizeHist(src)]: every value goes through the look-up table
    computed from the histogram of the whole plane. *)
Definition equalizeHist (src : list (list Z)) : list (list Z) :=
  map (map (equalize_lut src)) src.

Definition plane_shape (m : list (list Z)) : list nat := map length m.

Definition merge_row (r0 r1 r2 : list Z) : list pixel :=
  zip_with (fun ab c => (ab.1, ab.2, c)) (zip r0 r1) r2.

(** [cv2.merge((c0, c1, c2))]: planes of one size are interleaved; planes
    of different sizes are refused. *)
Definition merge (mv : list (list Z) * list (list Z) * list (list Z))
  : result (list (list pixel)) :=
  let '(c0, c1, c2) := mv in
  if bool_decide (plane_shape c0 = plane_shape c1 /\ plane_shape c0 = plane_shape c2)
  then Ok (zip_with (fun r01 r2 => merge_row r01.1 r01.2 r2) (zip c0 c1) c2)
  else Raise (Exception "cv2.error" "(-215:Assertion failed) mv[i].size == mv[0].size in function 'merge'").

End Calls.

End cv2.

(** ** pipeline.py *)

Module pipeline.

Section ImagePipeline.
Context `{PIL.Imaging} `{Detector} `{OpenCV} `{Numeric} `{!VisionModel}.

(** Lines 96-100. *)
Definition _center_crop (pil_img : PIL.Image) : result PIL.Image :=
  let '(w, h) := PIL.size pil_img in
  let side := Z.min w h in
  let left := (w - side) `div` 2 in
  let top := (h - side) `div` 2 in
  PIL.crop pil_img (left, top, left + side, top + side).

(** Line 66: [area = (x2 - x1) * (y2 - y1)]. *)
Definition area (box : Box) : float :=
  let '(x1, y1, x2, y2) := xyxy box in
  PyFloat.mul (PyFloat.sub x2 x1) (PyFloat.sub y2 y1).

(** Lines 61-69: the loop over [boxes], started with [best_box = None] and
    [best_area = 0]. *)
Fixpoint largest_box (boxes : list Box)
    (best_box : option (float * float * float * float)) (best_area : float)
  : option (float * float * float * float) * float :=
  match boxes with
  | [] => (best_box, best_area)
  | box :: rest =>
      let area := area box in
      if PyFloat.gt area best_area
      then largest_box rest (Some (xyxy box)) area
      else largest_box rest best_box best_area
  end.

(** Lines 72-80: integer corners, 5% padding, clamping to the image. *)
Definition padded_box (size : Z * Z) (best_box : float * float * float * float)
  : result (Z * Z * Z * Z) :=
  let '(fx1, fy1, fx2, fy2) := best_box in
  x1 ← PyFloat.to_int fx1;
  y1 ← PyFloat.to_int fy1;
  x2 ← PyFloat.to_int fx2;
  y2 ← PyFloat.to_int fy2;
  let '(w, h) := size in
  pad_x ← PyFloat.int_times (x2 - x1) (PyFloat.literal 5 100) ≫= PyFloat.to_int;
  pad_y ← PyFloat.int_times (y2 - y1) (PyFloat.literal 5 100) ≫= PyFloat.to_int;
  let x1 := Z.max 0 (x1 - pad_x) in
  let y1 := Z.max 0 (y1 - pad_y) in
  let x2 := Z.min w (x2 + pad_x) in
  let y2 := Z.min h (y2 + pad_y) in
  Ok (x1, y1, x2, y2).

(** Lines 40-54: the image is encoded and handed to the detector. *)
Definition run_detector (pil_img : PIL.Image) (conf_threshold : float)
  : result (list Box) :=
  buf ← PIL.save pil_img "JPEG";
  predict buf conf_threshold 10 640.

(** Lines 40-84. *)
Definition detect_and_crop (pil_img : PIL.Image) (conf_threshold : float)
  : result PIL.Image :=
  boxes ← run_detector pil_img conf_threshold;
  if (length boxes =? 0)%nat then _center_crop pil_img
  else
    match (largest_box boxes None PyFloat.zero).1 with
    | Some best_box =>
        box ← padded_box (PIL.size pil_img) best_box;
        PIL.crop pil_img box
    | None => _center_crop pil_img
    end.

(** Lines 113-117: RGB to BGR to LAB. *)
Definition to_lab (pil_img : PIL.Image) : result (list (list pixel)) :=
  img_cv ← cv2.cvtColor (PIL.asarray pil_img) cv2.COLOR_RGB2BGR;
  cv2.cvtColor img_cv cv2.COLOR_BGR2LAB.

(** Lines 119-126: split, equalise [l], merge [(l, a, b)]. *)
Definition equalize_l (lab : list (list pixel)) : result (list (list pixel)) :=
  let '(l, a, b) := cv2.split lab in
  let l := cv2.equalizeHist l in
  cv2.merge (l, a, b).

(** Lines 128-132: LAB to BGR to RGB, and back to a Pillow image. *)
Definition of_lab (lab : list (list pixel)) : result PIL.Image :=
  img_eq ← cv2.cvtColor lab cv2.COLOR_LAB2BGR;
  img_rgb ← cv2.cvtColor img_eq cv2.COLOR_BGR2RGB;
  Ok (PIL.fromarray img_rgb).

(** Lines 102-132. *)
Definition normalize_color (pil_img : PIL.Image) : result PIL.Image :=
  lab ← to_lab pil_img;
  lab ← equalize_l lab;
  of_lab lab.

(** Lines 134-145. *)
Definition resize_for_model (pil_img : PIL.Image) (size : Z) : PIL.Image :=
  PIL.resize pil_img (size, size).

(** Lines 147-179; the default confidence threshold of [detect_and_crop]
    is 0.25. *)
Definition process_image (pil_img : PIL.Image)
    (apply_detection apply_color_norm : bool) : result PIL.Image :=
  pil_img ← (if bool_decide (PIL.mode pil_img <> "RGB")
             then PIL.convert pil_img "RGB"
             else Ok pil_img);
  pil_img ← (if apply_detection
             then detect_and_crop pil_img (PyFloat.literal 25 100)
             else Ok pil_img);
  pil_img ← (if apply_color_norm
             then normalize_color pil_img
             else Ok pil_img);
  Ok pil_img.

(** Lines 181-204. *)
Definition generate_embedding (pil_img : PIL.Image)
    (apply_detection apply_color_norm : bool) : result pyval :=
  processed ← process_image pil_img apply_detection apply_color_norm;
  embedding_service.generate_embedding processed.

End ImagePipeline.

End pipeline.

(** ** Paths, strings and identifiers *)

(** [os.path] on a POSIX system. *)
Module posixpath.

Definition slash : ascii := "/"%char.

Fixpoint has_slash (p : string) : bool :=
  match p with
  | EmptyString => false
  | String c rest => if Ascii.eqb c slash then true else has_slash rest
  end.

(** [os.path.basename(p)]: what follows the last slash. *)
Fixpoint basename (p : string) : string :=
  match p with
  | EmptyString => EmptyString
  | String c rest =>
      if Ascii.eqb c slash then basename rest
      else if has_slash rest then basename rest
      else p
  end.

Definition endswith_slash (p : string) : bool :=
  match String.rev p with
  | String c _ => Ascii.eqb c slash
  | EmptyString => false
  end.

(** [os.path.join(a, b)]. *)
Definition join (a b : string) : string :=
  match b with
  | String c _ =>
      if Ascii.eqb c slash then b
      else if (String.length a =? 0)%nat || endswith_slash a then a ++ b
      else a ++ "/" ++ b
  | EmptyString =>
      if (String.length a =? 0)%nat || endswith_slash a then a else a ++ "/"
  end.

End posixpath.

Module str.

(** [s.replace(old, new)] for one-character [old] and [new]. *)
Fixpoint replace (old new : ascii) (s : string) : string :=
  match s with
  | EmptyString => EmptyString
  | String c rest =>
      String (if Ascii.eqb c old then new else c) (replace old new rest)
  end.

(** [s.lstrip(chars)] for a one-character [chars]. *)
Fixpoint lstrip (ch : ascii) (s : string) : string :=
  match s with
  | EmptyString => EmptyString
  | String c rest => if Ascii.eqb c ch then lstrip ch rest else s
  end.

Definition lower_char (c : ascii) : ascii :=
  let n := nat_of_ascii c in
  if (65 <=? n)%nat && (n <=? 90)%nat then ascii_of_nat (n + 32) else c.

(** [s.lower()] on ASCII text. *)
Fixpoint lower (s : string) : string :=
  match s with
  | EmptyString => EmptyString
  | String c rest => String (lower_char c) (lower rest)
  end.

(** [s.startswith(p)]. *)
Fixpoint startswith (s p : string) {struct p} : bool :=
  match p with
  | EmptyString => true
  | String a p' =>
      match s with
      | String b s' => Ascii.eqb a b && startswith s' p'
      | EmptyString => false
      end
  end.

(** [s.endswith(suffix)]. *)
Definition endswith (s suffix : string) : bool :=
  startswith (String.rev s) (String.rev suffix).

(** [s.startswith(p)], returning what follows the prefix. *)
Fixpoint strip_prefix (p s : string) {struct p} : option string :=
  match p, s with
  | EmptyString, _ => Some s
  | String a p', String b s' => if Ascii.eqb a b then strip_prefix p' s' else None
  | String _ _, EmptyString => None
  end.

End str.

(** [uuid.uuid4()]: the random source hands out 128-bit integers; [.hex] is
    ['%032x' % int]. *)
Class Entropy : Type := {
  uuid4 : nat -> N
}.

Module uuid.

Definition hex_char (d : N) : ascii :=
  match d with
  | 0%N => "0" | 1%N => "1" | 2%N => "2" | 3%N => "3"
  | 4%N => "4" | 5%N => "5" | 6%N => "6" | 7%N => "7"
  | 8%N => "8" | 9%N => "9" | 10%N => "a" | 11%N => "b"
  | 12%N => "c" | 13%N => "d" | 14%N => "e" | _ => "f"
  end%char.

Fixpoint hex_digits (k : nat) (n : N) (acc : string) : string :=
  match k with
  | O => acc
  | S k' => hex_digits k' (n / 16)%N (String (hex_char (n mod 16)%N) acc)
  end.

Definition hex (n : N) : string := hex_digits 32 n EmptyString.

End uuid.

(** ** The vector database

    A Pinecone project is a finite map from index names to indexes; an
    index has a fixed dimension and stores [(values, metadata)] by id.
    Ranking by cosine similarity is the service's. *)

Record Match `{Numeric} : Type := mkMatch {
  match_id : string;
  match_score : float;
  match_metadata : option (gmap string string)
}.

Class VectorSearch `{Numeric} : Type := {
  top_matches : pyval -> Z -> gmap string (pyval * gmap string string) -> list Match
}.

Record IndexRec `{Numeric} : Type := mkIndexRec {
  dimension : nat;
  metric : string;
  region : string;
  vectors : gmap string (pyval * gmap string string)
}.

Arguments mkIndexRec {_} dimension metric region vectors.

(** Calls that reach the model or the database, in the order made. *)
Inductive Event `{Numeric} : Type :=
| EvGetEmbeddingDim
| EvListIndexes
| EvCreateIndex (name : string) (dim : nat)
| EvUpsert (name id : string) (values : pyval)
| EvQuery (name : string) (vector : pyval) (top_k : Z).

(** The service's verdict on a call: the exception the client raises when
    the API refuses the call as such (authentication, quota, an argument it
    does not accept), if it does.  A refused call changes nothing. *)
Class PineconeApi `{Numeric} : Type := {
  api_error : Event -> option exn
}.

(** The state the program runs against: files by path, the Pinecone
    project, the number of UUIDs drawn so far, the calls made so far. *)
Record World `{Numeric} : Type := mkWorld {
  fs : gmap string bytes;
  pc : gmap string IndexRec;
  uuid_count : nat;
  calls : list Event
}.

Section IO.
Context `{Numeric}.

Definition io (A : Type) : Type := World -> result A * World.

#[global] Instance io_ret : MRet io := fun A a w => (Ok a, w).

#[global] Instance io_bind : MBind io :=
  fun A B f m w =>
    match m w with
    | (Ok a, w') => f a w'
    | (Raise e, w') => (Raise e, w')
    end.

(** A pure computation that may raise. *)
Definition lift {A} (r : result A) : io A := fun w => (r, w).

Definition log (ev : Event) : io unit :=
  fun w => (Ok tt, {| fs := fs w; pc := pc w; uuid_count := uuid_count w;
                      calls := calls w ++ [ev] |}).

Definition raise {A} (e : exn) : io A := lift (Raise e).

Definition gets {A} (f : World -> A) : io A := fun w => (Ok (f w), w).

Definition modify (f : World -> World) : io unit := fun w => (Ok tt, f w).

Definition set_pc (p : gmap string IndexRec) (w : World) : World :=
  {| fs := fs w; pc := p; uuid_count := uuid_count w; calls := calls w |}.

(** A step that raises the given exception, if there is one. *)
Definition fail_with (o : option exn) : io unit :=
  match o with
  | Some e => raise e
  | None => mret tt
  end.

End IO.

Module pinecone.

Section Client.
Context `{Numeric} `{!VectorSearch} `{!PineconeApi}.

(** A call to the service: logged, then refused or let through. *)
Definition call (ev : Event) : io unit :=
  _ ← log ev;
  fail_with (api_error ev).

(** [pc.list_indexes().names()]. *)
Definition list_indexes_names : io (list string) :=
  _ ← call EvListIndexes;
  gets (fun w => elements (dom (pc w))).

(** [pc.create_index(name, dimension, metric, spec)]. *)
Definition create_index (name : string) (dim : nat) (metric region : string)
  : io unit :=
  _ ← call (EvCreateIndex name dim);
  p ← gets pc;
  match p !! name with
  | Some _ => raise (Exception "PineconeApiException" "Resource already exists")
  | None => modify (set_pc (<[name := mkIndexRec dim metric region ∅]> p))
  end.

(** [index.upsert(vectors=[{"id", "values", "metadata"}])]: the item is
    inserted or replaced; values of another length than the index's
    dimension are refused. *)
Definition upsert (name id : string) (values : pyval)
    (metadata : gmap string string) : io unit :=
  _ ← call (EvUpsert name id values);
  p ← gets pc;
  match p !! name with
  | None => raise (Exception "NotFoundException" "Resource not found")
  | Some rec =>
      if bool_decide (py_len values = Some (dimension rec))
      then modify (set_pc (<[name := mkIndexRec (dimension rec) (metric rec) (region rec)
                                       (<[id := (values, metadata)]> (vectors rec))]> p))
      else raise (Exception "PineconeApiException"
                    "Vector dimension does not match the dimension of the index")
  end.

(** [index.query(vector, top_k, include_metadata=True).matches]. *)
Definition query (name : string) (vector : pyval) (top_k : Z) : io (list Match) :=
  _ ← call (EvQuery name vector top_k);
  p ← gets pc;
  match p !! name with
  | None => raise (Exception "NotFoundException" "Resource not found")
  | Some rec =>
      if bool_decide (py_len vector = Some (dimension rec))
      then mret (top_matches vector top_k (vectors rec))
      else raise (Exception "PineconeApiException"
                    "Vector dimension does not match the dimension of the index")
  end.

End Client.

End pinecone.

(** The process environment and [os.getenv]. *)
Definition getenv (environ : gmap string string) (key default_value : string)
  : string :=
  default default_value (environ !! key).

(** An uploaded file: name, declared content type, content. *)
Record UploadFile : Type := mkUploadFile {
  filename : string;
  content_type : string;
  content : bytes
}.

(** What an endpoint answers: a body, or [HTTPException(status_code,
    detail)]. *)
Inductive response (A : Type) : Type :=
| Success (body : A)
| HTTPException (status_code : Z) (detail : string).

Arguments Success {A} body.
Arguments HTTPException {A} status_code detail.

Definition is_success {A} (r : response A) : bool :=
  match r with Success _ => true | HTTPException _ _ => false end.

(** ** Files and random identifiers *)

(** What the operating system decides: whether a file can be opened for
    writing, what a directory lists, whether directories can be made. *)
Class FileSystem : Type := {
  (** the exception of [open(path, "wb")] on the given files, if it raises
      (a name that is too long, a missing directory, no permission) *)
  open_error : gmap string bytes -> string -> option exn;
  (** [os.listdir(path)] on the given files: the names of the entries,
      sub-directories included, or [FileNotFoundError] and the like *)
  os_listdir : gmap string bytes -> string -> result (list string);
  (** the exception of [os.makedirs(path, exist_ok=True)], if it raises *)
  makedirs_error : string -> option exn
}.

Section OS.
Context `{PIL.Imaging} `{Numeric} `{Entropy} `{FileSystem}.

(** [uuid.uuid4().hex]: the next draw of the random source. *)
Definition uuid4_hex : io string :=
  n ← gets uuid_count;
  _ ← modify (fun w => {| fs := fs w; pc := pc w; uuid_count := S n; calls := calls w |});
  mret (uuid.hex (uuid4 n)).

(** [with open(path, "wb") as f: f.write(data)]: nothing is written when
    the file cannot be opened. *)
Definition write_file (path : string) (data : bytes) : io unit :=
  p ← gets fs;
  _ ← fail_with (open_error p path);
  modify (fun w => {| fs := <[path := data]> (fs w); pc := pc w;
                      uuid_count := uuid_count w; calls := calls w |}).

(** [Image.open(path)] on the modelled file system. *)
Definition image_open (path : string) : io PIL.Image :=
  p ← gets fs;
  match p !! path with
  | Some data => lift (PIL.decode data)
  | None => raise (Exception "FileNotFoundError" "No such file or directory")
  end.

(** [os.listdir(folder)]. *)
Definition listdir (folder : string) : io (list string) :=
  p ← gets fs;
  lift (os_listdir p folder).

(** [os.makedirs(path, exist_ok=True)]. *)
Definition makedirs (path : string) : io unit :=
  fail_with (makedirs_error path).

(** [try: body except Exception as e: print(...)]. *)
Definition try_print (body : io unit) : io unit :=
  fun w =>
    match body w with
    | (Raise _, w') => (Ok tt, w')
    | r => r
    end.

(** [for x in xs: body(x)]. *)
Fixpoint for_each {A} (xs : list A) (body : A -> io unit) : io unit :=
  match xs with
  | [] => mret tt
  | x :: rest => _ ← body x; for_each rest body
  end.

End OS.

(** ** The interpreter and the loading of the models

    [int(s)] of a string, and what constructing the two services can
    raise: [EmbeddingService()] creates the pretrained model,
    [ImagePipeline()] loads the detector's weights. *)
Class Runtime : Type := {
  (** [int(s)]: the integer, or [ValueError] *)
  int_of_str : string -> result Z;
  (** the exception of the first [get_embedding_service()], if it raises *)
  load_embedding_service : option exn;
  (** the exception of the first [get_pipeline()], if it raises *)
  load_pipeline : option exn
}.

(** ** app.py *)

Module app.

Section App.
Context `{PIL.Imaging} `{Detector} `{OpenCV} `{Numeric} `{!VisionModel}
        `{Entropy} `{!VectorSearch} `{!PineconeApi} `{FileSystem} `{Runtime}.
Context (environ : gmap string string).

Definition PINECONE_API_KEY : option string := environ !! "PINECONE_API_KEY".
Definition PINECONE_INDEX : string := getenv environ "PINECONE_INDEX_NAME" "museum-images".
Definition PINECONE_REGION : string := getenv environ "PINECONE_REGION" "us-east-1".
Definition IMAGES_DIR : string := "images".
Definition MUSEUM_DIR : string := posixpath.join IMAGES_DIR "museum".
Definition QUERIES_DIR : string := posixpath.join IMAGES_DIR "queries".

(** Line 23. *)
Definition TOP_K : result Z := int_of_str (getenv environ "TOP_K" "5").

(** Lines 20-57: what the module does when it is loaded, in the order of
    the file: the configuration with the parse of [TOP_K], the two image
    folders, the two services, the check of the API key, the dimension
    probe, the listing and the creation of the collection.  The value is
    [EMBED_DIM]. *)
Definition startup : io nat :=
  _ ← lift TOP_K;
  _ ← makedirs MUSEUM_DIR;
  _ ← makedirs QUERIES_DIR;
  _ ← fail_with load_embedding_service;
  _ ← fail_with load_pipeline;
  match PINECONE_API_KEY with
  | None | Some EmptyString =>
      raise (Exception "RuntimeError" "Set PINECONE_API_KEY in .env")
  | Some _ =>
      _ ← log EvGetEmbeddingDim;
      EMBED_DIM ← lift embedding_service.get_embedding_dim;
      existing_indexes ← pinecone.list_indexes_names;
      _ ← (if bool_decide (PINECONE_INDEX ∉ existing_indexes)
           then pinecone.create_index PINECONE_INDEX EMBED_DIM "cosine" PINECONE_REGION
           else mret tt);
      mret EMBED_DIM
  end.

(** Lines 61-68. *)
Definition save_upload_file (local_dir : string) (file : UploadFile) : io string :=
  u ← uuid4_hex;
  let filename := u ++ "_" ++ posixpath.basename (filename file) in
  let path := posixpath.join local_dir filename in
  _ ← write_file path (content file);
  let rel := str.replace "\" "/" path in
  mret ("/" ++ rel).

Definition supported_content_type (ct : string) : bool :=
  bool_decide (ct ∈ ["image/jpeg"; "image/png"; "image/jpg"]).

Record IndexResponse : Type := mkIndexResponse {
  status : string;
  id : string;
  metadata : gmap string string
}.

(** Lines 96-97: the preprocessing and embedding of the [/index] endpoint. *)
Definition index_embed (pil : PIL.Image) : result pyval :=
  processed ← pipeline.process_image pil false true;
  embedding_service.generate_embedding processed.

(** Lines 72-113. *)
Definition index_image (file : UploadFile) (title artist year category : string)
  : World -> response IndexResponse * World :=
  fun w =>
    if negb (supported_content_type (content_type file))
    then (HTTPException 400 "Only JPG/PNG images supported.", w)
    else
      match save_upload_file MUSEUM_DIR file w with
      | (Raise e, w) => (HTTPException 500 ("Failed to save file: " ++ exn_str e), w)
      | (Ok saved_url, w) =>
          let image_path := str.lstrip "/" saved_url in
          match (pil ← image_open image_path; lift (PIL.convert pil "RGB")) w with
          | (Raise e, w) => (HTTPException 400 ("Invalid image: " ++ exn_str e), w)
          | (Ok pil, w) =>
              match (vector ← lift (index_embed pil);
                     let item_id := posixpath.basename image_path in
                     let metadata : gmap string string :=
                       list_to_map [("title", title); ("artist", artist);
                                    ("year", year); ("category", category);
                                    ("image_url", saved_url)] in
                     _ ← pinecone.upsert PINECONE_INDEX item_id vector metadata;
                     mret (mkIndexResponse "ok" item_id metadata)) w with
              | (Raise e, w) =>
                  (HTTPException 500 ("Error processing/indexing image: " ++ exn_str e), w)
              | (Ok body, w) => (Success body, w)
              end
          end
      end.

Record SearchHit : Type := mkSearchHit {
  hit_id : string;
  hit_score : float;
  hit_metadata : gmap string string;
  hit_image_url : string
}.

(** Lines 130-131: the preprocessing and embedding of the [/search]
    endpoint. *)
Definition search_embed (pil : PIL.Image) : result pyval :=
  processed ← pipeline.process_image pil false true;
  embedding_service.generate_embedding processed.

(** Lines 116-148. *)
Definition search_image (file : UploadFile) (top_k : Z)
  : World -> response (list SearchHit) * World :=
  fun w =>
    if negb (supported_content_type (content_type file))
    then (HTTPException 400 "Only JPG/PNG images supported.", w)
    else
      match (saved_url ← save_upload_file QUERIES_DIR file;
             let image_path := str.lstrip "/" saved_url in
             pil ← image_open image_path;
             lift (PIL.convert pil "RGB")) w with
      | (Raise e, w) => (HTTPException 400 ("Invalid query image: " ++ exn_str e), w)
      | (Ok pil, w) =>
          match (q_vector ← lift (search_embed pil);
                 matches ← pinecone.query PINECONE_INDEX q_vector top_k;
                 mret (map (fun m =>
                         let md := default ∅ (match_metadata m) in
                         mkSearchHit (match_id m) (match_score m) md
                                     (default "" (md !! "image_url")))
                       matches)) w with
          | (Raise e, w) => (HTTPException 500 ("Search error: " ++ exn_str e), w)
          | (Ok body, w) => (Success body, w)
          end
      end.

(** Lines 151-153. *)
Definition health : gmap string string := {[ "status" := "ok" ]}.

End App.

End app.

(** ** images_embed.py *)

Module images_embed.

Section Script.
Context `{PIL.Imaging} `{Detector} `{OpenCV} `{Numeric} `{!VisionModel}
        `{Entropy} `{!VectorSearch} `{!PineconeApi} `{FileSystem} `{Runtime}.
Context (environ : gmap string string).

Definition FOLDER : string := "converted_images".
Definition PINECONE_API_KEY : option string := environ !! "PINECONE_API_KEY".
Definition PINECONE_INDEX : string := getenv environ "PINECONE_INDEX_NAME" "museum-images".
Definition PINECONE_REGION : string := getenv environ "PINECONE_REGION" "us-east-1".

(** Lines 19-32, in the order of the file: the client, which the library
    refuses to construct without an API key, the two services, the
    dimension probe, the listing and the creation of the collection.  The
    value is [EMBED_DIM]. *)
Definition startup : io nat :=
  match PINECONE_API_KEY with
  | None | Some EmptyString =>
      raise (Exception "PineconeConfigurationError"
               "You haven't specified an Api-Key.")
  | Some _ =>
      _ ← fail_with load_embedding_service;
      _ ← fail_with load_pipeline;
      _ ← log EvGetEmbeddingDim;
      EMBED_DIM ← lift embedding_service.get_embedding_dim;
      existing_indexes ← pinecone.list_indexes_names;
      _ ← (if bool_decide (PINECONE_INDEX ∉ existing_indexes)
           then pinecone.create_index PINECONE_INDEX EMBED_DIM "cosine" PINECONE_REGION
           else mret tt);
      mret EMBED_DIM
  end.

Definition supported (f : string) : bool :=
  let l := str.lower f in
  str.endswith l ".jpg" || str.endswith l ".jpeg" || str.endswith l ".png".

(** Lines 45-46: the preprocessing and embedding of the bulk indexer. *)
Definition index_embed (pil : PIL.Image) : result pyval :=
  processed ← pipeline.process_image pil true true;
  embedding_service.generate_embedding processed.

(** Lines 42-55: the body of the [try] for one file. *)
Definition index_file (folder_path file_name : string) : io unit :=
  let img_path := posixpath.join folder_path file_name in
  pil ← image_open img_path;
  pil ← lift (PIL.convert pil "RGB");
  vector ← lift (index_embed pil);
  u ← uuid4_hex;
  let item_id := u ++ "_" ++ file_name in
  let metadata : gmap string string :=
    list_to_map [("title", ""); ("artist", ""); ("year", ""); ("category", "");
                 ("image_url", "/images/museum/" ++ item_id)] in
  pinecone.upsert PINECONE_INDEX item_id vector metadata.

(** Lines 35-58. *)
Definition index_folder (folder_path : string) : io unit :=
  files ← listdir folder_path;
  let supported := List.filter supported files in
  for_each supported (fun file_name => try_print (index_file folder_path file_name)).

End Script.

End images_embed.

(** ** Vocabulary of the statements

    Predicates the properties below are stated with. *)

(** The area the claims speak of, [(x2 - x1) * (y2 - y1)] of the corners
    [(x1, y1, x2, y2)], in Python's floats. *)
Definition rectangle_area (corners : float * float * float * float) : float :=
  PyFloat.mul (PyFloat.sub corners.1.2 corners.1.1.1)
              (PyFloat.sub corners.2 corners.1.1.2).

(** What the loop of lines 61-69 leaves in [(best_box, best_area)]: either
    nothing beat the initial area, or the box at some index [i] did, no
    box has a larger area, and no earlier box has an area as large. *)
Definition loop_outcome (boxes : list Box)
    (best0 : option (float * float * float * float)) (area0 : float)
    (out : option (float * float * float * float) * float) : Prop :=
  (out = (best0, area0) /\
   forall b', b' ∈ boxes -> PyFloat.gt (pipeline.area b') area0 = false)
  \/
  (exists i b,
     boxes !! i = Some b /\
     out = (Some (xyxy b), pipeline.area b) /\
     PyFloat.gt (pipeline.area b) area0 = true /\
     (forall b', b' ∈ boxes -> PyFloat.gt (pipeline.area b') (pipeline.area b) = false) /\
     (forall j b', (j < i)%nat -> boxes !! j = Some b' ->
                   SFleb (pipeline.area b) (pipeline.area b') = false)).

Fixpoint string_forall (P : ascii -> bool) (s : string) : bool :=
  match s with
  | EmptyString => true
  | String c rest => P c && string_forall P rest
  end.

Definition is_hex (c : ascii) : bool :=
  let n := nat_of_ascii c in
  ((48 <=? n) && (n <=? 57) || (97 <=? n) && (n <=? 102))%nat.

(** Whether [int(d * 0.05)], run in binary64, is [d] divided by 20 and
    rounded toward zero. *)
Definition pad_is_twentieth (d : Z) : bool :=
  match PyFloat.int_times d (PyFloat.literal 5 100) ≫= PyFloat.to_int with
  | Ok p => p =? d `quot` 20
  | Raise _ => false
  end.

Section Vocabulary.
Context `{PIL.Imaging} `{Numeric} `{!VisionModel} `{Entropy}.
Context (environ : gmap string string).

(** The two forms of output the service handles (spec section 6: a raw
    feature vector or a feature map), for one image and [D] features. *)
Definition feature_shape (D : nat) (s : list nat) : Prop :=
  s = [1%nat; D] \/ exists h w, s = [1%nat; D; h; w].

(** The model maps every input of the shape of [dummy_input] to [D]
    features, [D] other than 1 (a single feature would be squeezed to a
    scalar). *)
Definition fixed_length (D : nat) : Prop :=
  D <> 1%nat /\
  forall t y, shape t = shape embedding_service.dummy_input ->
              forward t = Ok y -> feature_shape D (shape y).

(** What a call to the database may carry once the index has dimension
    [D]: vectors of length [D], and no creation of an index. *)
Definition sends_dimension (D : nat) (ev : Event) : Prop :=
  match ev with
  | EvUpsert _ _ v => py_len v = Some D
  | EvQuery _ v _ => py_len v = Some D
  | EvCreateIndex _ _ => False
  | _ => True
  end.

(** The item id, the stored path and the opened path of one [/index]
    call that starts in world [w]. *)
Definition upload_name (file : UploadFile) (w : World) : string :=
  uuid.hex (uuid4 (uuid_count w)) ++ "_" ++ posixpath.basename (filename file).

Definition stored_path (file : UploadFile) (w : World) : string :=
  posixpath.join app.MUSEUM_DIR (upload_name file w).

Definition opened_path (file : UploadFile) (w : World) : string :=
  str.lstrip "/" ("/" ++ str.replace "\" "/" (stored_path file w)).

(** The UUID the next call will draw is new to the world: no stored item
    id and no file of the museum folder begins with it.  (What "a newly
    generated random UUID" buys.) *)
Definition fresh_draw (w : World) : bool :=
  let u := uuid.hex (uuid4 (uuid_count w)) in
  match pc w !! app.PINECONE_INDEX environ with
  | Some rec =>
      forallb (fun item_id => negb (str.startswith item_id u))
              (elements (dom (vectors rec)))
  | None => true
  end
  && forallb (fun path => negb (str.startswith path ("images/museum/" ++ u)))
             (elements (dom (fs w))).

End Vocabulary.

(** ** Uploads

    What one accepted upload leaves behind. *)

Section Uploads.
Context `{PIL.Imaging} `{Numeric} `{Entropy}.

(** [Image.open(path).convert("RGB")] on the given files. *)
Definition read_rgb (files : gmap string bytes) (path : string) : result PIL.Image :=
  match files !! path with
  | Some data => pil ← PIL.decode data; PIL.convert pil "RGB"
  | None => Raise (Exception "FileNotFoundError" "No such file or directory")
  end.

(** The answer of [/search] for a list of matches. *)
Definition hits_of (matches : list Match) : list app.SearchHit :=
  map (fun m =>
         let md := default ∅ (match_metadata m) in
         app.mkSearchHit (match_id m) (match_score m) md
                         (default "" (md !! "image_url")))
      matches.

(** The base name of the upload has no backslash ([save_upload_file]
    rewrites backslashes in the path it returns, not in the path it
    writes). *)
Definition plain_name (file : UploadFile) : bool :=
  String.eqb (str.replace "\" "/" (posixpath.basename (filename file)))
             (posixpath.basename (filename file)).

(** The file an upload is written to, in the museum folder and in the
    folder of the queries. *)
Definition museum_file (file : UploadFile) (w : World) : string :=
  "images/museum/" ++ upload_name file w.

Definition query_file (file : UploadFile) (w : World) : string :=
  "images/queries/" ++ upload_name file w.

(** The world once the upload is written to [path]: one more file, one
    more UUID drawn, the database and the call log as they were. *)
Definition stored_upload (path : string) (file : UploadFile) (w : World) : World :=
  {| fs := <[path := content file]> (fs w); pc := pc w;
     uuid_count := S (uuid_count w); calls := calls w |}.

(** The world once a UUID is drawn and nothing is written. *)
Definition after_draw (w : World) : World :=
  {| fs := fs w; pc := pc w; uuid_count := S (uuid_count w); calls := calls w |}.

(** The metadata the [/index] endpoint stores with an item. *)
Definition item_metadata (title artist year category image_url : string)
  : gmap string string :=
  list_to_map [("title", title); ("artist", artist); ("year", year);
               ("category", category); ("image_url", image_url)].


End Uploads.

(** ** Start-up, step by step *)

Section Preparations.
Context `{Numeric} `{!PineconeApi} `{FileSystem} `{Runtime}.
Context (environ : gmap string string).

(** What the server does before it reaches the database, in the order of
    app.py: the exception of the first step that fails, if one does. *)
Definition server_preparation : option exn :=
  match int_of_str (getenv environ "TOP_K" "5") with
  | Raise e => Some e
  | Ok _ =>
      match makedirs_error "images/museum" with
      | Some e => Some e
      | None =>
          match makedirs_error "images/queries" with
          | Some e => Some e
          | None =>
              match load_embedding_service with
              | Some e => Some e
              | None =>
                  match load_pipeline with
                  | Some e => Some e
                  | None =>
                      match environ !! "PINECONE_API_KEY" with
                      | None | Some EmptyString =>
                          Some (Exception "RuntimeError" "Set PINECONE_API_KEY in .env")
                      | Some _ => None
                      end
                  end
              end
          end
      end
  end.

(** The same for the bulk indexer, in the order of images_embed.py. *)
Definition indexer_preparation : option exn :=
  match environ !! "PINECONE_API_KEY" with
  | None | Some EmptyString =>
      Some (Exception "PineconeConfigurationError" "You haven't specified an Api-Key.")
  | Some _ =>
      match load_embedding_service with
      | Some e => Some e
      | None => load_pipeline
      end
  end.

(** The outcome of the dimension probe, the listing and the creation of
    the collection [name], given the probe's result. *)
Definition ensured (probe : result nat) (name region : string) (w : World)
  : result nat * World :=
  let logged evs := {| fs := fs w; pc := pc w; uuid_count := uuid_count w;
                       calls := calls w ++ evs |} in
  match probe with
  | Raise e => (Raise e, logged [EvGetEmbeddingDim])
  | Ok dim =>
      match api_error EvListIndexes with
      | Some e => (Raise e, logged [EvGetEmbeddingDim; EvListIndexes])
      | None =>
          match pc w !! name with
          | Some _ => (Ok dim, logged [EvGetEmbeddingDim; EvListIndexes])
          | None =>
              match api_error (EvCreateIndex name dim) with
              | Some e =>
                  (Raise e, logged [EvGetEmbeddingDim; EvListIndexes;
                                    EvCreateIndex name dim])
              | None =>
                  (Ok dim,
                   set_pc (<[name := mkIndexRec dim "cosine" region ∅]> (pc w))
                     (logged [EvGetEmbeddingDim; EvListIndexes;
                              EvCreateIndex name dim]))
              end
          end
      end
  end.

End Preparations.




(** ** A small concrete system

    Stand-ins for the collaborators, small enough to run the definitions
    above on concrete inputs: a detector that always reports the same two
    boxes, identity colour conversions, rational numbers for float32, a
    model that returns the first three entries of its input, a file system
    that refuses long names, a service that refuses no call. *)

Module Sample.

Definition imaging : PIL.Imaging :=
  {| PIL.convert_bands := fun source _ =>
       if String.eqb source "La"
       then Raise (Exception "ValueError" "conversion not supported")
       else Ok (fun px => px);
     PIL.resample_bicubic := fun im sz x y =>
       PIL.getpixel im (x * PIL.width im `div` sz.1) (y * PIL.height im `div` sz.2);
     PIL.save := fun _ _ => Ok [];
     PIL.decode := fun data =>
       match data with
       | [] => Raise (Exception "UnidentifiedImageError" "cannot identify image file")
       | b :: _ =>
           Ok {| PIL.mode := "RGB"; PIL.size := (4, 4);
                 PIL.getpixel := fun x y => (Z.of_N (Byte.to_N b) + x, 10 * y, 7) |}
       end |}.

(** A small box with high confidence, then a larger one with low
    confidence. *)
Definition small_confident : Box :=
  {| xyxy := (PyFloat.of_int 0, PyFloat.of_int 0, PyFloat.of_int 1, PyFloat.of_int 1);
     conf := PyFloat.literal 9 10;
     cls := 0 |}.

Definition large_hesitant : Box :=
  {| xyxy := (PyFloat.of_int 1, PyFloat.of_int 1, PyFloat.of_int 3, PyFloat.of_int 3);
     conf := PyFloat.literal 3 10;
     cls := 0 |}.

Definition detector : Detector :=
  {| predict := fun _ _ _ _ => Ok [small_confident; large_hesitant] |}.

(** A detector that finds nothing, and one that fails. *)
Definition blind_detector : Detector :=
  {| predict := fun _ _ _ _ => Ok [] |}.

Definition broken_detector : Detector :=
  {| predict := fun _ _ _ _ => Raise (Exception "RuntimeError" "model error") |}.

Definition opencv : OpenCV :=
  {| bgr2lab := fun p => p;
     lab2bgr := fun p => p;
     equalize_lut := fun _ v => Z.min 255 (2 * v) |}.

(** The rational a finite binary64 number stands for (0 for the others). *)
Definition float_to_Q (x : float) : Q :=
  match x with
  | S754_finite s m e =>
      let n := cond_Zopp s (Zpos m) in
      match e with
      | Zneg p => Qmake n (2 ^ p)
      | _ => inject_Z (n * 2 ^ e)
      end
  | _ => inject_Z 0
  end.

(** Exact rational arithmetic, with the 1-norm in the place of the
    Euclidean norm. *)
Definition numeric : Numeric :=
  {| f32 := Q;
     f32_of_uint8 := inject_Z;
     f32_of_float := float_to_Q;
     f32_sub := fun a b => Qred (Qminus a b);
     f32_div := fun a b => Qred (Qdiv a b);
     f32_mean := fun l => Qred (Qdiv (foldr Qplus (inject_Z 0) l)
                                     (inject_Z (Z.of_nat (length l))));
     linalg_norm := fun l => Qred (foldr (fun x s => Qplus (Qabs x) s) (inject_Z 0) l);
     f32_gt0 := fun n => negb (Qle_bool n (inject_Z 0));
     randn := fun i => inject_Z (Z.of_nat i) |}.

Definition model : @VisionModel numeric :=
  {| forward := fun t => Ok {| shape := [1%nat; 3%nat]; item := item t |};
     input_size := 2 |}.

Definition entropy : Entropy :=
  {| uuid4 := fun k => N.of_nat k |}.

(** A file system that refuses names of more than 255 characters and
    lists the files directly in a folder, a folder without files being
    missing. *)
Definition filesystem : FileSystem :=
  {| open_error := fun _ path =>
       if (255 <? String.length (posixpath.basename path))%nat
       then Some (Exception "OSError" "File name too long")
       else None;
     os_listdir := fun files folder =>
       match omap (fun path =>
                     match str.strip_prefix (folder ++ "/") path with
                     | Some name => if posixpath.has_slash name then None else Some name
                     | None => None
                     end)
                  (elements (dom files)) with
       | [] => Raise (Exception "FileNotFoundError" "No such file or directory")
       | names => Ok names
       end;
     makedirs_error := fun _ => None |}.

(** Decimal digits only. *)
Fixpoint digits (s : string) (acc : Z) : option Z :=
  match s with
  | EmptyString => Some acc
  | String c rest =>
      let n := Z.of_nat (nat_of_ascii c) in
      if (48 <=? n) && (n <=? 57) then digits rest (10 * acc + (n - 48)) else None
  end.

Definition runtime : Runtime :=
  {| int_of_str := fun s =>
       match s, digits s 0 with
       | String _ _, Some n => Ok n
       | _, _ => Raise (Exception "ValueError" "invalid literal for int() with base 10")
       end;
     load_embedding_service := None;
     load_pipeline := None |}.

(** A service that refuses no call. *)
Definition api : @PineconeApi numeric :=
  {| api_error := fun _ => None |}.

Definition search : @VectorSearch numeric :=
  {| top_matches := fun _ top_k items =>
       take (Z.to_nat top_k)
            (map (fun kv => @mkMatch numeric kv.1 PyFloat.zero (Some kv.2.2))
                 (map_to_list items)) |}.

(** A 4x4 RGB image. *)
Definition picture : PIL.Image :=
  {| PIL.mode := "RGB"; PIL.size := (4, 4);
     PIL.getpixel := fun x y => (10 * x + y, 2 * x, 3 * y) |}.

(** A 6x4 greyscale image. *)
Definition grey : PIL.Image :=
  {| PIL.mode := "L"; PIL.size := (6, 4);
     PIL.getpixel := fun x y => (x + y, x + y, x + y) |}.

Definition upload : UploadFile :=
  {| filename := "mona.jpg"; content_type := "image/jpeg"; content := [Byte.x78] |}.

Definition environ : gmap string string := {[ "PINECONE_API_KEY" := "secret" ]}.

Definition empty_world : @World numeric :=
  {| fs := ∅; pc := ∅; uuid_count := 0; calls := [] |}.

Section Runs.
#[local] Existing Instances imaging detector opencv numeric model entropy search
  filesystem runtime api.

(** The world after start-up, and after one and two uploads of the same
    file with the same metadata. *)
Definition started : World := (app.startup environ empty_world).2.

Definition first_call : response app.IndexResponse * World :=
  app.index_image environ upload "Mona Lisa" "Leonardo da Vinci" "1503" "Painting" started.

Definition second_call : response app.IndexResponse * World :=
  app.index_image environ upload "Mona Lisa" "Leonardo da Vinci" "1503" "Painting"
    first_call.2.

Definition body_of (r : response app.IndexResponse) : app.IndexResponse :=
  match r with
  | Success body => body
  | HTTPException _ _ => app.mkIndexResponse "" "" ∅
  end.

End Runs.

End Sample.

(** ** Variations of the small system

    Collaborators and inputs for the edges of the code: a detector that
    reports a box without area and one that reports a box of negative
    area, models with a feature map, with a single feature and with a
    failing forward pass, binary32 models, an image Pillow does not
    convert, uploads that do not decode, with a backslash in the name and
    with a name too long, an environment with a bad [TOP_K], a folder to
    index. *)

Module Variants.

Definition flat : Box :=
  {| xyxy := (PyFloat.of_int 1, PyFloat.of_int 1, PyFloat.of_int 1, PyFloat.of_int 3);
     conf := PyFloat.literal 9 10;
     cls := 0 |}.

Definition flat_detector : Detector :=
  {| predict := fun _ _ _ _ => Ok [flat] |}.

(** A box whose corners come in the wrong order: its area is negative. *)
Definition inverted : Box :=
  {| xyxy := (PyFloat.of_int 3, PyFloat.of_int 1, PyFloat.of_int 1, PyFloat.of_int 3);
     conf := PyFloat.literal 9 10;
     cls := 0 |}.

Definition inverted_detector : Detector :=
  {| predict := fun _ _ _ _ => Ok [inverted] |}.

Definition map_model : @VisionModel Sample.numeric :=
  {| forward := fun t => Ok {| shape := [1%nat; 2%nat; 1%nat; 2%nat]; item := item t |};
     input_size := 2 |}.

Definition scalar_model : @VisionModel Sample.numeric :=
  {| forward := fun t => Ok {| shape := [1%nat; 1%nat]; item := item t |};
     input_size := 2 |}.

Definition broken_model : @VisionModel Sample.numeric :=
  {| forward := fun _ => Raise (Exception "RuntimeError" "out of memory");
     input_size := 2 |}.

(** Binary32 systems: a model whose two features are [2^100] and [0], one
    whose features are [3] and [4], and a vector with a NaN entry. *)
Definition silence : Numeric := Float32.numeric (fun _ => Float32.zero).

Definition pair_of (a b : spec_float) : @Tensor silence :=
  @mkTensor silence [2%nat] (fun i => match i with O => a | _ => b end).



(** An image in a mode Pillow does not convert to RGB. *)
Definition two_band : PIL.Image :=
  {| PIL.mode := "La"; PIL.size := (6, 4);
     PIL.getpixel := fun x y => (x + y, 255, 0) |}.



Definition unreadable : UploadFile :=
  {| filename := "mona.jpg"; content_type := "image/jpeg"; content := [] |}.

Definition backslashed : UploadFile :=
  {| filename := "art\mona.jpg"; content_type := "image/jpeg"; content := [Byte.x78] |}.

(** A world with the collection in place, and one with a file to index
    besides. *)
Definition collection : @IndexRec Sample.numeric :=
  mkIndexRec 3 "cosine" "us-east-1" ∅.

Definition indexed_world : @World Sample.numeric :=
  {| fs := ∅; pc := {[ "museum-images" := collection ]}; uuid_count := 0; calls := [] |}.

Definition folder_world : @World Sample.numeric :=
  {| fs := {[ "converted_images/mona.jpg" := [Byte.x78] ]};
     pc := {[ "museum-images" := collection ]}; uuid_count := 0; calls := [] |}.

(** The value of a computation that returned, and the body of an
    answer. *)
Definition value_or {A} (d : A) (r : result A) : A :=
  match r with Ok a => a | Raise _ => d end.

Definition body_or {A} (d : A) (r : response A) : A :=
  match r with Success body => body | HTTPException _ _ => d end.

End Variants.

(** * Properties *)

(** ** Comparisons of binary64 numbers

    [SFcompare] orders the numbers that are not NaN; the facts below hold
    for every [spec_float], NaN included, because a comparison with NaN
    answers [false]. *)

Ltac float_cases :=
  repeat match goal with
  | s : bool |- _ => destruct s
  | x : spec_float |- _ => destruct x
  | x : PyFloat.float |- _ => destruct x
  end; cbn in *; try congruence.

Ltac cmp_cases :=
  repeat match goal with
  | H : context [Z.compare ?a ?b] |- _ => destruct (Z.compare_spec a b); subst
  | |- context [Z.compare ?a ?b] => destruct (Z.compare_spec a b); subst
  | H : context [Pos.compare_cont Eq ?a ?b] |- _ =>
      change (Pos.compare_cont Eq a b) with (Pos.compare a b) in H;
      destruct (Pos.compare_spec a b); subst
  | |- context [Pos.compare_cont Eq ?a ?b] =>
      change (Pos.compare_cont Eq a b) with (Pos.compare a b);
      destruct (Pos.compare_spec a b); subst
  end; cbn in *; try congruence; try lia.

Lemma gt_trans (a b c : float) :
  PyFloat.gt a b = true -> PyFloat.gt b c = true -> PyFloat.gt a c = true.
Proof.
  unfold PyFloat.gt, SFltb, SFcompare. float_cases; cmp_cases.
Qed.

Lemma gt_irrefl (a : float) : PyFloat.gt a a = false.
Proof. unfold PyFloat.gt, SFltb, SFcompare. float_cases; cmp_cases. Qed.

Lemma gt_asym (a b : float) : PyFloat.gt a b = true -> PyFloat.gt b a = false.
Proof.
  intros Hab. destruct (PyFloat.gt b a) eqn:Hba; [|done].
  by rewrite <- (gt_irrefl a), (gt_trans a b a).
Qed.

Lemma gt_not_leb (a b : float) : PyFloat.gt a b = true -> SFleb a b = false.
Proof.
  unfold PyFloat.gt, SFltb, SFleb, SFcompare. float_cases; cmp_cases.
Qed.

Lemma leb_gt_trans (a b c : float) :
  SFleb a b = true -> PyFloat.gt a c = true -> PyFloat.gt b c = true.
Proof.
  unfold PyFloat.gt, SFltb, SFleb, SFcompare. float_cases; cmp_cases.
Qed.

(** ** The largest-area loop *)

Lemma largest_box_outcome (boxes : list Box) :
  forall best0 area0,
    loop_outcome boxes best0 area0 (pipeline.largest_box boxes best0 area0).
Proof.
  induction boxes as [|box rest IH]; intros best0 area0; cbn.
  - left. split; [done|]. intros b' Hb'. by apply elem_of_nil in Hb'.
  - destruct (PyFloat.gt (pipeline.area box) area0) eqn:Hgt.
    + destruct (IH (Some (xyxy box)) (pipeline.area box))
        as [[Hout Hall] | (i & b & Hi & Hout & Hb & Hall & Hfirst)].
      * right. exists 0%nat, box. repeat split; try done.
        -- intros b' [->|Hb']%elem_of_cons; [apply gt_irrefl | by apply Hall].
        -- intros j b' Hj. lia.
      * right. exists (S i), b. repeat split; try done.
        -- by apply (gt_trans _ (pipeline.area box)).
        -- intros b' [->|Hb']%elem_of_cons; [by apply gt_asym | by apply Hall].
        -- intros [|j] b' Hj Hlook; cbn in Hlook.
           ++ injection Hlook as <-. by apply gt_not_leb.
           ++ apply (Hfirst j); [lia | done].
    + destruct (IH best0 area0)
        as [[Hout Hall] | (i & b & Hi & Hout & Hb & Hall & Hfirst)].
      * left. split; [done|].
        intros b' [->|Hb']%elem_of_cons; [done | by apply Hall].
      * right. exists (S i), b. repeat split; try done.
        -- intros b' [->|Hb']%elem_of_cons; [|by apply Hall].
           destruct (PyFloat.gt (pipeline.area box) (pipeline.area b)) eqn:Hbox; [|done].
           by rewrite (gt_trans _ _ _ Hbox Hb) in Hgt.
        -- intros [|j] b' Hj Hlook; cbn in Hlook.
           ++ injection Hlook as <-.
              destruct (SFleb (pipeline.area b) (pipeline.area box)) eqn:Hle; [|done].
              by rewrite (leb_gt_trans _ _ _ Hle Hb) in Hgt.
           ++ apply (Hfirst j); [lia | done].
Qed.

(** The loop reads the corners of the boxes and nothing else. *)
Lemma largest_box_corners_only (boxes boxes' : list Box) :
  map xyxy boxes' = map xyxy boxes ->
  forall best0 area0,
    pipeline.largest_box boxes' best0 area0 = pipeline.largest_box boxes best0 area0.
Proof.
  revert boxes'. induction boxes as [|b rest IH]; intros [|b' rest'] Hmap; try done.
  injection Hmap as Hb Hrest. intros best0 area0. cbn.
  unfold pipeline.area. rewrite Hb.
  destruct (PyFloat.gt _ area0); by apply IH.
Qed.

Section Cropper.
Context `{PIL.Imaging} `{Detector}.

Lemma detect_and_crop_unfold (pil_img : PIL.Image) (conf_threshold : float)
    (boxes : list Box) :
  pipeline.run_detector pil_img conf_threshold = Ok boxes ->
  pipeline.detect_and_crop pil_img conf_threshold =
    if (length boxes =? 0)%nat then pipeline._center_crop pil_img
    else match (pipeline.largest_box boxes None PyFloat.zero).1 with
         | Some best_box =>
             box ← pipeline.padded_box (PIL.size pil_img) best_box;
             PIL.crop pil_img box
         | None => pipeline._center_crop pil_img
         end.
Proof. intros Hrun. unfold pipeline.detect_and_crop. by rewrite Hrun. Qed.

Lemma area_is_rectangle_area (b : Box) :
  pipeline.area b = rectangle_area (xyxy b).
Proof. unfold pipeline.area, rectangle_area. by destruct (xyxy b) as [[[x1 y1] x2] y2]. Qed.

(** C3, as amended: [detect_and_crop] crops around a reported box exactly
    when some reported box has an area [(x2 - x1) * (y2 - y1)] greater than
    zero, and then around the box [b] of largest area: no reported box has
    a larger area, and every box reported before [b] has a strictly smaller
    one (the first of the largest wins).  When boxes are reported but none
    has an area greater than zero, no box is selected and the centre crop
    is returned.  The confidences play no part in the choice. *)
Theorem detect_and_crop_selects_largest_area
    (pil_img : PIL.Image) (conf_threshold : float) (boxes : list Box) :
  pipeline.run_detector pil_img conf_threshold = Ok boxes ->
  ((exists i b,
      boxes !! i = Some b /\
      PyFloat.gt (rectangle_area (xyxy b)) PyFloat.zero = true /\
      pipeline.detect_and_crop pil_img conf_threshold =
        (box ← pipeline.padded_box (PIL.size pil_img) (xyxy b); PIL.crop pil_img box) /\
      (forall b', b' ∈ boxes ->
         PyFloat.gt (rectangle_area (xyxy b')) (rectangle_area (xyxy b)) = false) /\
      (forall j b', (j < i)%nat -> boxes !! j = Some b' ->
         SFleb (rectangle_area (xyxy b)) (rectangle_area (xyxy b')) = false))
   \/
   ((forall b, b ∈ boxes -> PyFloat.gt (rectangle_area (xyxy b)) PyFloat.zero = false) /\
    pipeline.detect_and_crop pil_img conf_threshold = pipeline._center_crop pil_img)) /\
  (forall boxes', map xyxy boxes' = map xyxy boxes ->
                  pipeline.largest_box boxes' None PyFloat.zero =
                  pipeline.largest_box boxes None PyFloat.zero).
Proof.
  intros Hrun. split; [|intros boxes' Hmap; by apply largest_box_corners_only].
  rewrite (detect_and_crop_unfold _ _ _ Hrun).
  destruct (largest_box_outcome boxes None PyFloat.zero)
    as [[Hout Hall] | (i & b & Hi & Hout & Hpos & Hall & Hfirst)]; rewrite Hout.
  - right. split.
    + intros b Hb. rewrite <- area_is_rectangle_area. by apply Hall.
    + cbn. by destruct (length boxes =? 0)%nat.
  - left. exists i, b. rewrite <- area_is_rectangle_area.
    split; [done|]. split; [done|]. split; [|split].
    + cbn. by destruct boxes.
    + intros b' Hb'. rewrite <- area_is_rectangle_area. by apply Hall.
    + intros j b' Hj Hlook. rewrite <- area_is_rectangle_area. by apply (Hfirst j).
Qed.

(** The padded rectangle of lines 72-80 lies inside the image. *)
Lemma padded_box_bounds (w h : Z) (best_box : float * float * float * float)
    (x1 y1 x2 y2 : Z) :
  pipeline.padded_box (w, h) best_box = Ok (x1, y1, x2, y2) ->
  0 <= x1 /\ 0 <= y1 /\ x2 <= w /\ y2 <= h.
Proof.
  destruct best_box as [[[fx1 fy1] fx2] fy2]. unfold pipeline.padded_box.
  destruct (PyFloat.to_int fx1) as [ix1|]; [cbn|done].
  destruct (PyFloat.to_int fy1) as [iy1|]; [cbn|done].
  destruct (PyFloat.to_int fx2) as [ix2|]; [cbn|done].
  destruct (PyFloat.to_int fy2) as [iy2|]; [cbn|done].
  destruct (PyFloat.int_times (ix2 - ix1) _ ≫= PyFloat.to_int) as [pad_x|]; [cbn|done].
  destruct (PyFloat.int_times (iy2 - iy1) _ ≫= PyFloat.to_int) as [pad_y|]; [cbn|done].
  intros [= <- <- <- <-]. lia.
Qed.

(** The centre square of lines 96-100 for an image of size [w x h]. *)
Lemma center_crop_square (pil_img : PIL.Image) (w h : Z) :
  PIL.size pil_img = (w, h) -> 0 <= w -> 0 <= h ->
  let side := Z.min w h in
  let left := (w - side) `div` 2 in
  let top := (h - side) `div` 2 in
  exists out,
    pipeline._center_crop pil_img = Ok out /\
    PIL.crop pil_img (left, top, left + side, top + side) = Ok out /\
    PIL.size out = (side, side) /\
    PIL.mode out = PIL.mode pil_img /\
    (0 <= left /\ 0 <= top /\ left + side <= w /\ top + side <= h) /\
    (2 * left <= w - side <= 2 * left + 1 /\ 2 * top <= h - side <= 2 * top + 1) /\
    (forall x y, 0 <= x < side -> 0 <= y < side ->
                 PIL.getpixel out x y = PIL.getpixel pil_img (left + x) (top + y)).
Proof.
  intros Hsize Hw Hh side left top.
  assert (Hside : 0 <= side) by (unfold side; lia).
  assert (Hl : 2 * left <= w - side <= 2 * left + 1).
  { unfold left. pose proof (Z.div_mod (w - side) 2).
    pose proof (Z.mod_pos_bound (w - side) 2). lia. }
  assert (Ht : 2 * top <= h - side <= 2 * top + 1).
  { unfold top. pose proof (Z.div_mod (h - side) 2).
    pose proof (Z.mod_pos_bound (h - side) 2). lia. }
  assert (Hbounds : 0 <= left /\ 0 <= top /\ left + side <= w /\ top + side <= h).
  { unfold side in *. lia. }
  unfold pipeline._center_crop. rewrite Hsize. fold side left top.
  unfold PIL.crop.
  destruct (Z.ltb_spec (left + side) left) as [?|_]; [lia|].
  destruct (Z.ltb_spec (top + side) top) as [?|_]; [lia|].
  eexists. split; [done|]. split; [done|]. cbn.
  split; [f_equal; lia|]. split; [done|]. split; [done|]. split; [done|].
  intros x y Hx Hy. unfold PIL.width, PIL.height. rewrite Hsize. cbn.
  replace (x + left) with (left + x) by lia.
  replace (y + top) with (top + y) by lia.
  destruct (Z.leb_spec 0 (left + x)); [|lia].
  destruct (Z.ltb_spec (left + x) w); [|lia].
  destruct (Z.leb_spec 0 (top + y)); [|lia].
  destruct (Z.ltb_spec (top + y) h); [|lia].
  done.
Qed.

(** C4: when the detector reports no box, [detect_and_crop] returns the
    centre square: side [min w h], left offset [(w - side) // 2], top
    offset [(h - side) // 2], the pixels of that window of the input. *)
Theorem detect_and_crop_center_square
    (pil_img : PIL.Image) (conf_threshold : float) (w h : Z) :
  PIL.size pil_img = (w, h) -> 0 <= w -> 0 <= h ->
  pipeline.run_detector pil_img conf_threshold = Ok [] ->
  let side := Z.min w h in
  let left := (w - side) `div` 2 in
  let top := (h - side) `div` 2 in
  exists out,
    pipeline.detect_and_crop pil_img conf_threshold = Ok out /\
    PIL.crop pil_img (left, top, left + side, top + side) = Ok out /\
    PIL.size out = (side, side) /\
    PIL.mode out = PIL.mode pil_img /\
    (0 <= left /\ 0 <= top /\ left + side <= w /\ top + side <= h) /\
    (2 * left <= w - side <= 2 * left + 1 /\ 2 * top <= h - side <= 2 * top + 1) /\
    (forall x y, 0 <= x < side -> 0 <= y < side ->
                 PIL.getpixel out x y = PIL.getpixel pil_img (left + x) (top + y)).
Proof.
  intros Hsize Hw Hh Hrun side left top.
  destruct (center_crop_square pil_img w h Hsize Hw Hh) as (out & Hcc & Hrest).
  exists out. split; [|exact Hrest].
  by rewrite (detect_and_crop_unfold _ _ _ Hrun).
Qed.

(** C5: the rectangle [detect_and_crop] cuts around the winning box, after
    the 5% padding, satisfies [0 <= x1], [0 <= y1], [x2 <= w], [y2 <= h]. *)
Theorem padded_crop_within_bounds
    (pil_img : PIL.Image) (conf_threshold : float) (boxes : list Box)
    (best_box : float * float * float * float) (w h x1 y1 x2 y2 : Z) :
  PIL.size pil_img = (w, h) ->
  pipeline.run_detector pil_img conf_threshold = Ok boxes ->
  boxes <> [] ->
  (pipeline.largest_box boxes None PyFloat.zero).1 = Some best_box ->
  pipeline.padded_box (w, h) best_box = Ok (x1, y1, x2, y2) ->
  pipeline.detect_and_crop pil_img conf_threshold = PIL.crop pil_img (x1, y1, x2, y2) /\
  0 <= x1 /\ 0 <= y1 /\ x2 <= w /\ y2 <= h.
Proof.
  intros Hsize Hrun Hne Hbest Hpad. split.
  - rewrite (detect_and_crop_unfold _ _ _ Hrun), Hbest, Hsize, Hpad.
    by destruct boxes.
  - by apply (padded_box_bounds w h best_box).
Qed.

(** C6, as amended: an exception of the detector call (or of the JPEG
    encoding that feeds it) comes out of [detect_and_crop] unchanged, and
    [detect_and_crop] returns an image only when the detector call
    returned: a detector failure is never masked.  Two conditions are
    absorbed by the centre crop, not one: no box at all, and boxes none of
    which has an area greater than zero; both are the case of a list
    without a box of positive area.  As soon as one box has a positive
    area the crop is taken around such a box. *)
Theorem detect_and_crop_propagates_detector_failure
    (pil_img : PIL.Image) (conf_threshold : float) :
  (forall e, PIL.save pil_img "JPEG" = Raise e ->
             pipeline.detect_and_crop pil_img conf_threshold = Raise e) /\
  (forall buf e, PIL.save pil_img "JPEG" = Ok buf ->
                 predict buf conf_threshold 10 640 = Raise e ->
                 pipeline.detect_and_crop pil_img conf_threshold = Raise e) /\
  (forall buf boxes,
     PIL.save pil_img "JPEG" = Ok buf ->
     predict buf conf_threshold 10 640 = Ok boxes ->
     Forall (fun b => PyFloat.gt (rectangle_area (xyxy b)) PyFloat.zero = false) boxes ->
     pipeline.detect_and_crop pil_img conf_threshold = pipeline._center_crop pil_img) /\
  (forall buf boxes,
     PIL.save pil_img "JPEG" = Ok buf ->
     predict buf conf_threshold 10 640 = Ok boxes ->
     Exists (fun b => PyFloat.gt (rectangle_area (xyxy b)) PyFloat.zero = true) boxes ->
     exists b, b ∈ boxes /\
       PyFloat.gt (rectangle_area (xyxy b)) PyFloat.zero = true /\
       pipeline.detect_and_crop pil_img conf_threshold =
       (box ← pipeline.padded_box (PIL.size pil_img) (xyxy b);
        PIL.crop pil_img box)) /\
  (forall out, pipeline.detect_and_crop pil_img conf_threshold = Ok out ->
               exists buf boxes, PIL.save pil_img "JPEG" = Ok buf /\
                                 predict buf conf_threshold 10 640 = Ok boxes).
Proof.
  assert (Hrun : forall buf boxes,
             PIL.save pil_img "JPEG" = Ok buf ->
             predict buf conf_threshold 10 640 = Ok boxes ->
             pipeline.run_detector pil_img conf_threshold = Ok boxes).
  { intros buf boxes Hsave Hpred. unfold pipeline.run_detector.
    rewrite Hsave. cbn. by rewrite Hpred. }
  split; [|split; [|split; [|split]]].
  - intros e Hsave. unfold pipeline.detect_and_crop, pipeline.run_detector.
    by rewrite Hsave.
  - intros buf e Hsave Hpred. unfold pipeline.detect_and_crop, pipeline.run_detector.
    rewrite Hsave. cbn. by rewrite Hpred.
  - intros buf boxes Hsave Hpred Hflat.
    rewrite (detect_and_crop_unfold _ _ _ (Hrun _ _ Hsave Hpred)).
    destruct (largest_box_outcome boxes None PyFloat.zero)
      as [[Hout _] | (i & b & Hi & _ & Hb & _)].
    + rewrite Hout. cbn. by destruct (length boxes =? 0)%nat.
    + apply list_elem_of_lookup_2 in Hi. rewrite Forall_forall in Hflat.
      rewrite area_is_rectangle_area in Hb. by rewrite (Hflat b Hi) in Hb.
  - intros buf boxes Hsave Hpred Hpos.
    rewrite (detect_and_crop_unfold _ _ _ (Hrun _ _ Hsave Hpred)).
    destruct (largest_box_outcome boxes None PyFloat.zero)
      as [[_ Hall] | (i & b & Hi & Hout & Hb & _)].
    + apply Exists_exists in Hpos as (b & Hb & Hgt).
      rewrite <- area_is_rectangle_area in Hgt. by rewrite (Hall b Hb) in Hgt.
    + exists b. rewrite <- area_is_rectangle_area.
      split; [by apply list_elem_of_lookup_2 in Hi|]. split; [done|].
      rewrite Hout. cbn. by destruct boxes.
  - intros out. unfold pipeline.detect_and_crop, pipeline.run_detector.
    destruct (PIL.save pil_img "JPEG") as [buf|e]; [cbn|done].
    destruct (predict buf conf_threshold 10 640) as [boxes|e] eqn:Hpred; [|done].
    intros _. by exists buf, boxes.
Qed.

End Cropper.

(** ** The colour normaliser *)

(** The shape of a two-dimensional array: the lengths of its rows. *)
Lemma map_const_replicate {A B} (c : B) (l : list A) :
  map (fun _ => c) l = replicate (length l) c.
Proof. induction l as [|x l IH]; cbn; [done | by rewrite IH]. Qed.

Lemma asarray_shape (im : PIL.Image) :
  map length (PIL.asarray im) =
  replicate (Z.to_nat (PIL.height im)) (Z.to_nat (PIL.width im)).
Proof.
  unfold PIL.asarray. rewrite map_map.
  rewrite (map_ext _ (fun _ => Z.to_nat (PIL.width im))).
  - by rewrite map_const_replicate, length_seqZ.
  - intros y. by rewrite length_map, length_seqZ.
Qed.

Lemma map_map_shape {A B} (f : A -> B) (m : list (list A)) :
  map length (map (map f) m) = map length m.
Proof.
  rewrite map_map. apply map_ext. intros r. apply length_map.
Qed.

Lemma is_empty_by_shape {A B} (m : list (list A)) (m' : list (list B)) :
  map length m = map length m' -> cv2.is_empty m = cv2.is_empty m'.
Proof.
  destruct m as [|[|x r] m], m' as [|[|x' r'] m']; cbn; congruence.
Qed.

Lemma fromarray_size (a : list (list pixel)) (w h : nat) :
  map length a = replicate (S h) w ->
  PIL.size (PIL.fromarray a) = (Z.of_nat w, Z.of_nat (S h)).
Proof.
  intros Hshape. cbn.
  assert (Hlen : length a = S h).
  { by rewrite <- (length_map length a), Hshape, length_replicate. }
  destruct a as [|r a]; [done|]. cbn in *. injection Hshape as -> _.
  by rewrite Hlen.
Qed.

Lemma merge_row_split (r0 r1 r2 : list Z) :
  length r0 = length r1 -> length r0 = length r2 ->
  map (fun p : pixel => p.1.1) (cv2.merge_row r0 r1 r2) = r0 /\
  map (fun p : pixel => p.1.2) (cv2.merge_row r0 r1 r2) = r1 /\
  map (fun p : pixel => p.2) (cv2.merge_row r0 r1 r2) = r2.
Proof.
  revert r1 r2. induction r0 as [|x0 r0 IH]; intros [|x1 r1] [|x2 r2] H1 H2;
    try done.
  injection H1 as H1. injection H2 as H2.
  destruct (IH r1 r2 H1 H2) as (E0 & E1 & E2).
  unfold cv2.merge_row in *. cbn. by rewrite E0, E1, E2.
Qed.

Section Normalizer.
Context `{OpenCV}.

Lemma cvtColor_nonempty (src : list (list pixel)) (code : cv2.ColorCode) :
  cv2.is_empty src = false ->
  cv2.cvtColor src code = Ok (map (map (cv2.cvt_pixel code)) src).
Proof. intros Hne. unfold cv2.cvtColor. by rewrite Hne. Qed.

Lemma split_shapes (m : list (list pixel)) :
  map length (cv2.split m).1.1 = map length m /\
  map length (cv2.split m).1.2 = map length m /\
  map length (cv2.split m).2 = map length m.
Proof. cbn. by rewrite !map_map_shape. Qed.

Lemma equalizeHist_shape (src : list (list Z)) :
  map length (cv2.equalizeHist src) = map length src.
Proof. apply map_map_shape. Qed.

(** Planes of one shape merge, and splitting the result gives them back. *)
Lemma merge_then_split (c0 c1 c2 : list (list Z)) :
  map length c0 = map length c1 -> map length c0 = map length c2 ->
  exists m, cv2.merge (c0, c1, c2) = Ok m /\
            cv2.split m = (c0, c1, c2) /\
            map length m = map length c0.
Proof.
  intros H1 H2. unfold cv2.merge, cv2.plane_shape.
  rewrite bool_decide_eq_true_2 by done.
  eexists. split; [done|].
  revert c1 c2 H1 H2. induction c0 as [|r0 c0 IH]; intros [|r1 c1] [|r2 c2] H1 H2;
    try done.
  injection H1 as Hr1 H1. injection H2 as Hr2 H2.
  destruct (IH c1 c2 H1 H2) as (Es & El).
  destruct (merge_row_split r0 r1 r2 Hr1 Hr2) as (E0 & E1 & E2).
  set (rest := zip_with _ (zip c0 c1) c2) in *.
  change (zip_with _ (zip (r0 :: c0) (r1 :: c1)) (r2 :: c2))
    with (cv2.merge_row r0 r1 r2 :: rest).
  unfold cv2.split in *. injection Es as Es0 Es1 Es2.
  cbn [map]. rewrite E0, E1, E2, Es0, Es1, Es2, El. split; [done|].
  f_equal. rewrite <- E0 at 2. by rewrite length_map.
Qed.

Lemma map_map_compose {A B C : Type} (f : A -> B) (g : B -> C) (m : list (list A)) :
  map (map g) (map (map f) m) = map (map (fun x => g (f x))) m.
Proof. rewrite List.map_map. apply map_ext. intros r. apply List.map_map. Qed.

Lemma merge_row_of_maps (f0 f1 f2 : pixel -> Z) (r : list pixel) :
  cv2.merge_row (map f0 r) (map f1 r) (map f2 r) =
  map (fun p => (f0 p, f1 p, f2 p)) r.
Proof.
  unfold cv2.merge_row. induction r as [|p r IH]; [done|]. cbn. by rewrite IH.
Qed.

(** Planes computed pixel by pixel from one array merge into the array of
    the three values. *)
Lemma merge_of_maps (f0 f1 f2 : pixel -> Z) (m : list (list pixel)) :
  cv2.merge (map (map f0) m, map (map f1) m, map (map f2) m) =
  Ok (map (map (fun p => (f0 p, f1 p, f2 p))) m).
Proof.
  unfold cv2.merge, cv2.plane_shape.
  rewrite bool_decide_eq_true_2 by (by rewrite !map_map_shape).
  f_equal. induction m as [|r m IH]; [done|].
  cbn [map zip zip_with fst snd]. by rewrite merge_row_of_maps, IH.
Qed.

(** C8: on an RGB image of positive size [normalize_color] returns an RGB
    image of the same width and height.  The LAB array of line 117 holds,
    for every pixel, OpenCV's BGR-to-LAB conversion of the pixel with red
    and blue exchanged; the LAB array of line 126 holds the same a and b
    values and the L value sent through the equalisation table of the
    whole L plane; the returned image holds, for every pixel, OpenCV's
    LAB-to-BGR conversion of that array with red and blue exchanged back.
    So only the L plane changes between the two LAB arrays. *)
Theorem normalize_color_changes_luminance_only (pil_img : PIL.Image) (w h : Z) :
  PIL.mode pil_img = "RGB" ->
  PIL.size pil_img = (w, h) ->
  0 < w -> 0 < h ->
  exists lab lab' out,
    lab = map (map (fun p => bgr2lab (cv2.swap_rb p))) (PIL.asarray pil_img) /\
    lab' = map (map (fun q : pixel =>
                       (equalize_lut (cv2.split lab).1.1 q.1.1, q.1.2, q.2))) lab /\
    out = PIL.fromarray (map (map (fun q => cv2.swap_rb (lab2bgr q))) lab') /\
    pipeline.to_lab pil_img = Ok lab /\
    pipeline.equalize_l lab = Ok lab' /\
    pipeline.of_lab lab' = Ok out /\
    pipeline.normalize_color pil_img = Ok out /\
    PIL.size out = (w, h) /\
    PIL.mode out = "RGB" /\
    cv2.split lab' =
      (cv2.equalizeHist (cv2.split lab).1.1, (cv2.split lab).1.2, (cv2.split lab).2).
Proof.
  intros _ Hsize Hw Hh.
  pose proof (asarray_shape pil_img) as Harr.
  unfold PIL.width, PIL.height in Harr. rewrite Hsize in Harr. cbn in Harr.
  destruct (Z.to_nat h) as [|h'] eqn:Eh; [lia|].
  destruct (Z.to_nat w) as [|w'] eqn:Ew; [lia|].
  assert (Hne : forall (m : list (list pixel)),
             map length m = replicate (S h') (S w') -> cv2.is_empty m = false).
  { intros m Hm. by destruct m as [|[|x r] m]. }
  set (bgr := map (map (cv2.cvt_pixel cv2.COLOR_RGB2BGR)) (PIL.asarray pil_img)).
  set (lab := map (map (fun p => bgr2lab (cv2.swap_rb p))) (PIL.asarray pil_img)).
  assert (Hbgr : map length bgr = replicate (S h') (S w')).
  { unfold bgr. by rewrite map_map_shape. }
  assert (Hlab : map length lab = replicate (S h') (S w')).
  { unfold lab. by rewrite map_map_shape. }
  assert (Hto : pipeline.to_lab pil_img = Ok lab).
  { unfold pipeline.to_lab.
    rewrite (cvtColor_nonempty _ _ (Hne _ Harr)). cbn.
    rewrite (cvtColor_nonempty _ _ (Hne _ Hbgr)). unfold bgr.
    by rewrite map_map_compose. }
  set (lab' := map (map (fun q : pixel =>
                 (equalize_lut (cv2.split lab).1.1 q.1.1, q.1.2, q.2))) lab).
  assert (Hlab' : map length lab' = replicate (S h') (S w')).
  { unfold lab'. by rewrite map_map_shape. }
  assert (Heq : pipeline.equalize_l lab = Ok lab').
  { unfold pipeline.equalize_l, cv2.split, cv2.equalizeHist.
    rewrite map_map_compose.
    exact (merge_of_maps (fun p => equalize_lut _ p.1.1)
                         (fun p => p.1.2) (fun p => p.2) lab). }
  assert (Hsplit : cv2.split lab' =
            (cv2.equalizeHist (cv2.split lab).1.1, (cv2.split lab).1.2,
             (cv2.split lab).2)).
  { unfold lab', cv2.split at 1, cv2.equalizeHist. rewrite !map_map_compose.
    cbn [fst snd]. unfold cv2.split. cbn [fst snd].
    by rewrite !map_map_compose. }
  set (bgr' := map (map (cv2.cvt_pixel cv2.COLOR_LAB2BGR)) lab').
  set (rgb' := map (map (fun q => cv2.swap_rb (lab2bgr q))) lab').
  assert (Hbgr' : map length bgr' = replicate (S h') (S w')).
  { unfold bgr'. by rewrite map_map_shape. }
  assert (Hrgb' : map length rgb' = replicate (S h') (S w')).
  { unfold rgb'. by rewrite map_map_shape. }
  assert (Hof : pipeline.of_lab lab' = Ok (PIL.fromarray rgb')).
  { unfold pipeline.of_lab.
    rewrite (cvtColor_nonempty _ _ (Hne _ Hlab')). cbn.
    rewrite (cvtColor_nonempty _ _ (Hne _ Hbgr')). unfold bgr'.
    by rewrite map_map_compose. }
  exists lab, lab', (PIL.fromarray rgb').
  do 6 (split; [done|]). split.
  { unfold pipeline.normalize_color. rewrite Hto.
    cbn -[pipeline.equalize_l pipeline.of_lab]. rewrite Heq.
    cbn -[pipeline.of_lab]. done. }
  split.
  { rewrite (fromarray_size _ _ _ Hrgb'). f_equal; lia. }
  split; [done|]. done.
Qed.

End Normalizer.

(** ** The preprocessing pipeline *)

Section Preprocessing.
Context `{PIL.Imaging} `{Detector} `{OpenCV}.

(** C9: with both flags off, an image that is already RGB comes back as it
    went in: no conversion, no crop, no normalisation, no resize. *)
Theorem process_image_identity_on_rgb (pil_img : PIL.Image) :
  PIL.mode pil_img = "RGB" ->
  pipeline.process_image pil_img false false = Ok pil_img.
Proof.
  intros Hmode. unfold pipeline.process_image.
  by rewrite bool_decide_eq_false_2 by (by intros Hne).
Qed.

End Preprocessing.

(** ** Index time and query time *)

Section SharedPath.
Context `{PIL.Imaging} `{Detector} `{OpenCV} `{Numeric} `{!VisionModel}.

(** The two endpoints of [app.py] preprocess and embed in the same way. *)
Lemma endpoints_share_embedding_path (pil : PIL.Image) :
  app.index_embed pil = app.search_embed pil.
Proof. reflexivity. Qed.

(** The bulk indexer differs from them exactly by the detection step. *)
Lemma bulk_indexer_embedding_path (pil : PIL.Image) :
  images_embed.index_embed pil = pipeline.generate_embedding pil true true /\
  app.search_embed pil = pipeline.generate_embedding pil false true.
Proof. split; reflexivity. Qed.

End SharedPath.

(** ** The embedding dimension *)

Section Dimension.
Context `{PIL.Imaging} `{Numeric} `{!VisionModel}.

Lemma preprocess_image_shape (pil_img : PIL.Image) :
  shape (embedding_service.preprocess_image pil_img) =
  shape embedding_service.dummy_input.
Proof.
  unfold embedding_service.preprocess_image, embedding_service.dummy_input. cbn.
  case_bool_decide as Hsize.
  - unfold PIL.resize. destruct (decide _) as [Heq|_]; [done|]. done.
  - unfold PIL.height, PIL.width. by rewrite Hsize.
Qed.

Lemma pooled_shape (D : nat) (y : Tensor) :
  feature_shape D (shape y) ->
  shape (if (2 <? ndim y)%nat then mean_last2 y else y) = [1%nat; D].
Proof.
  unfold ndim. intros [Hs | (h & w & Hs)]; rewrite Hs; cbn; [done|].
  unfold ndim. by rewrite Hs.
Qed.

Lemma normalize_vector_shape (vec : Tensor) :
  shape (embedding_service.normalize_vector vec) = shape vec.
Proof.
  unfold embedding_service.normalize_vector. by destruct (f32_gt0 _).
Qed.

(** [normalize_vector] divides every entry by the norm when the test
    [norm > 0] succeeds, and returns its argument otherwise. *)
Lemma normalize_vector_cases (vec : Tensor) :
  let norm := linalg_norm (ravel vec) in
  (f32_gt0 norm = true ->
     forall i, item (embedding_service.normalize_vector vec) i = f32_div (item vec i) norm) /\
  (f32_gt0 norm = false -> embedding_service.normalize_vector vec = vec).
Proof.
  unfold embedding_service.normalize_vector. cbn.
  split; intros Hgt; by rewrite Hgt.
Qed.

Lemma get_embedding_dim_fixed (D : nat) :
  fixed_length D ->
  forall d, embedding_service.get_embedding_dim = Ok d -> d = D.
Proof.
  intros [_ Hmodel] d. unfold embedding_service.get_embedding_dim.
  destruct (forward embedding_service.dummy_input) as [y|e] eqn:Hfwd; [|done].
  cbn -[mean_last2 ndim Nat.ltb last].
  rewrite (pooled_shape D y) by (by apply (Hmodel _ _ eq_refl)).
  cbn. congruence.
Qed.

Lemma generate_embedding_length (D : nat) (pil_img : PIL.Image) (v : pyval) :
  fixed_length D ->
  embedding_service.generate_embedding pil_img = Ok v ->
  py_len v = Some D.
Proof.
  intros [HD Hmodel]. unfold embedding_service.generate_embedding,
    embedding_service.extract_features.
  destruct (forward (embedding_service.preprocess_image pil_img)) as [y|e] eqn:Hfwd;
    [|done].
  pose proof (pooled_shape D y (Hmodel _ _ (preprocess_image_shape pil_img) Hfwd))
    as Hshape.
  cbn -[mean_last2 ndim Nat.ltb tolist embedding_service.normalize_vector squeeze].
  intros [= <-]. unfold tolist. rewrite normalize_vector_shape.
  unfold squeeze at 1. cbn [shape]. rewrite Hshape.
  rewrite !filter_cons, filter_nil.
  destruct (decide (1%nat <> 1%nat)) as [?|_]; [done|].
  destruct (decide (D <> 1%nat)) as [_|?]; [|done].
  cbn. by rewrite length_map, length_seq.
Qed.

End Dimension.

(** ** Running the state-and-exception monad *)

Section Run.
Context `{Numeric}.

Lemma run_bind {A B} (m : io A) (f : A -> io B) (w : World) :
  (m ≫= f) w = match m w with
               | (Ok a, w') => f a w'
               | (Raise e, w') => (Raise e, w')
               end.
Proof. reflexivity. Qed.

Lemma run_ret {A} (a : A) (w : World) : (mret a : io A) w = (Ok a, w).
Proof. reflexivity. Qed.

Lemma run_lift {A} (r : result A) (w : World) : lift r w = (r, w).
Proof. reflexivity. Qed.

Lemma run_raise {A} (e : exn) (w : World) : raise (A:=A) e w = (Raise e, w).
Proof. reflexivity. Qed.

Lemma run_gets {A} (f : World -> A) (w : World) : gets f w = (Ok (f w), w).
Proof. reflexivity. Qed.

Lemma run_modify (f : World -> World) (w : World) : modify f w = (Ok tt, f w).
Proof. reflexivity. Qed.

Lemma run_log (ev : Event) (w : World) :
  log ev w = (Ok tt, {| fs := fs w; pc := pc w; uuid_count := uuid_count w;
                        calls := calls w ++ [ev] |}).
Proof. reflexivity. Qed.

Lemma run_fail_with (o : option exn) (w : World) :
  fail_with o w = match o with
                  | Some e => (Raise e, w)
                  | None => (Ok tt, w)
                  end.
Proof. by destruct o. Qed.

Lemma run_call `{!PineconeApi} (ev : Event) (w : World) :
  pinecone.call ev w =
  let w1 := {| fs := fs w; pc := pc w; uuid_count := uuid_count w;
               calls := calls w ++ [ev] |} in
  match api_error ev with
  | Some e => (Raise e, w1)
  | None => (Ok tt, w1)
  end.
Proof. unfold pinecone.call. rewrite run_bind, run_log. apply run_fail_with. Qed.

End Run.

Lemma Success_inj {A} (a b : A) : Success a = Success b -> a = b.
Proof. by intros [= ->]. Qed.

(** Reading the final world off an equation between outcomes, without
    reducing the outcomes. *)
Ltac leave_io :=
  let Heq := fresh "Heq" in
  cbn beta iota; intros Heq; apply pair_equal_spec in Heq as [_ <-];
  cbn [fs pc uuid_count calls set_pc].

Ltac run_io :=
  repeat first
    [ rewrite run_bind | rewrite run_ret | rewrite run_lift | rewrite run_raise
    | rewrite run_gets | rewrite run_modify | rewrite run_log
    | progress cbn beta iota zeta
    | progress cbn [fs pc uuid_count calls set_pc] ].

(** ** Start-up and the calls to the vector database *)

Section Startup.
Context `{PIL.Imaging} `{Detector} `{OpenCV} `{Numeric} `{!VisionModel}
        `{Entropy} `{!VectorSearch} `{!PineconeApi} `{FileSystem} `{Runtime}.
Context (environ : gmap string string).

Lemma startup_outcome (w w0 : World) (dim : nat) :
  app.startup environ w = (Ok dim, w0) ->
  embedding_service.get_embedding_dim = Ok dim /\
  fs w0 = fs w /\ uuid_count w0 = uuid_count w /\
  ((pc w !! app.PINECONE_INDEX environ = None /\
    calls w0 = (calls w ++ [EvGetEmbeddingDim; EvListIndexes;
                            EvCreateIndex (app.PINECONE_INDEX environ) dim])%list /\
    pc w0 = <[app.PINECONE_INDEX environ :=
                mkIndexRec dim "cosine" (app.PINECONE_REGION environ) ∅]> (pc w))
   \/
   (is_Some (pc w !! app.PINECONE_INDEX environ) /\
    calls w0 = (calls w ++ [EvGetEmbeddingDim; EvListIndexes])%list /\
    pc w0 = pc w)).
Proof.
  unfold app.startup, makedirs.
  rewrite run_bind, run_lift. destruct (app.TOP_K environ) as [top_k|]; [|done].
  rewrite run_bind, run_fail_with. destruct (makedirs_error _); [done|].
  rewrite run_bind, run_fail_with. destruct (makedirs_error _); [done|].
  rewrite run_bind, run_fail_with. destruct load_embedding_service; [done|].
  rewrite run_bind, run_fail_with. destruct load_pipeline; [done|].
  destruct (app.PINECONE_API_KEY environ) as [[|c k]|]; [done| |done].
  run_io.
  destruct embedding_service.get_embedding_dim as [d|e]; [|done].
  unfold pinecone.list_indexes_names. rewrite !run_bind, run_call. cbn zeta.
  destruct (api_error EvListIndexes); [done|]. run_io.
  case_bool_decide as Hin.
  - unfold pinecone.create_index. rewrite !run_bind, run_call. cbn zeta.
    destruct (api_error (EvCreateIndex _ _)); [done|]. run_io.
    rewrite elem_of_elements, elem_of_dom, <- eq_None_not_Some in Hin.
    rewrite Hin. run_io. intros [= <- <-]. cbn.
    rewrite <- !app_assoc. cbn. split; [done|]. split; [done|]. split; [done|].
    left. done.
  - run_io. intros [= <- <-]. cbn. rewrite <- !app_assoc. cbn.
    split; [done|]. split; [done|]. split; [done|]. right.
    rewrite elem_of_elements, elem_of_dom in Hin. done.
Qed.

Lemma run_save_upload_file (local_dir : string) (file : UploadFile) (w : World) :
  app.save_upload_file local_dir file w =
  let name := uuid.hex (uuid4 (uuid_count w)) ++ "_" ++ posixpath.basename (filename file) in
  let path := posixpath.join local_dir name in
  match open_error (fs w) path with
  | Some e =>
      (Raise e, {| fs := fs w; pc := pc w;
                   uuid_count := S (uuid_count w); calls := calls w |})
  | None =>
      (Ok ("/" ++ str.replace "\" "/" path),
       {| fs := <[path := content file]> (fs w); pc := pc w;
          uuid_count := S (uuid_count w); calls := calls w |})
  end.
Proof.
  unfold app.save_upload_file, uuid4_hex, write_file. run_io.
  rewrite run_fail_with. by destruct (open_error _ _).
Qed.

Lemma run_image_open (path : string) (w : World) :
  image_open path w =
  match fs w !! path with
  | Some data => (PIL.decode data, w)
  | None => (Raise (Exception "FileNotFoundError" "No such file or directory"), w)
  end.
Proof.
  unfold image_open. run_io. by destruct (fs w !! path).
Qed.

Lemma run_upsert (name id : string) (values : pyval)
    (metadata : gmap string string) (w : World) :
  pinecone.upsert name id values metadata w =
  let w1 := {| fs := fs w; pc := pc w; uuid_count := uuid_count w;
               calls := calls w ++ [EvUpsert name id values] |} in
  match api_error (EvUpsert name id values) with
  | Some e => (Raise e, w1)
  | None =>
      match pc w !! name with
      | None => (Raise (Exception "NotFoundException" "Resource not found"), w1)
      | Some rec =>
          if bool_decide (py_len values = Some (dimension rec))
          then (Ok tt,
                set_pc (<[name := mkIndexRec (dimension rec) (metric rec) (region rec)
                                   (<[id := (values, metadata)]> (vectors rec))]> (pc w)) w1)
          else (Raise (Exception "PineconeApiException"
                         "Vector dimension does not match the dimension of the index"), w1)
      end
  end.
Proof.
  unfold pinecone.upsert. rewrite run_bind, run_call. cbn zeta.
  destruct (api_error _); [done|]. run_io.
  destruct (pc w !! name) as [rec|]; [|done].
  by case_bool_decide.
Qed.

Lemma run_query (name : string) (vector : pyval) (top_k : Z) (w : World) :
  pinecone.query name vector top_k w =
  let w1 := {| fs := fs w; pc := pc w; uuid_count := uuid_count w;
               calls := calls w ++ [EvQuery name vector top_k] |} in
  match api_error (EvQuery name vector top_k) with
  | Some e => (Raise e, w1)
  | None =>
      match pc w !! name with
      | None => (Raise (Exception "NotFoundException" "Resource not found"), w1)
      | Some rec =>
          if bool_decide (py_len vector = Some (dimension rec))
          then (Ok (top_matches vector top_k (vectors rec)), w1)
          else (Raise (Exception "PineconeApiException"
                         "Vector dimension does not match the dimension of the index"), w1)
      end
  end.
Proof.
  unfold pinecone.query. rewrite run_bind, run_call. cbn zeta.
  destruct (api_error _); [done|]. run_io.
  destruct (pc w !! name) as [rec|]; [|done].
  by case_bool_decide.
Qed.

Lemma run_read_rgb (path : string) (w : World) :
  (pil ← image_open path; lift (PIL.convert pil "RGB")) w = (read_rgb (fs w) path, w).
Proof.
  rewrite run_bind, run_image_open. unfold read_rgb.
  destruct (fs w !! path) as [data|]; [|done].
  destruct (PIL.decode data) as [pil|e]; done.
Qed.

(** The [/index] endpoint, step by step. *)
Lemma run_index_image (file : UploadFile) (title artist year category : string)
    (w : World) :
  app.index_image environ file title artist year category w =
  if app.supported_content_type (content_type file) then
    match open_error (fs w) (stored_path file w) with
    | Some e => (HTTPException 500 ("Failed to save file: " ++ exn_str e), after_draw w)
    | None =>
        let w1 := stored_upload (stored_path file w) file w in
        match read_rgb (fs w1) (opened_path file w) with
        | Raise e => (HTTPException 400 ("Invalid image: " ++ exn_str e), w1)
        | Ok pil =>
            match app.index_embed pil with
            | Raise e =>
                (HTTPException 500 ("Error processing/indexing image: " ++ exn_str e), w1)
            | Ok vector =>
                let item_id := posixpath.basename (opened_path file w) in
                let metadata :=
                  item_metadata title artist year category
                    ("/" ++ str.replace "\" "/" (stored_path file w)) in
                match pinecone.upsert (app.PINECONE_INDEX environ) item_id vector
                        metadata w1 with
                | (Raise e, w2) =>
                    (HTTPException 500
                       ("Error processing/indexing image: " ++ exn_str e), w2)
                | (Ok _, w2) => (Success (app.mkIndexResponse "ok" item_id metadata), w2)
                end
            end
        end
    end
  else (HTTPException 400 "Only JPG/PNG images supported.", w).
Proof.
  unfold app.index_image.
  destruct (app.supported_content_type (content_type file)); [cbn [negb]|done].
  rewrite run_save_upload_file. cbn beta iota zeta.
  fold (upload_name file w). fold (stored_path file w).
  destruct (open_error (fs w) (stored_path file w)) as [e|]; [done|].
  cbn beta iota. fold (opened_path file w).
  fold (stored_upload (stored_path file w) file w).
  rewrite run_read_rgb.
  destruct (read_rgb _ _) as [pil|e]; [|done].
  cbn beta iota. rewrite run_bind, run_lift.
  destruct (app.index_embed pil) as [vector|e]; [|done].
  rewrite run_bind. unfold item_metadata.
  destruct (pinecone.upsert _ _ _ _ _) as [[[]|e] w2]; reflexivity.
Qed.

(** The [/search] endpoint, step by step. *)
Lemma run_search_image (file : UploadFile) (top_k : Z) (w : World) :
  app.search_image environ file top_k w =
  if app.supported_content_type (content_type file) then
    let path := posixpath.join app.QUERIES_DIR (upload_name file w) in
    match open_error (fs w) path with
    | Some e => (HTTPException 400 ("Invalid query image: " ++ exn_str e), after_draw w)
    | None =>
        let w1 := stored_upload path file w in
        match read_rgb (fs w1) (str.lstrip "/" ("/" ++ str.replace "\" "/" path)) with
        | Raise e => (HTTPException 400 ("Invalid query image: " ++ exn_str e), w1)
        | Ok pil =>
            match app.search_embed pil with
            | Raise e => (HTTPException 500 ("Search error: " ++ exn_str e), w1)
            | Ok q_vector =>
                match pinecone.query (app.PINECONE_INDEX environ) q_vector top_k w1 with
                | (Raise e, w2) => (HTTPException 500 ("Search error: " ++ exn_str e), w2)
                | (Ok matches, w2) => (Success (hits_of matches), w2)
                end
            end
        end
    end
  else (HTTPException 400 "Only JPG/PNG images supported.", w).
Proof.
  unfold app.search_image.
  destruct (app.supported_content_type (content_type file)); [cbn [negb]|done].
  rewrite run_bind, run_save_upload_file. cbn beta iota zeta.
  fold (upload_name file w).
  destruct (open_error (fs w) _) as [e|]; [done|].
  cbn beta iota.
  fold (stored_upload (posixpath.join app.QUERIES_DIR (upload_name file w)) file w).
  rewrite run_read_rgb.
  destruct (read_rgb _ _) as [pil|e]; [|done].
  cbn beta iota. rewrite run_bind, run_lift.
  destruct (app.search_embed pil) as [q_vector|e]; [|done].
  rewrite run_bind.
  destruct (pinecone.query _ _ _ _) as [[matches|e] w2]; reflexivity.
Qed.

(** A successful [/index] call, step by step. *)
Lemma index_image_success (file : UploadFile) (title artist year category : string)
    (w w' : World) (body : app.IndexResponse) :
  app.index_image environ file title artist year category w = (Success body, w') ->
  exists pil vector rec,
    app.supported_content_type (content_type file) = true /\
    open_error (fs w) (stored_path file w) = None /\
    read_rgb (<[stored_path file w := content file]> (fs w)) (opened_path file w) = Ok pil /\
    app.index_embed pil = Ok vector /\
    pc w !! app.PINECONE_INDEX environ = Some rec /\
    py_len vector = Some (dimension rec) /\
    app.id body = posixpath.basename (opened_path file w) /\
    app.status body = "ok" /\
    fs w' = <[stored_path file w := content file]> (fs w) /\
    uuid_count w' = S (uuid_count w) /\
    calls w' = (calls w ++ [EvUpsert (app.PINECONE_INDEX environ) (app.id body) vector])%list /\
    pc w' = <[app.PINECONE_INDEX environ :=
                mkIndexRec (dimension rec) (metric rec) (region rec)
                  (<[app.id body := (vector, app.metadata body)]> (vectors rec))]> (pc w).
Proof.
  rewrite run_index_image.
  destruct (app.supported_content_type (content_type file)); [|done].
  destruct (open_error (fs w) (stored_path file w)) as [e|] eqn:Hopen; [done|].
  cbn zeta. unfold stored_upload at 1. cbn [fs].
  destruct (read_rgb _ _) as [pil|e] eqn:Hread; [|done].
  destruct (app.index_embed pil) as [vector|e] eqn:Hemb; [|done].
  rewrite run_upsert. cbn beta iota zeta.
  destruct (api_error _); [done|].
  unfold stored_upload. cbn [pc].
  destruct (pc w !! app.PINECONE_INDEX environ) as [rec|] eqn:Hrec; [|done].
  case_bool_decide as Hlen; [|done].
  intros Heq. apply pair_equal_spec in Heq as [Hbody <-].
  apply Success_inj in Hbody as <-.
  cbn [app.id app.status app.metadata fs pc uuid_count calls set_pc].
  exists pil, vector, rec.
  repeat split; first [reflexivity | assumption].
Qed.

(** Whatever its outcome, an [/index] call sends at most one vector, the
    embedding of an image, and leaves the dimension of every index as it
    was. *)
Lemma index_image_calls (file : UploadFile) (title artist year category : string)
    (w : World) :
  let w' := (app.index_image environ file title artist year category w).2 in
  (calls w' = calls w \/
   exists item_id pil v, app.index_embed pil = Ok v /\
     calls w' = (calls w ++ [EvUpsert (app.PINECONE_INDEX environ) item_id v])%list) /\
  (forall name rec, pc w !! name = Some rec ->
     exists rec', pc w' !! name = Some rec' /\ dimension rec' = dimension rec).
Proof.
  destruct (app.index_image environ file title artist year category w)
    as [r w'] eqn:Hrun.
  cbn zeta. cbn [snd]. revert Hrun. rewrite run_index_image.
  destruct (app.supported_content_type (content_type file));
    [|leave_io; split; [by left | by eauto]].
  destruct (open_error (fs w) (stored_path file w)) as [e|];
    [leave_io; split; [by left | by eauto]|].
  cbn zeta.
  destruct (read_rgb _ _) as [pil|e]; [|leave_io; split; [by left | by eauto]].
  destruct (app.index_embed pil) as [vector|e] eqn:Hemb;
    [|leave_io; split; [by left | by eauto]].
  rewrite run_upsert. cbn beta iota zeta.
  destruct (api_error _); [leave_io; split; [right; by eauto | by eauto]|].
  unfold stored_upload. cbn [pc].
  destruct (pc w !! app.PINECONE_INDEX environ) as [rec|] eqn:Hrec.
  - case_bool_decide as Hlen; leave_io.
    + split; [right; by eauto|].
      intros name rec0 Hname.
      destruct (decide (name = app.PINECONE_INDEX environ)) as [->|Hne].
      * rewrite lookup_insert_eq. eexists. split; [done|].
        cbn [dimension]. congruence.
      * rewrite lookup_insert_ne by done. by eauto.
    + split; [right; by eauto | by eauto].
  - leave_io. split; [right; by eauto | by eauto].
Qed.

(** A [/search] call sends at most one vector, the embedding of an image,
    and leaves the database as it was. *)
Lemma search_image_calls (file : UploadFile) (top_k : Z) (w : World) :
  let w' := (app.search_image environ file top_k w).2 in
  (calls w' = calls w \/
   exists pil v, app.search_embed pil = Ok v /\
     calls w' = (calls w ++ [EvQuery (app.PINECONE_INDEX environ) v top_k])%list) /\
  pc w' = pc w.
Proof.
  destruct (app.search_image environ file top_k w) as [r w'] eqn:Hrun.
  cbn zeta. cbn [snd]. revert Hrun. rewrite run_search_image.
  destruct (app.supported_content_type (content_type file));
    [|leave_io; split; [by left | done]].
  cbn zeta.
  destruct (open_error (fs w) _) as [e|]; [leave_io; split; [by left | done]|].
  destruct (read_rgb _ _) as [pil|e]; [|leave_io; split; [by left | done]].
  destruct (app.search_embed pil) as [vector|e] eqn:Hemb;
    [|leave_io; split; [by left | done]].
  rewrite run_query. cbn beta iota zeta.
  destruct (api_error _); [leave_io; split; [right; by eauto | done]|].
  unfold stored_upload. cbn [pc].
  destruct (pc w !! app.PINECONE_INDEX environ) as [rec|] eqn:Hrec.
  - case_bool_decide as Hlen; leave_io; (split; [right; by eauto | done]).
  - leave_io. split; [right; by eauto | done].
Qed.

(** C7: when start-up creates the collection, it has asked the model for
    its output dimension [D] first and creates the collection with that
    dimension; every vector the two endpoints send to the collection
    afterwards, to store or to query, has length [D]; and no call of an
    endpoint changes the dimension or creates a collection.  The model is
    assumed to return [D] features for every input of the shape of its
    dummy input. *)
Theorem collection_dimension_is_embedding_dimension
    (D : nat) (w w0 : World) (dim : nat) :
  fixed_length D ->
  pc w !! app.PINECONE_INDEX environ = None ->
  app.startup environ w = (Ok dim, w0) ->
  dim = D /\
  embedding_service.get_embedding_dim = Ok D /\
  calls w0 = (calls w ++ [EvGetEmbeddingDim; EvListIndexes;
                          EvCreateIndex (app.PINECONE_INDEX environ) D])%list /\
  pc w0 !! app.PINECONE_INDEX environ =
    Some (mkIndexRec D "cosine" (app.PINECONE_REGION environ) ∅) /\
  (forall pil v, app.index_embed pil = Ok v -> py_len v = Some D) /\
  (forall pil v, app.search_embed pil = Ok v -> py_len v = Some D) /\
  (forall w1 rec,
     pc w1 !! app.PINECONE_INDEX environ = Some rec -> dimension rec = D ->
     (forall file title artist year category,
        let w2 := (app.index_image environ file title artist year category w1).2 in
        (exists rec', pc w2 !! app.PINECONE_INDEX environ = Some rec' /\
                      dimension rec' = D) /\
        exists evs, calls w2 = (calls w1 ++ evs)%list /\
                    Forall (sends_dimension D) evs) /\
     (forall file top_k,
        let w2 := (app.search_image environ file top_k w1).2 in
        (exists rec', pc w2 !! app.PINECONE_INDEX environ = Some rec' /\
                      dimension rec' = D) /\
        exists evs, calls w2 = (calls w1 ++ evs)%list /\
                    Forall (sends_dimension D) evs)).
Proof.
  intros Hmodel Hnew Hstart.
  destruct (startup_outcome w w0 dim Hstart)
    as (Hdim & _ & _ & [(_ & Hcalls & Hpc) | (Hsome & _)]);
    [|rewrite Hnew in Hsome; by destruct Hsome].
  assert (dim = D) as -> by (by apply (get_embedding_dim_fixed D Hmodel)).
  assert (Hindex : forall pil v, app.index_embed pil = Ok v -> py_len v = Some D).
  { intros pil v. unfold app.index_embed.
    destruct (pipeline.process_image pil false true) as [processed|e]; [|done].
    apply (generate_embedding_length D processed v Hmodel). }
  assert (Hsearch : forall pil v, app.search_embed pil = Ok v -> py_len v = Some D).
  { intros pil v. apply Hindex. }
  split; [done|]. split; [done|]. split; [done|].
  split; [by rewrite Hpc, lookup_insert_eq|].
  split; [done|]. split; [done|].
  intros w1 rec Hrec HD. split.
  - intros file title artist year category w2.
    destruct (index_image_calls file title artist year category w1)
      as [Hevs Hkeep]. fold w2 in Hevs, Hkeep.
    split.
    + destruct (Hkeep _ _ Hrec) as (rec' & Hrec' & Hsame).
      exists rec'. split; [done | congruence].
    + destruct Hevs as [Hsame | (item_id & pil & v & Hv & Happ)].
      * exists []. split; [by rewrite app_nil_r | constructor].
      * eexists. split; [exact Happ|].
        constructor; [|constructor]. cbn. by apply (Hindex pil).
  - intros file top_k w2.
    destruct (search_image_calls file top_k w1) as [Hevs Hkeep].
    fold w2 in Hevs, Hkeep. split.
    + exists rec. split; [by rewrite Hkeep | done].
    + destruct Hevs as [Hsame | (pil & v & Hv & Happ)].
      * exists []. split; [by rewrite app_nil_r | constructor].
      * eexists. split; [exact Happ|].
        constructor; [|constructor]. cbn. by apply (Hsearch pil).
Qed.

End Startup.

(** ** Identifiers of indexed items *)

Lemma hex_char_is_hex (d : N) : is_hex (uuid.hex_char d) = true.
Proof.
  destruct d as [|p]; [done|].
  do 4 (destruct p as [p|p|]; try done).
Qed.

Lemma hex_digits_spec (k : nat) :
  forall n acc,
    string_forall is_hex acc = true ->
    string_forall is_hex (uuid.hex_digits k n acc) = true /\
    String.length (uuid.hex_digits k n acc) = (k + String.length acc)%nat.
Proof.
  induction k as [|k IH]; intros n acc Hacc; cbn [uuid.hex_digits]; [done|].
  destruct (IH (n / 16)%N (String (uuid.hex_char (n mod 16)%N) acc)) as [Hall Hlen].
  - cbn [string_forall]. by rewrite hex_char_is_hex, Hacc.
  - split; [done|]. rewrite Hlen. cbn [String.length]. lia.
Qed.

Lemma hex_is_hex (n : N) : string_forall is_hex (uuid.hex n) = true.
Proof. by apply hex_digits_spec. Qed.

Lemma hex_length (n : N) : String.length (uuid.hex n) = 32%nat.
Proof. by apply (hex_digits_spec 32 n EmptyString). Qed.

Lemma string_app_cons (c : ascii) (a b : string) :
  String c a ++ b = String c (a ++ b).
Proof. reflexivity. Qed.

Lemma string_app_nil (b : string) : EmptyString ++ b = b.
Proof. reflexivity. Qed.

Lemma string_forall_app (P : ascii -> bool) (a b : string) :
  string_forall P (a ++ b) = string_forall P a && string_forall P b.
Proof.
  induction a as [|c a IH]; [done|].
  rewrite string_app_cons. cbn. by rewrite IH, andb_assoc.
Qed.

Lemma has_slash_app (a b : string) :
  posixpath.has_slash (a ++ b) = posixpath.has_slash a || posixpath.has_slash b.
Proof.
  induction a as [|c a IH]; [done|].
  rewrite string_app_cons. cbn. by destruct (Ascii.eqb c posixpath.slash).
Qed.

Lemma replace_app (old new : ascii) (a b : string) :
  str.replace old new (a ++ b) = str.replace old new a ++ str.replace old new b.
Proof.
  induction a as [|c a IH]; [done|].
  rewrite string_app_cons. cbn. by rewrite IH.
Qed.

Lemma hex_has_no_slash (s : string) :
  string_forall is_hex s = true -> posixpath.has_slash s = false.
Proof.
  induction s as [|c s IH]; cbn; [done|].
  intros [Hc Hs]%andb_prop. rewrite (IH Hs).
  destruct (Ascii.eqb_spec c posixpath.slash) as [->|_]; [done|done].
Qed.

Lemma hex_has_no_backslash (s : string) :
  string_forall is_hex s = true -> str.replace "\" "/" s = s.
Proof.
  induction s as [|c s IH]; cbn; [done|].
  intros [Hc Hs]%andb_prop. rewrite (IH Hs).
  destruct (Ascii.eqb_spec c "\"%char) as [->|_]; [done|done].
Qed.

Lemma basename_has_no_slash (p : string) :
  posixpath.has_slash (posixpath.basename p) = false.
Proof.
  induction p as [|c p IH]; cbn; [done|].
  destruct (Ascii.eqb c posixpath.slash) eqn:Hc; [done|].
  destruct (posixpath.has_slash p) eqn:Hp; [done|].
  cbn. by rewrite Hc, Hp.
Qed.

Lemma basename_without_slash (p : string) :
  posixpath.has_slash p = false -> posixpath.basename p = p.
Proof.
  destruct p as [|c p]; cbn; [done|].
  destruct (Ascii.eqb c posixpath.slash); [done|]. by intros ->.
Qed.

Lemma basename_after_dir (d s : string) :
  posixpath.basename (d ++ "/" ++ s) = posixpath.basename s.
Proof.
  induction d as [|c d IH]; [reflexivity|].
  rewrite string_app_cons. cbn [posixpath.basename].
  rewrite has_slash_app, IH.
  replace (posixpath.has_slash ("/" ++ s)) with true by reflexivity.
  rewrite orb_true_r. by destruct (Ascii.eqb c posixpath.slash).
Qed.

Lemma prefix_app (u rest : string) : str.startswith (u ++ rest) u = true.
Proof.
  induction u as [|c u IH]; [reflexivity|].
  rewrite string_app_cons. cbn. by rewrite Ascii.eqb_refl, IH.
Qed.

Lemma string_length_app (a b : string) :
  String.length (a ++ b) = (String.length a + String.length b)%nat.
Proof.
  induction a as [|x a IH]; [done|]. rewrite string_app_cons. cbn. by rewrite IH.
Qed.

Lemma string_app_assoc (a b c : string) : (a ++ b) ++ c = a ++ (b ++ c).
Proof.
  induction a as [|x a IH]; [done|]. by rewrite !string_app_cons, IH.
Qed.

Lemma string_app_inv_head (a b c : string) : a ++ b = a ++ c -> b = c.
Proof.
  induction a as [|x a IH]; [done|].
  rewrite !string_app_cons. intros [= Heq]. by apply IH.
Qed.

Section ItemIds.
Context `{PIL.Imaging} `{Detector} `{OpenCV} `{Numeric} `{!VisionModel}
        `{Entropy} `{!VectorSearch} `{!PineconeApi} `{FileSystem} `{Runtime}.
Context (environ : gmap string string).

Lemma fresh_draw_spec (w : World) :
  fresh_draw environ w = true ->
  (forall rec rest, pc w !! app.PINECONE_INDEX environ = Some rec ->
                    vectors rec !! (uuid.hex (uuid4 (uuid_count w)) ++ rest) = None) /\
  (forall rest, fs w !! ("images/museum/" ++ uuid.hex (uuid4 (uuid_count w)) ++ rest) = None).
Proof.
  unfold fresh_draw. cbn zeta.
  set (u := uuid.hex (uuid4 (uuid_count w))).
  intros [Hids Hfiles]%andb_prop. split.
  - intros rec rest Hrec. rewrite Hrec in Hids.
    destruct (vectors rec !! (u ++ rest)) as [x|] eqn:Hlook; [|done].
    rewrite forallb_forall in Hids.
    specialize (Hids (u ++ rest)). rewrite prefix_app in Hids.
    assert (Hfalse : negb true = true); [|done].
    apply Hids, list_elem_of_In, elem_of_elements, elem_of_dom. by eauto.
  - intros rest.
    destruct (fs w !! ("images/museum/" ++ u ++ rest)) as [x|] eqn:Hlook; [|done].
    rewrite forallb_forall in Hfiles.
    specialize (Hfiles ("images/museum/" ++ u ++ rest)).
    rewrite <- string_app_assoc, prefix_app in Hfiles.
    assert (Hfalse : negb true = true); [|done].
    apply Hfiles, list_elem_of_In, elem_of_elements, elem_of_dom.
    rewrite string_app_assoc. by eauto.
Qed.

Lemma upload_name_no_slash (file : UploadFile) (w : World) :
  posixpath.has_slash (upload_name file w) = false.
Proof.
  unfold upload_name. rewrite !has_slash_app.
  rewrite (hex_has_no_slash _ (hex_is_hex _)), basename_has_no_slash. done.
Qed.

Lemma stored_path_eq (file : UploadFile) (w : World) :
  stored_path file w = "images/museum/" ++ upload_name file w.
Proof.
  unfold stored_path, posixpath.join.
  pose proof (upload_name_no_slash file w) as Hname.
  destruct (upload_name file w) as [|c rest] eqn:Hn.
  - unfold upload_name in Hn. apply (f_equal String.length) in Hn.
    rewrite string_length_app, hex_length in Hn. done.
  - cbn in Hname. destruct (Ascii.eqb c posixpath.slash); [done|]. reflexivity.
Qed.

Lemma opened_path_eq (file : UploadFile) (w : World) :
  opened_path file w =
  "images/museum/" ++ uuid.hex (uuid4 (uuid_count w)) ++ "_"
    ++ str.replace "\" "/" (posixpath.basename (filename file)).
Proof.
  unfold opened_path. rewrite stored_path_eq. unfold upload_name.
  transitivity ("images/museum/" ++
                str.replace "\" "/" (uuid.hex (uuid4 (uuid_count w)) ++ "_"
                                     ++ posixpath.basename (filename file)));
    [reflexivity|].
  rewrite replace_app, (hex_has_no_backslash _ (hex_is_hex _)). reflexivity.
Qed.

(** One successful [/index] call that draws a fresh UUID: the id is the
    UUID's hex form, an underscore and the base name of the upload; the
    id was not in the collection; the collection gains exactly that item. *)
Lemma index_image_fresh_id (file : UploadFile) (title artist year category : string)
    (w w' : World) (body : app.IndexResponse) :
  fresh_draw environ w = true ->
  app.index_image environ file title artist year category w = (Success body, w') ->
  app.id body = uuid.hex (uuid4 (uuid_count w)) ++ "_"
                  ++ posixpath.basename (filename file) /\
  uuid_count w' = S (uuid_count w) /\
  exists rec vector,
    pc w !! app.PINECONE_INDEX environ = Some rec /\
    vectors rec !! app.id body = None /\
    pc w' !! app.PINECONE_INDEX environ =
      Some (mkIndexRec (dimension rec) (metric rec) (region rec)
              (<[app.id body := (vector, app.metadata body)]> (vectors rec))).
Proof.
  intros [Hids Hfiles]%fresh_draw_spec Hrun.
  destruct (index_image_success environ _ _ _ _ _ _ _ _ Hrun)
    as (pil & vector & rec & _ & _ & Hread & _ & Hrec & _ & Hid & _ & _ & Hcount & _ & Hpc).
  assert (Hfile : exists data,
             <[stored_path file w := content file]> (fs w) !! opened_path file w
             = Some data).
  { unfold read_rgb in Hread. destruct (_ !! opened_path file w) as [data|]; [|done].
    by exists data. }
  destruct Hfile as [data Hfile].
  set (name := posixpath.basename (filename file)) in *.
  assert (Hsame : str.replace "\" "/" name = name).
  { destruct (decide (str.replace "\" "/" name = name)) as [|Hne]; [done|].
    exfalso. rewrite lookup_insert_ne in Hfile.
    - rewrite opened_path_eq in Hfile. fold name in Hfile.
      by rewrite Hfiles in Hfile.
    - rewrite stored_path_eq, opened_path_eq. unfold upload_name. fold name.
      intros Heq. apply (string_app_inv_head "images/museum/") in Heq.
      apply (string_app_inv_head (uuid.hex (uuid4 (uuid_count w)))) in Heq.
      apply (string_app_inv_head "_") in Heq. by symmetry in Heq. }
  assert (Hid' : app.id body = uuid.hex (uuid4 (uuid_count w)) ++ "_" ++ name).
  { rewrite Hid, opened_path_eq. fold name. rewrite Hsame.
    change ("images/museum/" ++ ?x) with ("images/museum" ++ "/" ++ x).
    rewrite (basename_after_dir "images/museum").
    apply (basename_without_slash (upload_name file w)), upload_name_no_slash. }
  split; [exact Hid'|]. split; [exact Hcount|].
  exists rec, vector. split; [exact Hrec|]. split.
  - rewrite Hid'. by apply Hids.
  - rewrite Hpc. apply lookup_insert_eq.
Qed.

(** C10: every successful [/index] call names its item
    [<uuid hex>_<base name of the upload>], from a UUID it draws itself (the
    endpoint takes no id).  With fresh draws, two successful calls with the
    same file and the same metadata give two different ids, neither of
    which was in the collection when it was upserted (nothing is ever
    replaced), and the collection ends with two more items. *)
Theorem index_ids_are_fresh_uuid_names
    (file : UploadFile) (title artist year category : string)
    (w w1 w2 : World) (b1 b2 : app.IndexResponse) :
  fresh_draw environ w = true ->
  app.index_image environ file title artist year category w = (Success b1, w1) ->
  fresh_draw environ w1 = true ->
  app.index_image environ file title artist year category w1 = (Success b2, w2) ->
  app.id b1 = uuid.hex (uuid4 (uuid_count w)) ++ "_"
                ++ posixpath.basename (filename file) /\
  app.id b2 = uuid.hex (uuid4 (S (uuid_count w))) ++ "_"
                ++ posixpath.basename (filename file) /\
  app.id b1 <> app.id b2 /\
  exists rec rec1 rec2 v1 v2,
    pc w !! app.PINECONE_INDEX environ = Some rec /\
    pc w1 !! app.PINECONE_INDEX environ = Some rec1 /\
    pc w2 !! app.PINECONE_INDEX environ = Some rec2 /\
    vectors rec !! app.id b1 = None /\
    vectors rec1 = <[app.id b1 := (v1, app.metadata b1)]> (vectors rec) /\
    vectors rec1 !! app.id b2 = None /\
    vectors rec2 = <[app.id b2 := (v2, app.metadata b2)]> (vectors rec1) /\
    size (vectors rec2) = S (S (size (vectors rec))).
Proof.
  intros Hfresh Hrun1 Hfresh1 Hrun2.
  destruct (index_image_fresh_id _ _ _ _ _ _ _ _ Hfresh Hrun1)
    as (Hid1 & Hcount & rec & v1 & Hrec & Hnew1 & Hrec1).
  destruct (index_image_fresh_id _ _ _ _ _ _ _ _ Hfresh1 Hrun2)
    as (Hid2 & _ & rec1 & v2 & Hrec1' & Hnew2 & Hrec2).
  rewrite Hrec1 in Hrec1'. apply (inj Some) in Hrec1'. subst rec1.
  cbn [vectors dimension metric region] in *.
  rewrite Hcount in Hid2.
  split; [exact Hid1|]. split; [exact Hid2|]. split.
  - intros Heq. rewrite <- Heq, lookup_insert_eq in Hnew2. done.
  - eexists rec, _, _, v1, v2.
    split; [exact Hrec|]. split; [exact Hrec1|]. split; [exact Hrec2|].
    cbn [vectors]. split; [exact Hnew1|]. split; [reflexivity|].
    split; [exact Hnew2|]. split; [reflexivity|].
    rewrite !map_size_insert_None by assumption. done.
Qed.

End ItemIds.

(** ** More on the cropper *)

Lemma crop_outcome (im out : PIL.Image) (x0 y0 x1 y1 : Z) :
  PIL.crop im (x0, y0, x1, y1) = Ok out ->
  x0 <= x1 /\ y0 <= y1 /\
  PIL.size out = (x1 - x0, y1 - y0) /\
  PIL.mode out = PIL.mode im.
Proof.
  unfold PIL.crop.
  destruct (Z.ltb_spec x1 x0); [done|].
  destruct (Z.ltb_spec y1 y0); [done|].
  intros [= <-]. cbn. done.
Qed.

(** A product of differences that compares greater than something has no
    NaN factor. *)
Lemma positive_area_has_no_nan (x1 y1 x2 y2 z : float) :
  PyFloat.gt (PyFloat.mul (PyFloat.sub x2 x1) (PyFloat.sub y2 y1)) z = true ->
  x1 <> S754_nan /\ y1 <> S754_nan /\ x2 <> S754_nan /\ y2 <> S754_nan.
Proof.
  intros Hgt.
  repeat split; intros ->; revert Hgt;
    unfold PyFloat.gt, PyFloat.mul, PyFloat.sub, SFltb, SFcompare.
  - destruct x2; cbn; by destruct z.
  - destruct y2; cbn;
      destruct (SFsub PyFloat.prec PyFloat.emax x2 x1); cbn; by destruct z.
  - cbn; by destruct z.
  - cbn. destruct (SFsub PyFloat.prec PyFloat.emax x2 x1); cbn; by destruct z.
Qed.

Section CropperEdges.
Context `{PIL.Imaging} `{Detector}.

(** X1 (pipeline.py, lines 56-84): when the detector reports boxes but none
    of them has an area greater than zero, [best_box] stays [None] and
    [detect_and_crop] returns the centre crop. *)
Theorem detect_and_crop_without_positive_area
    (pil_img : PIL.Image) (conf_threshold : float) (boxes : list Box) :
  pipeline.run_detector pil_img conf_threshold = Ok boxes ->
  Forall (fun b => PyFloat.gt (pipeline.area b) PyFloat.zero = false) boxes ->
  pipeline.detect_and_crop pil_img conf_threshold = pipeline._center_crop pil_img.
Proof.
  intros Hrun Hflat.
  rewrite (detect_and_crop_unfold _ _ _ Hrun).
  destruct (largest_box_outcome boxes None PyFloat.zero)
    as [[Hout _] | (i & b & Hi & _ & Hb & _)].
  - rewrite Hout. cbn. by destruct (length boxes =? 0)%nat.
  - apply list_elem_of_lookup_2 in Hi.
    rewrite Forall_forall in Hflat. by rewrite (Hflat b Hi) in Hb.
Qed.

Lemma detect_and_crop_mode
    (pil_img out : PIL.Image) (conf_threshold : float) :
  pipeline.detect_and_crop pil_img conf_threshold = Ok out ->
  PIL.mode out = PIL.mode pil_img.
Proof.
  assert (Hcrop : forall box, PIL.crop pil_img box = Ok out ->
                              PIL.mode out = PIL.mode pil_img).
  { intros [[[x0 y0] x1] y1] Hbox. by apply crop_outcome in Hbox as (_ & _ & _ & ?). }
  assert (Hcenter : pipeline._center_crop pil_img = Ok out ->
                    PIL.mode out = PIL.mode pil_img).
  { unfold pipeline._center_crop. destruct (PIL.size pil_img) as [w h]. apply Hcrop. }
  unfold pipeline.detect_and_crop.
  destruct (pipeline.run_detector pil_img conf_threshold) as [boxes|e]; [|done].
  cbn -[pipeline.largest_box pipeline.padded_box pipeline._center_crop].
  destruct (length boxes =? 0)%nat; [exact Hcenter|].
  destruct (pipeline.largest_box boxes None PyFloat.zero).1 as [best|];
    [|exact Hcenter].
  destruct (pipeline.padded_box (PIL.size pil_img) best) as [box|e]; [|done].
  cbn -[PIL.crop]. apply Hcrop.
Qed.

(** X2 (pipeline.py, lines 29-100): whatever the detector reports, an image
    returned by [detect_and_crop] has the mode of the input and is no wider
    and no higher than it. *)
Theorem detect_and_crop_never_enlarges
    (pil_img out : PIL.Image) (conf_threshold : float) :
  pipeline.detect_and_crop pil_img conf_threshold = Ok out ->
  PIL.mode out = PIL.mode pil_img /\
  0 <= PIL.width out <= PIL.width pil_img /\
  0 <= PIL.height out <= PIL.height pil_img.
Proof.
  assert (Hcenter : pipeline._center_crop pil_img = Ok out ->
            PIL.mode out = PIL.mode pil_img /\
            0 <= PIL.width out <= PIL.width pil_img /\
            0 <= PIL.height out <= PIL.height pil_img).
  { unfold pipeline._center_crop, PIL.width, PIL.height.
    destruct (PIL.size pil_img) as [w h]. cbn [fst snd].
    intros (Hx & Hy & -> & ->)%crop_outcome. cbn [fst snd]. split; [done | lia]. }
  unfold pipeline.detect_and_crop.
  destruct (pipeline.run_detector pil_img conf_threshold) as [boxes|e]; [|done].
  cbn -[pipeline.largest_box pipeline.padded_box pipeline._center_crop].
  destruct (length boxes =? 0)%nat; [exact Hcenter|].
  destruct (pipeline.largest_box boxes None PyFloat.zero).1 as [best|];
    [|exact Hcenter].
  unfold PIL.width, PIL.height. destruct (PIL.size pil_img) as [w h] eqn:Hsize.
  destruct (pipeline.padded_box (w, h) best) as [[[[x1 y1] x2] y2]|e] eqn:Hpad;
    [|done].
  cbn -[PIL.crop]. intros (Hx & Hy & -> & ->)%crop_outcome.
  apply padded_box_bounds in Hpad. cbn [fst snd]. split; [done | lia].
Qed.

End CropperEdges.

(** X3 (pipeline.py, lines 61-69): a box the loop selects has an area
    greater than zero and no NaN among its corners; boxes with a NaN
    corner are passed over. *)
Theorem selected_box_has_no_nan
    (boxes : list Box) (x1 y1 x2 y2 best_area : float) :
  pipeline.largest_box boxes None PyFloat.zero = (Some (x1, y1, x2, y2), best_area) ->
  (exists b, b ∈ boxes /\ xyxy b = (x1, y1, x2, y2) /\ best_area = pipeline.area b) /\
  PyFloat.gt best_area PyFloat.zero = true /\
  x1 <> S754_nan /\ y1 <> S754_nan /\ x2 <> S754_nan /\ y2 <> S754_nan.
Proof.
  intros Hsel.
  destruct (largest_box_outcome boxes None PyFloat.zero)
    as [[Hout _] | (i & b & Hi & Hout & Hb & _)];
    rewrite Hsel in Hout; [done|].
  injection Hout as Hbox ->.
  split; [|split; [exact Hb|]].
  - exists b. split; [by apply list_elem_of_lookup_2 in Hi | done].
  - unfold pipeline.area in Hb. rewrite <- Hbox in Hb.
    by apply (positive_area_has_no_nan x1 y1 x2 y2 PyFloat.zero).
Qed.

(** ** The padding *)

Lemma literal_5_100 :
  PyFloat.literal 5 100 = S754_finite false 7205759403792794 (-57).
Proof. vm_compute. reflexivity. Qed.

(** Rounding keeps the sign it is given. *)
Lemma binary_round_aux_sign (sx : bool) (mx ex : Z) (lx : location) :
  match binary_round_aux PyFloat.prec PyFloat.emax sx mx ex lx with
  | S754_finite s _ _ => s = sx
  | _ => True
  end.
Proof.
  unfold binary_round_aux.
  destruct (shr_fexp _ _ mx ex lx) as [mrs' e'].
  destruct (shr_fexp _ _ _ e' loc_Exact) as [mrs'' e''].
  destruct (shr_m mrs''); [done| |done].
  by destruct (_ <=? _).
Qed.

(** [int(n * 0.05)] is not negative when [n] is not. *)
Lemma pad_nonneg (n p : Z) :
  0 <= n ->
  (PyFloat.int_times n (PyFloat.literal 5 100) ≫= PyFloat.to_int) = Ok p ->
  0 <= p.
Proof.
  intros Hn. rewrite literal_5_100. unfold PyFloat.int_times, PyFloat.of_int.
  destruct n as [|q|q]; [by intros [= <-]| |lia].
  unfold binary_normalize, binary_round.
  destruct (shl_align _ _ _) as [mz ez].
  pose proof (binary_round_aux_sign false (Z.pos mz) ez loc_Exact) as Hsign.
  destruct (binary_round_aux _ _ false (Z.pos mz) ez loc_Exact) as [s|s| |s m e];
    cbn [PyFloat.is_inf]; try done.
  - intros [= <-]. cbn. by destruct (xorb s false).
  - subst s. cbn [mbind result_bind PyFloat.mul SFmul xorb].
    pose proof (binary_round_aux_sign false
                  (Z.pos (m * 7205759403792794)) (e + -57) loc_Exact) as Hsign.
    destruct (binary_round_aux _ _ false _ _ loc_Exact) as [s|s| |s m' e'];
      cbn; try done.
    + by intros [= <-].
    + subst s. intros [= <-]. cbn. apply Z.shiftl_nonneg. lia.
Qed.

(** [pad_is_twentieth n] checks, by running the float arithmetic, that
    [int(n * 0.05)] is [n] divided by 20, rounded toward zero. *)
Lemma pads_checked :
  forallb pad_is_twentieth (seqZ (-4096) 8193) = true.
Proof. vm_cast_no_check (@eq_refl bool true). Qed.

(** X4 (pipeline.py, lines 75-76): for widths and heights up to 4096 pixels
    in absolute value the padding [int(d * 0.05)], computed in binary64, is
    exactly [d] divided by 20 and rounded toward zero, and the conversions
    never raise. *)
Theorem padding_is_a_twentieth (d : Z) :
  -4096 <= d <= 4096 ->
  (PyFloat.int_times d (PyFloat.literal 5 100) ≫= PyFloat.to_int) = Ok (d `quot` 20).
Proof.
  intros Hd. pose proof pads_checked as Hall.
  rewrite forallb_forall in Hall. specialize (Hall d).
  unfold pad_is_twentieth in Hall.
  destruct (PyFloat.int_times d (PyFloat.literal 5 100) ≫= PyFloat.to_int) as [p|e].
  - f_equal. apply Z.eqb_eq, Hall, list_elem_of_In, elem_of_seqZ. lia.
  - assert (false = true); [|done].
    apply Hall, list_elem_of_In, elem_of_seqZ. lia.
Qed.

(** X5 (pipeline.py, lines 72-80): the padded rectangle never cuts into the
    winning box: along an axis on which the integer corners are in order,
    the rectangle starts no later than the box (clamped at 0) and ends no
    earlier than the box (clamped at the image's side). *)
Theorem padding_never_shrinks_the_box
    (w h : Z) (best_box : float * float * float * float) (a b c d : Z) :
  pipeline.padded_box (w, h) best_box = Ok (a, b, c, d) ->
  exists x1 y1 x2 y2,
    PyFloat.to_int best_box.1.1.1 = Ok x1 /\
    PyFloat.to_int best_box.1.1.2 = Ok y1 /\
    PyFloat.to_int best_box.1.2 = Ok x2 /\
    PyFloat.to_int best_box.2 = Ok y2 /\
    (x1 <= x2 -> a <= Z.max 0 x1 /\ Z.min w x2 <= c) /\
    (y1 <= y2 -> b <= Z.max 0 y1 /\ Z.min h y2 <= d).
Proof.
  destruct best_box as [[[fx1 fy1] fx2] fy2]. unfold pipeline.padded_box.
  cbn [fst snd].
  destruct (PyFloat.to_int fx1) as [x1|]; [cbn|done].
  destruct (PyFloat.to_int fy1) as [y1|]; [cbn|done].
  destruct (PyFloat.to_int fx2) as [x2|]; [cbn|done].
  destruct (PyFloat.to_int fy2) as [y2|]; [cbn|done].
  destruct (PyFloat.int_times (x2 - x1) _ ≫= PyFloat.to_int) as [pad_x|] eqn:Hx;
    [cbn|done].
  destruct (PyFloat.int_times (y2 - y1) _ ≫= PyFloat.to_int) as [pad_y|] eqn:Hy;
    [cbn|done].
  intros [= <- <- <- <-]. exists x1, y1, x2, y2.
  split; [done|]. split; [done|]. split; [done|]. split; [done|].
  split; intros Hord.
  - assert (0 <= pad_x) by (apply (pad_nonneg (x2 - x1)); [lia | exact Hx]). lia.
  - assert (0 <= pad_y) by (apply (pad_nonneg (y2 - y1)); [lia | exact Hy]). lia.
Qed.

(** ** More on the preprocessing pipeline *)

Section PreprocessingEdges.
Context `{PIL.Imaging} `{Detector} `{OpenCV}.

Lemma normalize_color_mode (pil_img out : PIL.Image) :
  pipeline.normalize_color pil_img = Ok out -> PIL.mode out = "RGB".
Proof.
  unfold pipeline.normalize_color, pipeline.of_lab.
  destruct (pipeline.to_lab pil_img) as [lab|]; [|done].
  cbn -[pipeline.equalize_l cv2.cvtColor].
  destruct (pipeline.equalize_l lab) as [lab'|]; [|done].
  cbn -[cv2.cvtColor].
  destruct (cv2.cvtColor lab' cv2.COLOR_LAB2BGR) as [img_eq|]; [|done].
  cbn -[cv2.cvtColor].
  destruct (cv2.cvtColor img_eq cv2.COLOR_BGR2RGB) as [img_rgb|]; [|done].
  by intros [= <-].
Qed.

Lemma normalize_color_total (pil_img : PIL.Image) (w h : Z) :
  PIL.size pil_img = (w, h) -> 0 < w -> 0 < h ->
  exists out, pipeline.normalize_color pil_img = Ok out /\
              PIL.size out = (w, h) /\ PIL.mode out = "RGB".
Proof.
  intros Hsize Hw Hh.
  pose proof (asarray_shape pil_img) as Harr.
  unfold PIL.width, PIL.height in Harr. rewrite Hsize in Harr. cbn in Harr.
  destruct (Z.to_nat h) as [|h'] eqn:Eh; [lia|].
  destruct (Z.to_nat w) as [|w'] eqn:Ew; [lia|].
  assert (Hne : forall (m : list (list pixel)),
             map length m = replicate (S h') (S w') -> cv2.is_empty m = false).
  { intros m Hm. by destruct m as [|[|x r] m]. }
  set (bgr := map (map (cv2.cvt_pixel cv2.COLOR_RGB2BGR)) (PIL.asarray pil_img)).
  set (lab := map (map (cv2.cvt_pixel cv2.COLOR_BGR2LAB)) bgr).
  assert (Hbgr : map length bgr = replicate (S h') (S w')).
  { unfold bgr. by rewrite map_map_shape. }
  assert (Hlab : map length lab = replicate (S h') (S w')).
  { unfold lab. by rewrite map_map_shape. }
  assert (Hto : pipeline.to_lab pil_img = Ok lab).
  { unfold pipeline.to_lab.
    rewrite (cvtColor_nonempty _ _ (Hne _ Harr)). cbn.
    by rewrite (cvtColor_nonempty _ _ (Hne _ Hbgr)). }
  destruct (split_shapes lab) as (Hl & Ha & Hb).
  destruct (merge_then_split (cv2.equalizeHist (cv2.split lab).1.1)
              (cv2.split lab).1.2 (cv2.split lab).2)
    as (lab' & Hmerge & _ & Hlab').
  { by rewrite equalizeHist_shape, Hl, Ha. }
  { by rewrite equalizeHist_shape, Hl, Hb. }
  rewrite equalizeHist_shape, Hl, Hlab in Hlab'.
  set (bgr' := map (map (cv2.cvt_pixel cv2.COLOR_LAB2BGR)) lab').
  set (rgb' := map (map (cv2.cvt_pixel cv2.COLOR_BGR2RGB)) bgr').
  assert (Hbgr' : map length bgr' = replicate (S h') (S w')).
  { unfold bgr'. by rewrite map_map_shape. }
  assert (Hrgb' : map length rgb' = replicate (S h') (S w')).
  { unfold rgb'. by rewrite map_map_shape. }
  assert (Hof : pipeline.of_lab lab' = Ok (PIL.fromarray rgb')).
  { unfold pipeline.of_lab.
    rewrite (cvtColor_nonempty _ _ (Hne _ Hlab')). cbn.
    by rewrite (cvtColor_nonempty _ _ (Hne _ Hbgr')). }
  assert (Heq : pipeline.equalize_l lab = Ok lab') by exact Hmerge.
  exists (PIL.fromarray rgb'). split.
  { unfold pipeline.normalize_color. rewrite Hto.
    cbn -[pipeline.equalize_l pipeline.of_lab]. rewrite Heq.
    cbn -[pipeline.of_lab]. done. }
  split; [|done].
  rewrite (fromarray_size _ _ _ Hrgb'). f_equal; lia.
Qed.

Lemma convert_rgb (im rgb : PIL.Image) :
  PIL.convert im "RGB" = Ok rgb ->
  PIL.mode rgb = "RGB" /\ PIL.size rgb = PIL.size im.
Proof.
  unfold PIL.convert. destruct (decide _) as [Hmode|_].
  - by intros [= <-].
  - destruct (PIL.convert_bands _ _) as [bands|e]; [|done]. by intros [= <-].
Qed.

(** The first step of [process_image] is [convert("RGB")], which copies
    an image that is in RGB already. *)
Lemma ensure_rgb (im : PIL.Image) :
  (if bool_decide (PIL.mode im <> "RGB") then PIL.convert im "RGB" else Ok im)
  = PIL.convert im "RGB".
Proof.
  unfold PIL.convert. case_bool_decide as Hm; [done|].
  destruct (decide _) as [_|Hne]; [done|]. by destruct Hm.
Qed.

(** X6 (pipeline.py, lines 147-179): whatever the input mode and the
    flags, an image [process_image] returns is in mode RGB. *)
Theorem process_image_returns_rgb
    (pil_img out : PIL.Image) (apply_detection apply_color_norm : bool) :
  pipeline.process_image pil_img apply_detection apply_color_norm = Ok out ->
  PIL.mode out = "RGB".
Proof.
  unfold pipeline.process_image. rewrite ensure_rgb.
  destruct (PIL.convert pil_img "RGB") as [rgb|e] eqn:Hconv; [|done].
  apply convert_rgb in Hconv as [Hrgb _].
  cbn -[pipeline.normalize_color pipeline.detect_and_crop].
  destruct apply_detection.
  - destruct (pipeline.detect_and_crop rgb _) as [cropped|] eqn:Hcrop; [|done].
    apply detect_and_crop_mode in Hcrop as Hmode.
    cbn -[pipeline.normalize_color]. destruct apply_color_norm.
    + destruct (pipeline.normalize_color cropped) as [n|] eqn:Hn; [|done].
      intros [= <-]. by apply (normalize_color_mode cropped).
    + intros [= <-]. congruence.
  - cbn -[pipeline.normalize_color]. destruct apply_color_norm.
    + destruct (pipeline.normalize_color rgb) as [n|] eqn:Hn; [|done].
      intros [= <-]. by apply (normalize_color_mode rgb).
    + by intros [= <-].
Qed.

(** X7 (pipeline.py, lines 147-179): without detection, preprocessing an
    image of positive size succeeds exactly when Pillow can convert its
    mode to RGB.  When it can, the result is an RGB image of the same size,
    with or without colour normalisation; when it cannot, the exception of
    [convert] is the exception of [process_image]. *)
Theorem process_image_without_detection_keeps_size
    (pil_img : PIL.Image) (apply_color_norm : bool) (w h : Z) :
  PIL.size pil_img = (w, h) -> 0 < w -> 0 < h ->
  (forall rgb, PIL.convert pil_img "RGB" = Ok rgb ->
     exists out,
       pipeline.process_image pil_img false apply_color_norm = Ok out /\
       PIL.size out = (w, h) /\ PIL.mode out = "RGB") /\
  (forall e, PIL.convert pil_img "RGB" = Raise e ->
     pipeline.process_image pil_img false apply_color_norm = Raise e).
Proof.
  intros Hsize Hw Hh. unfold pipeline.process_image. rewrite ensure_rgb. split.
  - intros rgb Hconv. rewrite Hconv.
    apply convert_rgb in Hconv as [Hmode Hs]. rewrite Hsize in Hs.
    cbn -[pipeline.normalize_color]. destruct apply_color_norm.
    + destruct (normalize_color_total rgb w h Hs Hw Hh) as (out & Hn & Hso & Hmo).
      exists out. by rewrite Hn.
    + by exists rgb.
  - intros e Hconv. by rewrite Hconv.
Qed.

End PreprocessingEdges.

(** ** More on the embedding service *)

Section EmbeddingEdges.
Context `{PIL.Imaging} `{Numeric} `{!VisionModel}.

(** X8 (pipeline.py, lines 134-145; embedding_service.py, lines
    41-64): resizing to the model's input size with [resize_for_model]
    before the service (the step [process_image] leaves commented out)
    changes nothing: the service resizes once, to the same image, and does
    not resize again. *)
Theorem resize_for_model_is_redundant (pil_img : PIL.Image) :
  PIL.size (pipeline.resize_for_model pil_img input_size) = (input_size, input_size) /\
  embedding_service.preprocess_image (pipeline.resize_for_model pil_img input_size) =
  embedding_service.preprocess_image pil_img.
Proof.
  assert (Hsize : forall im,
             PIL.size (PIL.resize im (input_size, input_size)) = (input_size, input_size)).
  { intros im. unfold PIL.resize. by destruct (decide _). }
  assert (Hif : forall im,
             (if bool_decide (PIL.size im <> (input_size, input_size))
              then PIL.resize im (input_size, input_size) else im) =
             PIL.resize im (input_size, input_size)).
  { intros im. unfold PIL.resize. case_bool_decide as Hm; [done|].
    by destruct (decide _). }
  assert (Hidem : PIL.resize (PIL.resize pil_img (input_size, input_size))
                    (input_size, input_size) =
                  PIL.resize pil_img (input_size, input_size)).
  { unfold PIL.resize at 1. by rewrite Hsize, decide_True. }
  unfold pipeline.resize_for_model. split; [apply Hsize|].
  unfold embedding_service.preprocess_image. cbn zeta.
  by rewrite !Hif, Hidem.
Qed.

(** X9 (embedding_service.py, lines 66-124): for a model that
    answers the image's tensor with a [1 x D] array, [D] other than 1,
    [generate_embedding] returns the list of the [D] features, each divided
    by the norm of the feature vector when that norm is positive, and the
    features themselves otherwise. *)
Theorem generate_embedding_of_feature_vector
    (pil_img : PIL.Image) (y : Tensor) (D : nat) :
  forward (embedding_service.preprocess_image pil_img) = Ok y ->
  shape y = [1%nat; D] ->
  D <> 1%nat ->
  embedding_service.generate_embedding pil_img =
  Ok (PyList (map (fun i =>
                     let norm := linalg_norm (map (item y) (seq 0 D)) in
                     PyFloat (if f32_gt0 norm then f32_div (item y i) norm
                              else item y i))
                  (seq 0 D))).
Proof.
  intros Hfwd Hshape HD.
  unfold embedding_service.generate_embedding, embedding_service.extract_features.
  rewrite Hfwd. cbn -[mean_last2 tolist embedding_service.normalize_vector squeeze].
  unfold ndim. rewrite Hshape. cbn [length Nat.ltb Nat.leb].
  unfold embedding_service.normalize_vector, ravel, squeeze. cbn [shape item].
  rewrite Hshape, !filter_cons, filter_nil.
  destruct (decide (1%nat <> 1%nat)) as [?|_]; [done|].
  destruct (decide (D <> 1%nat)) as [_|?]; [|done].
  cbn [numel fold_right]. rewrite Nat.mul_1_r.
  destruct (f32_gt0 _); unfold tolist; cbn [shape item tolist_from numel fold_right];
    do 2 f_equal; apply map_ext; intros i; cbn [Nat.add]; by rewrite Nat.mul_1_r.
Qed.

(** X10 (embedding_service.py, lines 66-124): for a model that answers
    with a [1 x D x h x w] feature map, [D] other than 1, each of the [D]
    features is the mean of its [h x w] block of the map, and the list
    returned holds these means, normalised as for a feature vector. *)
Theorem generate_embedding_of_feature_map
    (pil_img : PIL.Image) (y : Tensor) (D h w : nat) :
  forward (embedding_service.preprocess_image pil_img) = Ok y ->
  shape y = [1%nat; D; h; w] ->
  D <> 1%nat ->
  embedding_service.generate_embedding pil_img =
  Ok (PyList (map (fun i =>
                     let pooled := fun k =>
                       f32_mean (map (item y) (seq (k * (h * w)) (h * w))) in
                     let norm := linalg_norm (map pooled (seq 0 D)) in
                     PyFloat (if f32_gt0 norm then f32_div (pooled i) norm
                              else pooled i))
                  (seq 0 D))).
Proof.
  intros Hfwd Hshape HD.
  unfold embedding_service.generate_embedding, embedding_service.extract_features.
  rewrite Hfwd. cbn -[mean_last2 tolist embedding_service.normalize_vector squeeze].
  unfold ndim. rewrite Hshape. cbn [length Nat.ltb Nat.leb].
  unfold embedding_service.normalize_vector, ravel, squeeze, mean_last2, ndim.
  cbn [shape item]. rewrite Hshape.
  cbn [length Nat.sub take drop numel fold_right].
  rewrite !filter_cons, filter_nil.
  destruct (decide (1%nat <> 1%nat)) as [?|_]; [done|].
  destruct (decide (D <> 1%nat)) as [_|?]; [|done].
  cbn [numel fold_right]. rewrite (Nat.mul_1_r D), !(Nat.mul_1_r w).
  destruct (f32_gt0 _); unfold tolist; cbn [shape item tolist_from numel fold_right];
    do 2 f_equal; apply map_ext; intros i; cbn [Nat.add]; by rewrite Nat.mul_1_r.
Qed.

(** X11 (embedding_service.py, lines 86 and 124): [squeeze()] drops
    every axis of length one, the feature axis included.  For a model with
    a single output feature the "vector" is a 0-d array and [tolist()]
    returns a bare float, which has no length. *)
Theorem generate_embedding_of_single_feature
    (pil_img : PIL.Image) (y : Tensor) :
  forward (embedding_service.preprocess_image pil_img) = Ok y ->
  shape y = [1%nat; 1%nat] ->
  exists x, embedding_service.generate_embedding pil_img = Ok (PyFloat x) /\
            py_len (PyFloat x) = None.
Proof.
  intros Hfwd Hshape.
  unfold embedding_service.generate_embedding, embedding_service.extract_features.
  rewrite Hfwd. cbn -[mean_last2 tolist embedding_service.normalize_vector squeeze].
  unfold ndim. rewrite Hshape. cbn [length Nat.ltb Nat.leb].
  unfold embedding_service.normalize_vector, ravel, squeeze. cbn [shape item].
  rewrite Hshape, !filter_cons, filter_nil.
  destruct (decide (1%nat <> 1%nat)) as [?|_]; [done|].
  destruct (f32_gt0 _); unfold tolist; cbn [shape item tolist_from]; by eexists.
Qed.

End EmbeddingEdges.

(** ** More on the endpoints *)

Section Endpoints.
Context `{PIL.Imaging} `{Detector} `{OpenCV} `{Numeric} `{!VisionModel}
        `{Entropy} `{!VectorSearch} `{!PineconeApi} `{FileSystem} `{Runtime}.
Context (environ : gmap string string).

Lemma plain_name_spec (file : UploadFile) :
  plain_name file = true ->
  str.replace "\" "/" (posixpath.basename (filename file)) =
  posixpath.basename (filename file).
Proof. unfold plain_name. by intros ?%String.eqb_eq. Qed.

Lemma museum_file_stored (file : UploadFile) (w : World) :
  stored_path file w = museum_file file w.
Proof. apply stored_path_eq. Qed.

Lemma museum_file_opened (file : UploadFile) (w : World) :
  plain_name file = true -> opened_path file w = museum_file file w.
Proof.
  intros Hplain. rewrite opened_path_eq, (plain_name_spec file Hplain). done.
Qed.

Lemma museum_file_basename (file : UploadFile) (w : World) :
  posixpath.basename (museum_file file w) = upload_name file w.
Proof.
  unfold museum_file.
  change ("images/museum/" ++ ?x) with ("images/museum" ++ "/" ++ x).
  rewrite (basename_after_dir "images/museum").
  apply basename_without_slash, upload_name_no_slash.
Qed.

Lemma museum_file_url (file : UploadFile) (w : World) :
  plain_name file = true ->
  "/" ++ str.replace "\" "/" (stored_path file w) = "/images/museum/" ++ upload_name file w.
Proof.
  intros Hplain. rewrite stored_path_eq. unfold upload_name.
  transitivity ("/images/museum/" ++
                str.replace "\" "/" (uuid.hex (uuid4 (uuid_count w)) ++ "_"
                                     ++ posixpath.basename (filename file)));
    [reflexivity|].
  rewrite replace_app, (hex_has_no_backslash _ (hex_is_hex _)).
  change (str.replace "\" "/" ("_" ++ ?x)) with ("_" ++ str.replace "\" "/" x).
  by rewrite (plain_name_spec file Hplain).
Qed.

Lemma read_written (files : gmap string bytes) (path : string) (data : bytes) :
  read_rgb (<[path := data]> files) path =
  (pil ← PIL.decode data; PIL.convert pil "RGB").
Proof. unfold read_rgb. by rewrite lookup_insert_eq. Qed.

(** An accepted upload with a plain name, step by step: the image that
    is decoded is the content that was just written. *)
Lemma index_image_run (file : UploadFile) (title artist year category : string)
    (w : World) :
  app.supported_content_type (content_type file) = true ->
  plain_name file = true ->
  app.index_image environ file title artist year category w =
  match open_error (fs w) (museum_file file w) with
  | Some e => (HTTPException 500 ("Failed to save file: " ++ exn_str e), after_draw w)
  | None =>
      let w1 := stored_upload (museum_file file w) file w in
      let item_id := upload_name file w in
      let metadata :=
        item_metadata title artist year category ("/images/museum/" ++ item_id) in
      match (pil ← PIL.decode (content file); PIL.convert pil "RGB") with
      | Raise e => (HTTPException 400 ("Invalid image: " ++ exn_str e), w1)
      | Ok pil =>
          match app.index_embed pil with
          | Raise e =>
              (HTTPException 500 ("Error processing/indexing image: " ++ exn_str e), w1)
          | Ok vector =>
              match pinecone.upsert (app.PINECONE_INDEX environ) item_id vector
                      metadata w1 with
              | (Raise e, w2) =>
                  (HTTPException 500 ("Error processing/indexing image: " ++ exn_str e), w2)
              | (Ok _, w2) => (Success (app.mkIndexResponse "ok" item_id metadata), w2)
              end
          end
      end
  end.
Proof.
  intros Hsupp Hplain. rewrite run_index_image, Hsupp.
  rewrite (museum_file_url file w Hplain).
  rewrite (museum_file_opened file w Hplain), (museum_file_stored file w).
  rewrite (museum_file_basename file w).
  destruct (open_error (fs w) (museum_file file w)) as [e|]; [done|].
  cbn zeta. unfold stored_upload at 1. cbn [fs]. by rewrite read_written.
Qed.

Lemma query_file_stored (file : UploadFile) (w : World) :
  posixpath.join app.QUERIES_DIR (upload_name file w) = query_file file w.
Proof.
  unfold query_file, posixpath.join.
  pose proof (upload_name_no_slash file w) as Hname.
  destruct (upload_name file w) as [|c rest] eqn:Hn.
  - unfold upload_name in Hn. apply (f_equal String.length) in Hn.
    rewrite string_length_app, hex_length in Hn. done.
  - cbn in Hname. destruct (Ascii.eqb c posixpath.slash); [done|]. reflexivity.
Qed.

Lemma query_file_url (file : UploadFile) (w : World) :
  plain_name file = true ->
  str.replace "\" "/" (query_file file w) = query_file file w.
Proof.
  intros Hplain. unfold query_file, upload_name.
  transitivity ("images/queries/" ++
                str.replace "\" "/" (uuid.hex (uuid4 (uuid_count w)) ++ "_"
                                     ++ posixpath.basename (filename file)));
    [reflexivity|].
  rewrite replace_app, (hex_has_no_backslash _ (hex_is_hex _)).
  change (str.replace "\" "/" ("_" ++ ?x)) with ("_" ++ str.replace "\" "/" x).
  by rewrite (plain_name_spec file Hplain).
Qed.

(** An accepted query with a plain name, step by step. *)
Lemma search_image_run (file : UploadFile) (top_k : Z) (w : World) :
  app.supported_content_type (content_type file) = true ->
  plain_name file = true ->
  app.search_image environ file top_k w =
  match open_error (fs w) (query_file file w) with
  | Some e => (HTTPException 400 ("Invalid query image: " ++ exn_str e), after_draw w)
  | None =>
      let w1 := stored_upload (query_file file w) file w in
      match (pil ← PIL.decode (content file); PIL.convert pil "RGB") with
      | Raise e => (HTTPException 400 ("Invalid query image: " ++ exn_str e), w1)
      | Ok pil =>
          match app.search_embed pil with
          | Raise e => (HTTPException 500 ("Search error: " ++ exn_str e), w1)
          | Ok q_vector =>
              match pinecone.query (app.PINECONE_INDEX environ) q_vector top_k w1 with
              | (Raise e, w2) => (HTTPException 500 ("Search error: " ++ exn_str e), w2)
              | (Ok matches, w2) => (Success (hits_of matches), w2)
              end
          end
      end
  end.
Proof.
  intros Hsupp Hplain. rewrite run_search_image, Hsupp. cbn zeta.
  rewrite (query_file_stored file w), (query_file_url file w Hplain).
  change (str.lstrip "/" ("/" ++ query_file file w)) with (query_file file w).
  destruct (open_error (fs w) (query_file file w)) as [e|]; [done|].
  unfold stored_upload at 1. cbn [fs]. by rewrite read_written.
Qed.

End Endpoints.

Section EndpointOutcomes.
Context `{PIL.Imaging} `{Detector} `{OpenCV} `{Numeric} `{!VisionModel}
        `{Entropy} `{!VectorSearch} `{!PineconeApi} `{FileSystem} `{Runtime}.
Context (environ : gmap string string).

(** X12 (app.py, lines 80-81 and 118-119): both endpoints answer
    400 "Only JPG/PNG images supported." exactly when the declared content
    type is none of [image/jpeg], [image/png] and [image/jpg] (the
    comparison is exact: another case or a parameter is refused), and then
    nothing has happened: no file is written, no UUID drawn, no call
    made. *)
Theorem content_type_gate
    (file : UploadFile) (title artist year category : string) (top_k : Z)
    (w : World) :
  ((app.index_image environ file title artist year category w).1 =
     HTTPException 400 "Only JPG/PNG images supported."
   <-> content_type file ∉ ["image/jpeg"; "image/png"; "image/jpg"]) /\
  ((app.search_image environ file top_k w).1 =
     HTTPException 400 "Only JPG/PNG images supported."
   <-> content_type file ∉ ["image/jpeg"; "image/png"; "image/jpg"]) /\
  (content_type file ∉ ["image/jpeg"; "image/png"; "image/jpg"] ->
   (app.index_image environ file title artist year category w).2 = w /\
   (app.search_image environ file top_k w).2 = w).
Proof.
  rewrite run_index_image, run_search_image.
  destruct (app.supported_content_type (content_type file)) eqn:Hct.
  - pose proof Hct as Hin. unfold app.supported_content_type in Hin.
    apply bool_decide_eq_true in Hin.
    split; [|split]; [split; [|done] | split; [|done] | done].
    + destruct (open_error (fs w) _) as [e|]; [by cbn|]. cbn zeta.
      destruct (read_rgb _ _) as [pil|e]; [|by cbn].
      destruct (app.index_embed pil) as [vector|e]; [|by cbn].
      destruct (pinecone.upsert _ _ _ _ _) as [[[]|e] w2]; by cbn.
    + cbn zeta. destruct (open_error (fs w) _) as [e|]; [by cbn|].
      destruct (read_rgb _ _) as [pil|e]; [|by cbn].
      destruct (app.search_embed pil) as [vector|e]; [|by cbn].
      destruct (pinecone.query _ _ _ _) as [[matches|e] w2]; by cbn.
  - pose proof Hct as Hout. unfold app.supported_content_type in Hout.
    apply bool_decide_eq_false in Hout. cbn [fst snd]. done.
Qed.






(** X14 (app.py, lines 83-93): for an upload that is written but whose
    content Pillow cannot open, [/index] answers 400 with Pillow's
    message; the file has been written by then and is not removed, and the
    database is not called. *)
Theorem undecodable_upload_is_kept_on_disk
    (file : UploadFile) (title artist year category : string) (w : World)
    (e : exn) :
  app.supported_content_type (content_type file) = true ->
  plain_name file = true ->
  open_error (fs w) (museum_file file w) = None ->
  PIL.decode (content file) = Raise e ->
  app.index_image environ file title artist year category w =
    (HTTPException 400 ("Invalid image: " ++ exn_str e),
     stored_upload (museum_file file w) file w).
Proof.
  intros Hct Hplain Hopen Hdec.
  rewrite (index_image_run environ _ _ _ _ _ _ Hct Hplain), Hopen. cbn zeta.
  by rewrite Hdec.
Qed.

(** X15 (app.py, lines 95-113): for an upload that is written, opened
    and converted to RGB, when preprocessing or the model raises [/index]
    answers 500 with the exception's message; the upload stays on disk and
    nothing is sent to the database. *)
Theorem failed_embedding_sends_nothing
    (file : UploadFile) (title artist year category : string) (w : World)
    (pil0 rgb : PIL.Image) (e : exn) :
  app.supported_content_type (content_type file) = true ->
  plain_name file = true ->
  open_error (fs w) (museum_file file w) = None ->
  PIL.decode (content file) = Ok pil0 ->
  PIL.convert pil0 "RGB" = Ok rgb ->
  app.index_embed rgb = Raise e ->
  app.index_image environ file title artist year category w =
    (HTTPException 500 ("Error processing/indexing image: " ++ exn_str e),
     stored_upload (museum_file file w) file w).
Proof.
  intros Hct Hplain Hopen Hdec Hconv Hemb.
  rewrite (index_image_run environ _ _ _ _ _ _ Hct Hplain), Hopen. cbn zeta.
  rewrite Hdec. cbn. by rewrite Hconv, Hemb.
Qed.

(** X16 (app.py, lines 95-113): for an upload that is written, opened
    and embedded, when the service refuses the upsert, the collection is
    missing or its dimension is not the embedding's length, the upsert is
    attempted and fails: [/index] answers 500, the database is as before,
    and the upload stays on disk although no item refers to it. *)
Theorem refused_upsert_leaves_orphan_file
    (file : UploadFile) (title artist year category : string) (w : World)
    (pil0 rgb : PIL.Image) (vector : pyval) :
  app.supported_content_type (content_type file) = true ->
  plain_name file = true ->
  open_error (fs w) (museum_file file w) = None ->
  PIL.decode (content file) = Ok pil0 ->
  PIL.convert pil0 "RGB" = Ok rgb ->
  app.index_embed rgb = Ok vector ->
  (is_Some (api_error (EvUpsert (app.PINECONE_INDEX environ)
                                (upload_name file w) vector)) \/
   pc w !! app.PINECONE_INDEX environ = None \/
   exists rec, pc w !! app.PINECONE_INDEX environ = Some rec /\
               py_len vector <> Some (dimension rec)) ->
  exists detail w',
    app.index_image environ file title artist year category w =
      (HTTPException 500 ("Error processing/indexing image: " ++ detail), w') /\
    pc w' = pc w /\
    fs w' = <[museum_file file w := content file]> (fs w) /\
    calls w' = (calls w ++ [EvUpsert (app.PINECONE_INDEX environ)
                                     (upload_name file w) vector])%list.
Proof.
  intros Hct Hplain Hopen Hdec Hconv Hemb Hbad.
  rewrite (index_image_run environ _ _ _ _ _ _ Hct Hplain), Hopen. cbn zeta.
  rewrite Hdec. cbn [mbind result_bind]. rewrite Hconv, Hemb, run_upsert.
  cbn beta iota zeta.
  destruct (api_error _) as [e|] eqn:Hapi; [by eexists _, _|].
  unfold stored_upload at 1. cbn [pc].
  destruct Hbad as [[e He] | [Hnone | (rec & Hrec & Hlen)]].
  - done.
  - rewrite Hnone. by eexists _, _.
  - rewrite Hrec, (bool_decide_eq_false_2 _ Hlen). by eexists _, _.
Qed.

(** X17 (app.py, lines 72-113): a sufficient condition for [/index] to
    succeed, and what it then leaves: when the file can be written, the
    content decodes and converts, the embedding is computed and has the
    collection's dimension and the service accepts the upsert, the answer
    is the body [ok] with the id [<uuid hex>_<base name>] and the metadata
    of the form; the file of that name in [images/museum] holds the upload,
    the [image_url] of the metadata is its URL, and the collection holds
    the embedding and this metadata under the id. *)
Theorem index_image_stores_file_and_item
    (file : UploadFile) (title artist year category : string) (w : World)
    (pil0 rgb : PIL.Image) (vector : pyval) (rec : IndexRec) :
  app.supported_content_type (content_type file) = true ->
  plain_name file = true ->
  open_error (fs w) (museum_file file w) = None ->
  PIL.decode (content file) = Ok pil0 ->
  PIL.convert pil0 "RGB" = Ok rgb ->
  app.index_embed rgb = Ok vector ->
  api_error (EvUpsert (app.PINECONE_INDEX environ) (upload_name file w) vector) = None ->
  pc w !! app.PINECONE_INDEX environ = Some rec ->
  py_len vector = Some (dimension rec) ->
  exists body w',
    app.index_image environ file title artist year category w = (Success body, w') /\
    app.status body = "ok" /\
    app.id body = upload_name file w /\
    app.metadata body =
      item_metadata title artist year category ("/images/museum/" ++ app.id body) /\
    fs w' !! ("images/museum/" ++ app.id body) = Some (content file) /\
    exists rec',
      pc w' !! app.PINECONE_INDEX environ = Some rec' /\
      dimension rec' = dimension rec /\
      vectors rec' = <[app.id body := (vector, app.metadata body)]> (vectors rec).
Proof.
  intros Hct Hplain Hopen Hdec Hconv Hemb Hapi Hrec Hlen.
  rewrite (index_image_run environ _ _ _ _ _ _ Hct Hplain), Hopen. cbn zeta.
  rewrite Hdec. cbn [mbind result_bind]. rewrite Hconv, Hemb, run_upsert.
  cbn beta iota zeta. rewrite Hapi.
  unfold stored_upload at 1. cbn [pc].
  rewrite Hrec, (bool_decide_eq_true_2 _ Hlen).
  eexists _, _. split; [reflexivity|].
  cbn [app.status app.id app.metadata set_pc fs pc].
  split; [done|]. split; [done|]. split; [done|].
  split.
  - unfold stored_upload. cbn [fs]. apply lookup_insert_eq.
  - eexists. split; [apply lookup_insert_eq|]. done.
Qed.

End EndpointOutcomes.

Section UploadNames.
Context `{PIL.Imaging} `{Detector} `{OpenCV} `{Numeric} `{!VisionModel}
        `{Entropy} `{!VectorSearch} `{!PineconeApi} `{FileSystem} `{Runtime}.
Context (environ : gmap string string).

Lemma backslash_name_opens_elsewhere (file : UploadFile) (w : World) :
  plain_name file = false -> stored_path file w <> opened_path file w.
Proof.
  intros Hplain. rewrite stored_path_eq, opened_path_eq. unfold upload_name.
  intros Heq. apply (string_app_inv_head "images/museum/") in Heq.
  apply (string_app_inv_head (uuid.hex (uuid4 (uuid_count w)))) in Heq.
  apply (string_app_inv_head "_") in Heq.
  unfold plain_name in Hplain. apply String.eqb_neq in Hplain. by symmetry in Heq.
Qed.

(** X18 (app.py, lines 61-68 and 89-93): [save_upload_file] writes the
    file under the name as uploaded but returns the path with every
    backslash turned into a slash, and [/index] opens the path returned.
    With POSIX paths, an upload whose base name holds a backslash is
    therefore written to one path and looked for at another: when the file
    is written and no file happens to be at the other path, the answer is
    400 "Invalid image", the upload stays on disk and the database is not
    called. *)
Theorem backslash_name_is_answered_invalid
    (file : UploadFile) (title artist year category : string) (w : World) :
  app.supported_content_type (content_type file) = true ->
  plain_name file = false ->
  open_error (fs w) (museum_file file w) = None ->
  fs w !! opened_path file w = None ->
  exists detail,
    app.index_image environ file title artist year category w =
      (HTTPException 400 ("Invalid image: " ++ detail),
       stored_upload (museum_file file w) file w).
Proof.
  intros Hct Hplain Hopen Hnone. eexists.
  rewrite run_index_image, Hct, (museum_file_stored file w), Hopen. cbn zeta.
  unfold read_rgb, stored_upload at 1. cbn [fs].
  rewrite lookup_insert_ne
    by (rewrite <- (museum_file_stored file w); by apply backslash_name_opens_elsewhere).
  rewrite Hnone. reflexivity.
Qed.

(** X19 (app.py, lines 116-148): what a successful [/search] returns
    is the database's answer to the embedding of the uploaded content, for
    the collection as it was before the call: one hit per match, in the
    order of the matches, with the match's id and score; missing metadata
    becomes the empty dictionary, and a hit's [image_url] is the entry of
    its metadata, or the empty string.  The collection is not changed. *)
Theorem search_hits_mirror_matches
    (file : UploadFile) (top_k : Z) (w w' : World) (hits : list app.SearchHit) :
  plain_name file = true ->
  app.search_image environ file top_k w = (Success hits, w') ->
  exists pil0 rgb q_vector rec,
    PIL.decode (content file) = Ok pil0 /\
    PIL.convert pil0 "RGB" = Ok rgb /\
    app.search_embed rgb = Ok q_vector /\
    pc w !! app.PINECONE_INDEX environ = Some rec /\
    map app.hit_id hits =
      map match_id (top_matches q_vector top_k (vectors rec)) /\
    map app.hit_score hits =
      map match_score (top_matches q_vector top_k (vectors rec)) /\
    map app.hit_metadata hits =
      map (fun m => default ∅ (match_metadata m))
          (top_matches q_vector top_k (vectors rec)) /\
    Forall (fun hit => app.hit_image_url hit =
                       default "" (app.hit_metadata hit !! "image_url")) hits /\
    pc w' = pc w.
Proof.
  intros Hplain.
  destruct (app.supported_content_type (content_type file)) eqn:Hct;
    [|rewrite run_search_image; by rewrite Hct].
  rewrite (search_image_run environ _ _ _ Hct Hplain).
  destruct (open_error (fs w) (query_file file w)) as [e|]; [done|]. cbn zeta.
  destruct (PIL.decode (content file)) as [pil0|e] eqn:Hdec; [|done].
  cbn [mbind result_bind].
  destruct (PIL.convert pil0 "RGB") as [rgb|e] eqn:Hconv; [|done].
  destruct (app.search_embed rgb) as [q_vector|e] eqn:Hemb; [|done].
  rewrite run_query. cbn beta iota zeta.
  destruct (api_error _); [done|].
  unfold stored_upload at 1. cbn [pc].
  destruct (pc w !! app.PINECONE_INDEX environ) as [rec|] eqn:Hrec; [|done].
  case_bool_decide as Hlen; [|done].
  intros Heq. apply pair_equal_spec in Heq as [Hbody <-].
  apply Success_inj in Hbody as <-.
  exists pil0, rgb, q_vector, rec.
  split; [done|]. split; [done|]. split; [done|]. split; [done|].
  unfold hits_of. rewrite !map_map. cbn [app.hit_id app.hit_score app.hit_metadata].
  split; [done|]. split; [done|]. split; [done|].
  split; [|done].
  apply Forall_map, Forall_forall. by intros m _.
Qed.

(** X20 (app.py, lines 116-148): searching leaves nothing behind that a
    later search can see: the same upload, searched again right after a
    successful search, gets the same hits, provided its file can be written
    again. *)
Theorem search_is_repeatable
    (file : UploadFile) (top_k : Z) (w w1 : World) (hits : list app.SearchHit) :
  plain_name file = true ->
  app.search_image environ file top_k w = (Success hits, w1) ->
  open_error (fs w1) (query_file file w1) = None ->
  exists w2, app.search_image environ file top_k w1 = (Success hits, w2).
Proof.
  intros Hplain.
  destruct (app.supported_content_type (content_type file)) eqn:Hct;
    [|rewrite run_search_image; by rewrite Hct].
  rewrite !(search_image_run environ _ _ _ Hct Hplain).
  destruct (open_error (fs w) (query_file file w)) as [e|]; [done|]. cbn zeta.
  destruct (PIL.decode (content file)) as [pil0|e]; [|done].
  cbn [mbind result_bind].
  destruct (PIL.convert pil0 "RGB") as [rgb|e]; [|done].
  destruct (app.search_embed rgb) as [q_vector|e]; [|done].
  rewrite !run_query. cbn beta iota zeta.
  destruct (api_error _) eqn:Hapi; [done|].
  unfold stored_upload at 1. cbn [pc].
  destruct (pc w !! app.PINECONE_INDEX environ) as [rec|] eqn:Hrec; [|done].
  case_bool_decide as Hlen; [|done].
  intros Heq. apply pair_equal_spec in Heq as [Hbody <-].
  apply Success_inj in Hbody as <-.
  intros ->. unfold stored_upload. cbn [pc].
  rewrite Hrec, (bool_decide_eq_true_2 _ Hlen).
  by eexists.
Qed.

End UploadNames.

(** ** More on start-up and on the bulk indexer *)

Section StartupEdges.
Context `{PIL.Imaging} `{Detector} `{OpenCV} `{Numeric} `{!VisionModel}
        `{Entropy} `{!VectorSearch} `{!PineconeApi} `{FileSystem} `{Runtime}.
Context (environ : gmap string string).

Lemma listed_iff_present (name : string) (w : World) :
  name ∈ elements (dom (pc w)) <-> is_Some (pc w !! name).
Proof. by rewrite elem_of_elements, elem_of_dom. Qed.

(** The probe, the listing and the creation, step by step. *)
Lemma run_ensure_index (name region : string) (w : World) :
  (_ ← log EvGetEmbeddingDim;
   EMBED_DIM ← lift embedding_service.get_embedding_dim;
   existing_indexes ← pinecone.list_indexes_names;
   _ ← (if bool_decide (name ∉ existing_indexes)
        then pinecone.create_index name EMBED_DIM "cosine" region
        else mret tt);
   mret EMBED_DIM) w =
  ensured embedding_service.get_embedding_dim name region w.
Proof.
  unfold ensured. run_io.
  destruct embedding_service.get_embedding_dim as [dim|e]; [|done].
  unfold pinecone.list_indexes_names. rewrite !run_bind, run_call. cbn zeta.
  destruct (api_error EvListIndexes);
    [cbn [fs pc uuid_count calls]; by rewrite <- app_assoc|].
  run_io.
  case_bool_decide as Hin.
  - rewrite listed_iff_present, <- eq_None_not_Some in Hin. cbn [pc] in Hin.
    rewrite Hin.
    unfold pinecone.create_index. rewrite !run_bind, run_call. cbn zeta.
    destruct (api_error (EvCreateIndex _ _));
      [cbn [fs pc uuid_count calls]; by rewrite <- !app_assoc|].
    run_io. rewrite Hin. run_io. unfold set_pc. cbn [fs pc uuid_count calls].
    by rewrite <- !app_assoc.
  - rewrite listed_iff_present in Hin. cbn [pc] in Hin.
    destruct Hin as [rec ->]. run_io. by rewrite <- app_assoc.
Qed.

Lemma run_app_startup (w : World) :
  app.startup environ w =
  match server_preparation environ with
  | Some e => (Raise e, w)
  | None =>
      ensured embedding_service.get_embedding_dim
        (app.PINECONE_INDEX environ) (app.PINECONE_REGION environ) w
  end.
Proof.
  unfold app.startup, server_preparation, makedirs, app.TOP_K.
  rewrite run_bind, run_lift.
  destruct (int_of_str _) as [top_k|]; [|done].
  change app.MUSEUM_DIR with "images/museum".
  change app.QUERIES_DIR with "images/queries".
  rewrite run_bind, run_fail_with. destruct (makedirs_error _); [done|].
  rewrite run_bind, run_fail_with. destruct (makedirs_error _); [done|].
  rewrite run_bind, run_fail_with. destruct load_embedding_service; [done|].
  rewrite run_bind, run_fail_with. destruct load_pipeline; [done|].
  unfold app.PINECONE_API_KEY.
  destruct (environ !! "PINECONE_API_KEY") as [[|c k]|]; [done| |done].
  apply run_ensure_index.
Qed.

Lemma run_indexer_startup (w : World) :
  images_embed.startup environ w =
  match indexer_preparation environ with
  | Some e => (Raise e, w)
  | None =>
      ensured embedding_service.get_embedding_dim
        (images_embed.PINECONE_INDEX environ) (images_embed.PINECONE_REGION environ) w
  end.
Proof.
  unfold images_embed.startup, indexer_preparation, images_embed.PINECONE_API_KEY.
  destruct (environ !! "PINECONE_API_KEY") as [[|c k]|]; [done| |done].
  rewrite run_bind, run_fail_with. destruct load_embedding_service; [done|].
  rewrite run_bind, run_fail_with. destruct load_pipeline; [done|].
  apply run_ensure_index.
Qed.


(** X21 (app.py, lines 36-57): start-up is idempotent on the
    database.  After a start-up that succeeded, a second one succeeds with
    the same dimension, asks the model and lists the collections again, and
    creates nothing. *)
Theorem startup_twice_creates_once (w w0 : World) (dim : nat) :
  app.startup environ w = (Ok dim, w0) ->
  exists w1,
    app.startup environ w0 = (Ok dim, w1) /\
    pc w1 = pc w0 /\
    fs w1 = fs w0 /\
    calls w1 = (calls w0 ++ [EvGetEmbeddingDim; EvListIndexes])%list.
Proof.
  rewrite !run_app_startup.
  destruct (server_preparation environ); [done|].
  unfold ensured.
  destruct embedding_service.get_embedding_dim as [d|e]; [|done].
  destruct (api_error EvListIndexes); [done|].
  destruct (pc w !! app.PINECONE_INDEX environ) as [rec|] eqn:Hrec.
  - intros [= <- <-]. cbn [pc]. rewrite Hrec. by eexists.
  - destruct (api_error (EvCreateIndex _ _)); [done|].
    intros [= <- <-]. cbn [pc set_pc]. rewrite lookup_insert_eq. by eexists.
Qed.


(** X23 (images_embed.py, lines 19-32; app.py, lines 20-57): whenever
    the server's start-up succeeds, the initialisation of the bulk indexer,
    run in the same world and environment, succeeds with the same
    dimension and leaves the same world: same probe, same collection name,
    dimension, metric and region, same calls. *)
Theorem bulk_indexer_startup_is_server_startup (w w0 : World) (dim : nat) :
  app.startup environ w = (Ok dim, w0) ->
  images_embed.startup environ w = (Ok dim, w0).
Proof.
  rewrite run_app_startup, run_indexer_startup.
  unfold server_preparation, indexer_preparation.
  destruct (int_of_str _) as [top_k|]; [|done].
  destruct (makedirs_error "images/museum"); [done|].
  destruct (makedirs_error "images/queries"); [done|].
  destruct load_embedding_service; [done|].
  destruct load_pipeline; [done|].
  destruct (environ !! "PINECONE_API_KEY") as [[|c k]|]; done.
Qed.

End StartupEdges.

Section BulkIndexer.
Context `{PIL.Imaging} `{Detector} `{OpenCV} `{Numeric} `{!VisionModel}
        `{Entropy} `{!VectorSearch} `{!PineconeApi} `{FileSystem} `{Runtime}.
Context (environ : gmap string string).



(** One file of the bulk indexer, step by step. *)
Lemma run_index_file (folder_path file_name : string) (w : World) :
  images_embed.index_file environ folder_path file_name w =
  match read_rgb (fs w) (posixpath.join folder_path file_name) with
  | Raise e => (Raise e, w)
  | Ok pil =>
      match images_embed.index_embed pil with
      | Raise e => (Raise e, w)
      | Ok vector =>
          let item_id := uuid.hex (uuid4 (uuid_count w)) ++ "_" ++ file_name in
          pinecone.upsert (images_embed.PINECONE_INDEX environ) item_id vector
            (item_metadata "" "" "" "" ("/images/museum/" ++ item_id))
            (after_draw w)
      end
  end.
Proof.
  unfold images_embed.index_file, read_rgb. cbn zeta.
  rewrite run_bind, run_image_open.
  destruct (fs w !! _) as [data|]; [|done].
  destruct (PIL.decode data) as [pil0|e]; [|done].
  cbn beta iota. cbn [mbind result_bind]. rewrite run_bind, run_lift.
  destruct (PIL.convert pil0 "RGB") as [pil|e]; [|done].
  cbn beta iota. rewrite run_bind, run_lift.
  destruct (images_embed.index_embed pil) as [vector|e]; [|done].
  cbn beta iota. unfold uuid4_hex. run_io. reflexivity.
Qed.




(** X25 (images_embed.py, lines 41-55): what the bulk indexer
    stores for one file that it can open, embed and upsert: the id is
    [<uuid hex>_<file name>], as for the server's items; title, artist,
    year and category are empty; [image_url] is [/images/museum/<id>],
    although the file stays where it was and nothing is written under that
    name. *)
Theorem bulk_item_has_url_without_file
    (folder_path file_name : string) (w : World)
    (data : bytes) (pil0 rgb : PIL.Image) (vector : pyval) (rec : IndexRec) :
  fs w !! posixpath.join folder_path file_name = Some data ->
  PIL.decode data = Ok pil0 ->
  PIL.convert pil0 "RGB" = Ok rgb ->
  images_embed.index_embed rgb = Ok vector ->
  api_error (EvUpsert (images_embed.PINECONE_INDEX environ)
               (uuid.hex (uuid4 (uuid_count w)) ++ "_" ++ file_name) vector) = None ->
  pc w !! images_embed.PINECONE_INDEX environ = Some rec ->
  py_len vector = Some (dimension rec) ->
  exists item_id w',
    item_id = uuid.hex (uuid4 (uuid_count w)) ++ "_" ++ file_name /\
    images_embed.index_file environ folder_path file_name w = (Ok tt, w') /\
    fs w' = fs w /\
    uuid_count w' = S (uuid_count w) /\
    pc w' = <[images_embed.PINECONE_INDEX environ :=
                mkIndexRec (dimension rec) (metric rec) (region rec)
                  (<[item_id := (vector,
                                 item_metadata "" "" "" "" ("/images/museum/" ++ item_id))]>
                     (vectors rec))]> (pc w).
Proof.
  intros Hfile Hdec Hconv Hemb Hapi Hrec Hlen. eexists _, _. split; [reflexivity|].
  rewrite run_index_file. unfold read_rgb. rewrite Hfile, Hdec.
  cbn [mbind result_bind]. rewrite Hconv, Hemb. cbn zeta.
  rewrite run_upsert. cbn beta iota zeta. rewrite Hapi.
  unfold after_draw. cbn [pc fs uuid_count calls].
  rewrite Hrec, (bool_decide_eq_true_2 _ Hlen).
  split; [reflexivity|]. done.
Qed.

End BulkIndexer.

(** ** The norm of an embedding, in binary32 *)





Section Binary32.
Context `{PIL.Imaging} (noise : nat -> spec_float)
        `{!@VisionModel (Float32.numeric noise)}.
#[local] Hint Extern 0 Numeric => exact (Float32.numeric noise) : typeclass_instances.



End Binary32.

(** ** The definitions at work on the small concrete system *)

Section Concrete.
#[local] Existing Instances Sample.imaging Sample.detector Sample.opencv
  Sample.numeric Sample.model Sample.entropy Sample.search
  Sample.filesystem Sample.runtime Sample.api.

(** The second box is larger and less confident; it wins, and with a
    padding of [int(2 * 0.05) = 0] the crop is the box itself. *)
Example larger_box_beats_confident_box :
  (pipeline.largest_box [Sample.small_confident; Sample.large_hesitant] None PyFloat.zero).1
    = Some (xyxy Sample.large_hesitant) /\
  PyFloat.gt (conf Sample.small_confident) (conf Sample.large_hesitant) = true /\
  pipeline.detect_and_crop Sample.picture (PyFloat.literal 25 100)
    = PIL.crop Sample.picture (1, 1, 3, 3).
Proof. repeat split; reflexivity. Qed.

(** The source's literals: [0.05] and [0.25] as binary64 numbers. *)
Example float_literals :
  PyFloat.literal 5 100 = S754_finite false 7205759403792794 (-57) /\
  PyFloat.literal 25 100 = S754_finite false 4503599627370496 (-54) /\
  (PyFloat.int_times 20 (PyFloat.literal 5 100) ≫= PyFloat.to_int) = Ok 1 /\
  (PyFloat.int_times 39 (PyFloat.literal 5 100) ≫= PyFloat.to_int) = Ok 1 /\
  (PyFloat.int_times (-39) (PyFloat.literal 5 100) ≫= PyFloat.to_int) = Ok (-1).
Proof. repeat split; reflexivity. Qed.

(** A box without area is never selected: the centre crop is taken. *)
Example degenerate_box_falls_back :
  let flat := {| xyxy := (PyFloat.of_int 1, PyFloat.of_int 1, PyFloat.of_int 1, PyFloat.of_int 3);
                 conf := PyFloat.literal 9 10; cls := 0 |} in
  (pipeline.largest_box [flat] None PyFloat.zero).1 = None.
Proof. reflexivity. Qed.

Lemma detect_and_crop_selects_largest_area_witness :
  exists i b,
    [Sample.small_confident; Sample.large_hesitant] !! i = Some b /\
    PyFloat.gt (rectangle_area (xyxy b)) PyFloat.zero = true /\
    pipeline.detect_and_crop Sample.picture (PyFloat.literal 25 100) =
      (box ← pipeline.padded_box (PIL.size Sample.picture) (xyxy b);
       PIL.crop Sample.picture box) /\
    (forall b', b' ∈ [Sample.small_confident; Sample.large_hesitant] ->
                PyFloat.gt (rectangle_area (xyxy b')) (rectangle_area (xyxy b)) = false) /\
    (forall j b', (j < i)%nat ->
                  [Sample.small_confident; Sample.large_hesitant] !! j = Some b' ->
                  SFleb (rectangle_area (xyxy b)) (rectangle_area (xyxy b')) = false).
Proof.
  destruct (detect_and_crop_selects_largest_area Sample.picture (PyFloat.literal 25 100)
              [Sample.small_confident; Sample.large_hesitant])
    as [[Hbox | [Hnone _]] _].
  - reflexivity.
  - exact Hbox.
  - specialize (Hnone Sample.small_confident (list_elem_of_here _ _)).
    discriminate Hnone.
Defined.

(** A detection passes the threshold, and no box is selected: the box has
    no area, the crop around it would be empty, and the centre crop of the
    whole picture is returned. *)
Lemma box_without_area_is_not_selected :
  @pipeline.run_detector Sample.imaging Variants.flat_detector
      Sample.picture (PyFloat.literal 25 100) = Ok [Variants.flat] /\
  rectangle_area (xyxy Variants.flat) = PyFloat.zero /\
  PIL.size <$> (box ← pipeline.padded_box (PIL.size Sample.picture) (xyxy Variants.flat);
                PIL.crop Sample.picture box) = Ok (0, 2) /\
  PIL.size <$> @pipeline.detect_and_crop Sample.imaging Variants.flat_detector
                 Sample.picture (PyFloat.literal 25 100) = Ok (4, 4) /\
  @pipeline.detect_and_crop Sample.imaging Variants.flat_detector
      Sample.picture (PyFloat.literal 25 100) = pipeline._center_crop Sample.picture.
Proof. repeat split; reflexivity. Qed.

Lemma detect_and_crop_center_square_witness :
  let side := Z.min 6 4 in
  let left := (6 - side) `div` 2 in
  let top := (4 - side) `div` 2 in
  exists out,
    @pipeline.detect_and_crop Sample.imaging Sample.blind_detector
        Sample.grey (PyFloat.literal 25 100) = Ok out /\
    PIL.crop Sample.grey (left, top, left + side, top + side) = Ok out /\
    PIL.size out = (side, side) /\
    PIL.mode out = PIL.mode Sample.grey /\
    (0 <= left /\ 0 <= top /\ left + side <= 6 /\ top + side <= 4) /\
    (2 * left <= 6 - side <= 2 * left + 1 /\ 2 * top <= 4 - side <= 2 * top + 1) /\
    (forall x y, 0 <= x < side -> 0 <= y < side ->
                 PIL.getpixel out x y = PIL.getpixel Sample.grey (left + x) (top + y)).
Proof.
  apply (@detect_and_crop_center_square Sample.imaging Sample.blind_detector);
    [reflexivity | lia | lia | reflexivity].
Defined.

Lemma padded_crop_within_bounds_witness :
  pipeline.detect_and_crop Sample.picture (PyFloat.literal 25 100)
    = PIL.crop Sample.picture (1, 1, 3, 3) /\
  0 <= 1 /\ 0 <= 1 /\ 3 <= 4 /\ 3 <= 4.
Proof.
  apply (padded_crop_within_bounds Sample.picture (PyFloat.literal 25 100)
           [Sample.small_confident; Sample.large_hesitant]
           (xyxy Sample.large_hesitant) 4 4 1 1 3 3);
    [reflexivity | reflexivity | discriminate | reflexivity | reflexivity].
Defined.

Lemma detect_and_crop_propagates_detector_failure_witness :
  @pipeline.detect_and_crop Sample.imaging Sample.broken_detector
      Sample.picture (PyFloat.literal 25 100)
    = Raise (Exception "RuntimeError" "model error") /\
  @pipeline.detect_and_crop Sample.imaging Sample.blind_detector
      Sample.picture (PyFloat.literal 25 100)
    = pipeline._center_crop Sample.picture /\
  exists b, b ∈ [Sample.small_confident; Sample.large_hesitant] /\
    PyFloat.gt (rectangle_area (xyxy b)) PyFloat.zero = true /\
    pipeline.detect_and_crop Sample.picture (PyFloat.literal 25 100) =
    (box ← pipeline.padded_box (PIL.size Sample.picture) (xyxy b);
     PIL.crop Sample.picture box).
Proof.
  split; [|split].
  - destruct (@detect_and_crop_propagates_detector_failure
                Sample.imaging Sample.broken_detector
                Sample.picture (PyFloat.literal 25 100)) as (_ & Hraise & _).
    apply (Hraise []); reflexivity.
  - destruct (@detect_and_crop_propagates_detector_failure
                Sample.imaging Sample.blind_detector
                Sample.picture (PyFloat.literal 25 100)) as (_ & _ & Hnone & _).
    apply (Hnone [] []); [reflexivity | reflexivity | constructor].
  - destruct (@detect_and_crop_propagates_detector_failure
                Sample.imaging Sample.detector
                Sample.picture (PyFloat.literal 25 100)) as (_ & _ & _ & Hsome & _).
    apply (Hsome []); [reflexivity | reflexivity |].
    apply Exists_cons_hd. reflexivity.
Defined.

(** One detection is reported, so the list of boxes is not empty, and the
    centre crop is returned all the same: the box has a negative area.
    Zero detections is not the only condition the centre crop absorbs. *)
Lemma reported_box_is_absorbed_by_center_crop :
  @pipeline.run_detector Sample.imaging Variants.inverted_detector
      Sample.picture (PyFloat.literal 25 100) = Ok [Variants.inverted] /\
  length [Variants.inverted] = 1%nat /\
  PyFloat.gt PyFloat.zero (rectangle_area (xyxy Variants.inverted)) = true /\
  @pipeline.detect_and_crop Sample.imaging Variants.inverted_detector
      Sample.picture (PyFloat.literal 25 100) = pipeline._center_crop Sample.picture /\
  is_ok (@pipeline.detect_and_crop Sample.imaging Variants.inverted_detector
           Sample.picture (PyFloat.literal 25 100)) = true.
Proof. repeat split; reflexivity. Qed.

Lemma normalize_color_changes_luminance_only_witness :
  exists lab lab' out,
    lab = map (map (fun p => bgr2lab (cv2.swap_rb p))) (PIL.asarray Sample.picture) /\
    lab' = map (map (fun q : pixel =>
                       (equalize_lut (cv2.split lab).1.1 q.1.1, q.1.2, q.2))) lab /\
    out = PIL.fromarray (map (map (fun q => cv2.swap_rb (lab2bgr q))) lab') /\
    pipeline.to_lab Sample.picture = Ok lab /\
    pipeline.equalize_l lab = Ok lab' /\
    pipeline.of_lab lab' = Ok out /\
    pipeline.normalize_color Sample.picture = Ok out /\
    PIL.size out = (4, 4) /\
    PIL.mode out = "RGB" /\
    cv2.split lab' =
      (cv2.equalizeHist (cv2.split lab).1.1, (cv2.split lab).1.2, (cv2.split lab).2).
Proof.
  apply normalize_color_changes_luminance_only; [reflexivity | reflexivity | lia | lia].
Defined.

Lemma process_image_identity_on_rgb_witness :
  pipeline.process_image Sample.picture false false = Ok Sample.picture.
Proof. apply process_image_identity_on_rgb. reflexivity. Defined.

(** An image in another mode is converted, and nothing else. *)
Example process_image_converts_grey :
  pipeline.process_image Sample.grey false false = PIL.convert Sample.grey "RGB" /\
  PIL.mode <$> pipeline.process_image Sample.grey false false = Ok "RGB".
Proof. split; reflexivity. Qed.

(** C1, on the code: the bulk indexer of [images_embed.py] writes to the
    collection the [/search] endpoint reads, but embeds with
    [apply_detection=True] where the endpoint uses [False].  On the sample
    picture the indexed image is the 2x2 crop, the query image the whole
    4x4 picture, and the two embeddings differ. *)
Theorem bulk_indexer_embedding_differs_from_search :
  images_embed.PINECONE_INDEX Sample.environ = app.PINECONE_INDEX Sample.environ /\
  PIL.size <$> pipeline.process_image Sample.picture true true = Ok (2, 2) /\
  PIL.size <$> pipeline.process_image Sample.picture false true = Ok (4, 4) /\
  images_embed.index_embed Sample.picture <> app.search_embed Sample.picture.
Proof.
  repeat split; try reflexivity.
  intros Heq. vm_compute in Heq. discriminate Heq.
Qed.

Lemma collection_dimension_is_embedding_dimension_witness :
  embedding_service.get_embedding_dim = Ok 3%nat /\
  calls Sample.started =
    [EvGetEmbeddingDim; EvListIndexes;
     EvCreateIndex (app.PINECONE_INDEX Sample.environ) 3] /\
  pc Sample.started !! app.PINECONE_INDEX Sample.environ =
    Some (mkIndexRec 3 "cosine" (app.PINECONE_REGION Sample.environ) ∅) /\
  (forall pil v, app.index_embed pil = Ok v -> py_len v = Some 3%nat).
Proof.
  destruct (collection_dimension_is_embedding_dimension Sample.environ
              3 Sample.empty_world Sample.started 3)
    as (_ & Hdim & Hcalls & Hpc & Hlen & _).
  - split; [lia|]. intros t y _ [= <-]. by left.
  - reflexivity.
  - vm_cast_no_check (@eq_refl _ (@Ok nat 3%nat, Sample.started)).
  - split; [exact Hdim|]. split; [exact Hcalls|]. split; [exact Hpc|]. exact Hlen.
Defined.

(** The call the sample upload makes carries a vector of length 3. *)
Example sample_upsert_has_dimension :
  Forall (sends_dimension 3) (drop 3 (calls Sample.first_call.2)).
Proof. vm_compute. repeat constructor. Qed.

(** A run that succeeded is the pair of its body and its final world. *)
Lemma successful_run (r : response app.IndexResponse * World) :
  is_success r.1 = true -> r = (Success (Sample.body_of r.1), r.2).
Proof. by destruct r as [[body|code detail] w]. Qed.

Lemma index_ids_are_fresh_uuid_names_witness :
  app.id (Sample.body_of Sample.first_call.1) =
    uuid.hex (uuid4 (uuid_count Sample.started)) ++ "_"
      ++ posixpath.basename (filename Sample.upload) /\
  app.id (Sample.body_of Sample.second_call.1) =
    uuid.hex (uuid4 (S (uuid_count Sample.started))) ++ "_"
      ++ posixpath.basename (filename Sample.upload) /\
  app.id (Sample.body_of Sample.first_call.1) <>
  app.id (Sample.body_of Sample.second_call.1).
Proof.
  destruct (index_ids_are_fresh_uuid_names Sample.environ Sample.upload
              "Mona Lisa" "Leonardo da Vinci" "1503" "Painting"
              Sample.started Sample.first_call.2 Sample.second_call.2
              (Sample.body_of Sample.first_call.1)
              (Sample.body_of Sample.second_call.1))
    as (Hid1 & Hid2 & Hne & _).
  - vm_cast_no_check (@eq_refl bool true).
  - apply (successful_run Sample.first_call).
    vm_cast_no_check (@eq_refl bool true).
  - vm_cast_no_check (@eq_refl bool true).
  - apply (successful_run Sample.second_call).
    vm_cast_no_check (@eq_refl bool true).
  - split; [exact Hid1|]. split; [exact Hid2|]. exact Hne.
Defined.

(** The two ids of the sample uploads. *)
Example sample_item_ids :
  app.id (Sample.body_of Sample.first_call.1) = "00000000000000000000000000000000_mona.jpg" /\
  app.id (Sample.body_of Sample.second_call.1) = "00000000000000000000000000000001_mona.jpg".
Proof. split; vm_compute; reflexivity. Qed.

End Concrete.

(** ** The further properties on concrete inputs *)

Section ConcreteEdges.
#[local] Existing Instances Sample.imaging Sample.detector Sample.opencv
  Sample.numeric Sample.model Sample.entropy Sample.search
  Sample.filesystem Sample.runtime Sample.api.

Lemma returned_value {A} (d : A) (r : result A) :
  is_ok r = true -> r = Ok (Variants.value_or d r).
Proof. by destruct r. Qed.

Lemma successful_answer {A} (d : A) (r : response A * World) :
  is_success r.1 = true -> r = (Success (Variants.body_or d r.1), r.2).
Proof. by destruct r as [[body|code detail] w]. Qed.

Lemma detect_and_crop_without_positive_area_witness :
  @pipeline.detect_and_crop Sample.imaging Variants.flat_detector
      Sample.picture (PyFloat.literal 25 100)
    = pipeline._center_crop Sample.picture.
Proof.
  apply (@detect_and_crop_without_positive_area Sample.imaging Variants.flat_detector
           Sample.picture (PyFloat.literal 25 100) [Variants.flat]).
  - reflexivity.
  - constructor; [reflexivity | constructor].
Defined.

Lemma detect_and_crop_never_enlarges_witness :
  PIL.mode (Variants.value_or Sample.picture
              (pipeline.detect_and_crop Sample.picture (PyFloat.literal 25 100)))
    = PIL.mode Sample.picture /\
  0 <= PIL.width (Variants.value_or Sample.picture
                    (pipeline.detect_and_crop Sample.picture (PyFloat.literal 25 100)))
    <= PIL.width Sample.picture /\
  0 <= PIL.height (Variants.value_or Sample.picture
                     (pipeline.detect_and_crop Sample.picture (PyFloat.literal 25 100)))
    <= PIL.height Sample.picture.
Proof.
  apply (detect_and_crop_never_enlarges Sample.picture _ (PyFloat.literal 25 100)).
  apply returned_value. reflexivity.
Defined.

Lemma padding_is_a_twentieth_witness :
  (PyFloat.int_times 39 (PyFloat.literal 5 100) ≫= PyFloat.to_int) = Ok (39 `quot` 20).
Proof. apply (padding_is_a_twentieth 39). lia. Defined.

Lemma selected_box_has_no_nan_witness :
  PyFloat.gt (pipeline.area Sample.large_hesitant) PyFloat.zero = true /\
  PyFloat.of_int 1 <> S754_nan /\ PyFloat.of_int 3 <> S754_nan.
Proof.
  destruct (selected_box_has_no_nan [Sample.small_confident; Sample.large_hesitant]
              (PyFloat.of_int 1) (PyFloat.of_int 1) (PyFloat.of_int 3) (PyFloat.of_int 3)
              (pipeline.area Sample.large_hesitant))
    as (_ & Hgt & Hx1 & _ & Hx2 & _).
  - reflexivity.
  - split; [exact Hgt|]. split; [exact Hx1 | exact Hx2].
Defined.

Lemma padding_never_shrinks_the_box_witness :
  exists x1 y1 x2 y2,
    PyFloat.to_int (xyxy Sample.large_hesitant).1.1.1 = Ok x1 /\
    PyFloat.to_int (xyxy Sample.large_hesitant).1.1.2 = Ok y1 /\
    PyFloat.to_int (xyxy Sample.large_hesitant).1.2 = Ok x2 /\
    PyFloat.to_int (xyxy Sample.large_hesitant).2 = Ok y2 /\
    (x1 <= x2 -> 1 <= Z.max 0 x1 /\ Z.min 4 x2 <= 3) /\
    (y1 <= y2 -> 1 <= Z.max 0 y1 /\ Z.min 4 y2 <= 3).
Proof.
  apply (padding_never_shrinks_the_box 4 4 (xyxy Sample.large_hesitant) 1 1 3 3).
  reflexivity.
Defined.

Lemma process_image_returns_rgb_witness :
  PIL.mode (Variants.value_or Sample.picture
              (pipeline.process_image Sample.grey false false)) = "RGB".
Proof.
  apply (process_image_returns_rgb Sample.grey _ false false).
  apply returned_value. reflexivity.
Defined.

Lemma process_image_without_detection_keeps_size_witness :
  (exists out,
     pipeline.process_image Sample.grey false true = Ok out /\
     PIL.size out = (6, 4) /\ PIL.mode out = "RGB") /\
  pipeline.process_image Variants.two_band false true =
    Raise (Exception "ValueError" "conversion not supported").
Proof.
  split.
  - destruct (process_image_without_detection_keeps_size Sample.grey true 6 4)
      as [Hconverted _]; [reflexivity | lia | lia |].
    apply (Hconverted (Variants.value_or Sample.grey (PIL.convert Sample.grey "RGB"))).
    apply returned_value. reflexivity.
  - destruct (process_image_without_detection_keeps_size Variants.two_band true 6 4)
      as [_ Hrefused]; [reflexivity | lia | lia |].
    apply Hrefused. reflexivity.
Defined.

Lemma generate_embedding_of_feature_vector_witness :
  exists features,
    embedding_service.generate_embedding Sample.picture = Ok (PyList features) /\
    length features = 3%nat.
Proof.
  eexists. split.
  - apply (generate_embedding_of_feature_vector Sample.picture
             {| shape := [1%nat; 3%nat];
                item := item (embedding_service.preprocess_image Sample.picture) |}
             3);
      [reflexivity | reflexivity | lia].
  - reflexivity.
Defined.

Lemma generate_embedding_of_feature_map_witness :
  exists features,
    @embedding_service.generate_embedding Sample.imaging Sample.numeric
        Variants.map_model Sample.picture = Ok (PyList features) /\
    length features = 2%nat.
Proof.
  eexists. split.
  - apply (@generate_embedding_of_feature_map Sample.imaging Sample.numeric
             Variants.map_model Sample.picture
             {| shape := [1%nat; 2%nat; 1%nat; 2%nat];
                item := item (@embedding_service.preprocess_image Sample.imaging
                                Sample.numeric Variants.map_model Sample.picture) |}
             2 1 2);
      [reflexivity | reflexivity | lia].
  - reflexivity.
Defined.

Lemma generate_embedding_of_single_feature_witness :
  exists x,
    @embedding_service.generate_embedding Sample.imaging Sample.numeric
        Variants.scalar_model Sample.picture = Ok (PyFloat x) /\
    py_len (PyFloat x) = None.
Proof.
  apply (@generate_embedding_of_single_feature Sample.imaging Sample.numeric
           Variants.scalar_model Sample.picture
           {| shape := [1%nat; 1%nat];
              item := item (@embedding_service.preprocess_image Sample.imaging
                              Sample.numeric Variants.scalar_model Sample.picture) |});
    reflexivity.
Defined.


Lemma undecodable_upload_is_kept_on_disk_witness :
  app.index_image Sample.environ Variants.unreadable
      "Mona Lisa" "Leonardo da Vinci" "1503" "Painting" Sample.empty_world =
    (HTTPException 400
       ("Invalid image: " ++
        exn_str (Exception "UnidentifiedImageError" "cannot identify image file")),
     stored_upload (museum_file Variants.unreadable Sample.empty_world)
       Variants.unreadable Sample.empty_world).
Proof.
  apply (undecodable_upload_is_kept_on_disk Sample.environ Variants.unreadable
           "Mona Lisa" "Leonardo da Vinci" "1503" "Painting" Sample.empty_world);
    reflexivity.
Defined.

(** The decoded sample upload, as it is and converted to RGB, and its
    embedding. *)
Lemma sample_upload_decodes :
  PIL.decode (content Sample.upload) =
  Ok (Variants.value_or Sample.picture (PIL.decode (content Sample.upload))).
Proof. apply returned_value. reflexivity. Qed.

Lemma sample_upload_converts :
  PIL.convert (Variants.value_or Sample.picture (PIL.decode (content Sample.upload))) "RGB" =
  Ok (Variants.value_or Sample.picture (PIL.decode (content Sample.upload))).
Proof. reflexivity. Qed.

Lemma sample_upload_embeds :
  app.index_embed (Variants.value_or Sample.picture (PIL.decode (content Sample.upload))) =
  Ok (Variants.value_or (PyList [])
        (app.index_embed
           (Variants.value_or Sample.picture (PIL.decode (content Sample.upload))))).
Proof. apply returned_value. vm_cast_no_check (@eq_refl bool true). Qed.

Lemma refused_upsert_leaves_orphan_file_witness :
  exists detail w',
    app.index_image Sample.environ Sample.upload
        "Mona Lisa" "Leonardo da Vinci" "1503" "Painting" Sample.empty_world =
      (HTTPException 500 ("Error processing/indexing image: " ++ detail), w') /\
    pc w' = pc Sample.empty_world /\
    fs w' = <[museum_file Sample.upload Sample.empty_world := content Sample.upload]>
              (fs Sample.empty_world) /\
    calls w' =
      (calls Sample.empty_world ++
       [EvUpsert (app.PINECONE_INDEX Sample.environ)
          (upload_name Sample.upload Sample.empty_world)
          (Variants.value_or (PyList [])
             (app.index_embed
                (Variants.value_or Sample.picture
                   (PIL.decode (content Sample.upload)))))])%list.
Proof.
  apply (refused_upsert_leaves_orphan_file Sample.environ Sample.upload
           "Mona Lisa" "Leonardo da Vinci" "1503" "Painting" Sample.empty_world
           (Variants.value_or Sample.picture (PIL.decode (content Sample.upload)))
           (Variants.value_or Sample.picture (PIL.decode (content Sample.upload)))).
  - reflexivity.
  - reflexivity.
  - reflexivity.
  - exact sample_upload_decodes.
  - exact sample_upload_converts.
  - exact sample_upload_embeds.
  - right. left. reflexivity.
Defined.

Lemma index_image_stores_file_and_item_witness :
  exists (body : app.IndexResponse) (w' : World),
    app.index_image Sample.environ Sample.upload
        "Mona Lisa" "Leonardo da Vinci" "1503" "Painting" Variants.indexed_world
      = (Success body, w') /\
    app.status body = "ok" /\
    app.id body = upload_name Sample.upload Variants.indexed_world /\
    app.metadata body =
      item_metadata "Mona Lisa" "Leonardo da Vinci" "1503" "Painting"
        ("/images/museum/" ++ app.id body) /\
    fs w' !! ("images/museum/" ++ app.id body) = Some (content Sample.upload) /\
    exists rec',
      pc w' !! app.PINECONE_INDEX Sample.environ = Some rec' /\
      dimension rec' = dimension Variants.collection /\
      vectors rec' =
        <[app.id body :=
            (Variants.value_or (PyList [])
               (app.index_embed
                  (Variants.value_or Sample.picture
                     (PIL.decode (content Sample.upload)))),
             app.metadata body)]> (vectors Variants.collection).
Proof.
  apply (index_image_stores_file_and_item Sample.environ Sample.upload
           "Mona Lisa" "Leonardo da Vinci" "1503" "Painting" Variants.indexed_world
           (Variants.value_or Sample.picture (PIL.decode (content Sample.upload)))
           (Variants.value_or Sample.picture (PIL.decode (content Sample.upload)))).
  - reflexivity.
  - reflexivity.
  - reflexivity.
  - exact sample_upload_decodes.
  - exact sample_upload_converts.
  - exact sample_upload_embeds.
  - reflexivity.
  - reflexivity.
  - reflexivity.
Defined.

Lemma backslash_name_is_answered_invalid_witness :
  exists detail,
    app.index_image Sample.environ Variants.backslashed
        "Mona Lisa" "Leonardo da Vinci" "1503" "Painting" Sample.empty_world =
      (HTTPException 400 ("Invalid image: " ++ detail),
       stored_upload (museum_file Variants.backslashed Sample.empty_world)
         Variants.backslashed Sample.empty_world).
Proof.
  apply (backslash_name_is_answered_invalid Sample.environ Variants.backslashed
           "Mona Lisa" "Leonardo da Vinci" "1503" "Painting" Sample.empty_world).
  - reflexivity.
  - reflexivity.
  - reflexivity.
  - apply lookup_empty.
Defined.

(** The collection searched holds the two items of the sample uploads, and
    both are hits. *)
Lemma search_hits_mirror_matches_witness :
  (length (Variants.body_or []
             (app.search_image Sample.environ Sample.upload 5
                Sample.second_call.2).1) =? 2)%nat = true /\
  exists q_vector rec,
    pc Sample.second_call.2 !! app.PINECONE_INDEX Sample.environ = Some rec /\
    map app.hit_id
        (Variants.body_or []
           (app.search_image Sample.environ Sample.upload 5 Sample.second_call.2).1) =
      map match_id (top_matches q_vector 5 (vectors rec)) /\
    pc (app.search_image Sample.environ Sample.upload 5 Sample.second_call.2).2
      = pc Sample.second_call.2.
Proof.
  split; [vm_cast_no_check (@eq_refl bool true)|].
  destruct (search_hits_mirror_matches Sample.environ Sample.upload 5
              Sample.second_call.2
              (app.search_image Sample.environ Sample.upload 5 Sample.second_call.2).2
              (Variants.body_or []
                 (app.search_image Sample.environ Sample.upload 5
                    Sample.second_call.2).1))
    as (pil0 & rgb & q_vector & rec & _ & _ & _ & Hrec & Hids & _ & _ & _ & Hpc).
  - reflexivity.
  - apply (successful_answer []
             (app.search_image Sample.environ Sample.upload 5 Sample.second_call.2)).
    vm_cast_no_check (@eq_refl bool true).
  - exists q_vector, rec. split; [exact Hrec|]. split; [exact Hids | exact Hpc].
Defined.

(** The hits of that search: the two stored items, with the metadata of
    the form. *)
Example sample_search_hits :
  map app.hit_id
      (Variants.body_or []
         (app.search_image Sample.environ Sample.upload 5 Sample.second_call.2).1) =
    ["00000000000000000000000000000001_mona.jpg";
     "00000000000000000000000000000000_mona.jpg"] /\
  map app.hit_image_url
      (Variants.body_or []
         (app.search_image Sample.environ Sample.upload 5 Sample.second_call.2).1) =
    ["/images/museum/00000000000000000000000000000001_mona.jpg";
     "/images/museum/00000000000000000000000000000000_mona.jpg"].
Proof. split; vm_compute; reflexivity. Qed.

Lemma search_is_repeatable_witness :
  (length (Variants.body_or []
             (app.search_image Sample.environ Sample.upload 5
                Sample.second_call.2).1) =? 2)%nat = true /\
  exists w2,
    app.search_image Sample.environ Sample.upload 5
      (app.search_image Sample.environ Sample.upload 5 Sample.second_call.2).2
    = (Success (Variants.body_or []
                  (app.search_image Sample.environ Sample.upload 5
                     Sample.second_call.2).1), w2).
Proof.
  split; [vm_cast_no_check (@eq_refl bool true)|].
  apply (search_is_repeatable Sample.environ Sample.upload 5 Sample.second_call.2).
  - reflexivity.
  - apply (successful_answer []
             (app.search_image Sample.environ Sample.upload 5 Sample.second_call.2)).
    vm_cast_no_check (@eq_refl bool true).
  - reflexivity.
Defined.

Lemma startup_twice_creates_once_witness :
  exists w1,
    app.startup Sample.environ Sample.started = (Ok 3%nat, w1) /\
    pc w1 = pc Sample.started /\
    fs w1 = fs Sample.started /\
    calls w1 = (calls Sample.started ++ [EvGetEmbeddingDim; EvListIndexes])%list.
Proof.
  apply (startup_twice_creates_once Sample.environ Sample.empty_world).
  vm_cast_no_check (@eq_refl _ (@Ok nat 3%nat, Sample.started)).
Defined.


Lemma bulk_indexer_startup_is_server_startup_witness :
  images_embed.startup Sample.environ Sample.empty_world = (Ok 3%nat, Sample.started).
Proof.
  apply (bulk_indexer_startup_is_server_startup Sample.environ Sample.empty_world).
  vm_cast_no_check (@eq_refl _ (@Ok nat 3%nat, Sample.started)).
Defined.

(** The two outcomes of [index_folder]: a folder that is missing, and a
    folder with one picture. *)
Example index_folder_of_missing_folder :
  images_embed.index_folder Sample.environ "converted_images" Variants.indexed_world =
    (Raise (Exception "FileNotFoundError" "No such file or directory"),
     Variants.indexed_world).
Proof. reflexivity. Qed.

Example index_folder_of_one_picture :
  (images_embed.index_folder Sample.environ "converted_images" Variants.folder_world).1
    = Ok tt /\
  length (calls (images_embed.index_folder Sample.environ "converted_images"
                   Variants.folder_world).2) = 1%nat.
Proof. split; vm_compute; reflexivity. Qed.

Lemma bulk_item_has_url_without_file_witness :
  exists item_id w',
    item_id = uuid.hex (uuid4 (uuid_count Variants.folder_world)) ++ "_" ++ "mona.jpg" /\
    images_embed.index_file Sample.environ "converted_images" "mona.jpg"
      Variants.folder_world = (Ok tt, w') /\
    fs w' = fs Variants.folder_world /\
    uuid_count w' = S (uuid_count Variants.folder_world) /\
    pc w' =
      <[images_embed.PINECONE_INDEX Sample.environ :=
          mkIndexRec (dimension Variants.collection) (metric Variants.collection)
            (region Variants.collection)
            (<[item_id :=
                 (Variants.value_or (PyList [])
                    (images_embed.index_embed
                       (Variants.value_or Sample.picture (PIL.decode [Byte.x78]))),
                  item_metadata "" "" "" "" ("/images/museum/" ++ item_id))]>
               (vectors Variants.collection))]> (pc Variants.folder_world).
Proof.
  apply (bulk_item_has_url_without_file Sample.environ "converted_images" "mona.jpg"
           Variants.folder_world [Byte.x78]
           (Variants.value_or Sample.picture (PIL.decode [Byte.x78]))
           (Variants.value_or Sample.picture (PIL.decode [Byte.x78]))).
  - reflexivity.
  - apply returned_value. reflexivity.
  - reflexivity.
  - apply returned_value. vm_cast_no_check (@eq_refl bool true).
  - reflexivity.
  - reflexivity.
  - reflexivity.
Defined.

End ConcreteEdges.

Section ConcreteFailures.
#[local] Existing Instances Sample.imaging Sample.detector Sample.opencv
  Sample.numeric Sample.entropy Sample.search
  Sample.filesystem Sample.runtime Sample.api.
#[local] Existing Instance Variants.broken_model.

Lemma failed_embedding_sends_nothing_witness :
  app.index_image Sample.environ Sample.upload
      "Mona Lisa" "Leonardo da Vinci" "1503" "Painting" Sample.empty_world =
    (HTTPException 500
       ("Error processing/indexing image: " ++
        exn_str (Exception "RuntimeError" "out of memory")),
     stored_upload (museum_file Sample.upload Sample.empty_world)
       Sample.upload Sample.empty_world).
Proof.
  apply (failed_embedding_sends_nothing Sample.environ Sample.upload
           "Mona Lisa" "Leonardo da Vinci" "1503" "Painting" Sample.empty_world
           (Variants.value_or Sample.picture (PIL.decode (content Sample.upload)))
           (Variants.value_or Sample.picture (PIL.decode (content Sample.upload)))).
  - reflexivity.
  - reflexivity.
  - reflexivity.
  - apply returned_value. reflexivity.
  - reflexivity.
  - reflexivity.
Defined.

(** A start-up that fails after the API key was found: the model cannot
    be probed.  The probe is on the record, and nothing was created. *)
Example failed_probe_creates_nothing :
  app.startup Sample.environ Sample.empty_world =
    (Raise (Exception "RuntimeError" "out of memory"),
     {| fs := ∅; pc := ∅; uuid_count := 0; calls := [EvGetEmbeddingDim] |}).
Proof. reflexivity. Qed.

End ConcreteFailures.

(** ** The norm of an embedding on concrete binary32 features *)

Section ConcreteBinary32.
#[local] Existing Instances Sample.imaging Variants.silence.



(** Squares that underflow: the features [2^-100] and [0] are not all
    zero, their computed norm is zero, and they are returned as they
    are. *)
Example underflowing_norm_leaves_features :
  Float32.norm [Float32.div (Float32.of_int 1) (Float32.of_int (2 ^ 100)); Float32.zero]
    = Float32.zero /\
  embedding_service.normalize_vector
      (Variants.pair_of (Float32.div (Float32.of_int 1) (Float32.of_int (2 ^ 100)))
                        Float32.zero) =
    Variants.pair_of (Float32.div (Float32.of_int 1) (Float32.of_int (2 ^ 100)))
                     Float32.zero.
Proof. split; reflexivity. Qed.

End ConcreteBinary32.
